(** * Nutrition analyzer: key derivation and cache-through orchestration

    A shallow embedding of the two variants of the service:
    - [src/main.py] (handler [analyze_nutrition]), and
    - [src/backend/main.py] ([norm_ingredients], [make_hash],
      [fetch_from_cache], [write_cache], [call_edamam], [analyze]).

    Python strings are sequences of Unicode code points; timestamps are
    integers counting microseconds, which the store keeps at the precision
    of BSON dates, whole milliseconds, in documents and in query bounds; the
    MongoDB collection is the list of its documents in natural order, a
    lookup by key compares the key field with a string; every effect of a
    handler (store access, clock, provider call) is explicit. *)

From Stdlib Require Import String Ascii ZArith List Bool Lia.
From Stdlib Require Import Floats.SpecFloat.
Import ListNotations.
Local Open Scope Z_scope.
Set Warnings "-register-all".

(** ** Python strings *)

(** A [str] is the list of its code points. *)
Definition str := list Z.

(** An ASCII literal as a [str]. *)
Fixpoint py (s : string) : str :=
  match s with
  | EmptyString => []
  | String a r => Z.of_N (N_of_ascii a) :: py r
  end.

Definition LF : str := [10].
Definition SP : str := [32].

Fixpoint str_eqb (a b : str) : bool :=
  match a, b with
  | [], [] => true
  | x :: a', y :: b' => (x =? y) && str_eqb a' b'
  | _, _ => false
  end.

(** [bool(s)] for a string: non-empty. *)
Definition str_truthy (s : str) : bool :=
  match s with [] => false | _ :: _ => true end.

(** The code points [str.isspace], [str.strip] and [str.split] treat as
    whitespace (CPython's [_PyUnicode_IsWhitespace]). *)
Definition isspace (c : Z) : bool :=
  ((9 <=? c) && (c <=? 13)) || ((28 <=? c) && (c <=? 32))
  || (c =? 133) || (c =? 160) || (c =? 5760)
  || ((8192 <=? c) && (c <=? 8202))
  || (c =? 8232) || (c =? 8233) || (c =? 8239) || (c =? 8287)
  || (c =? 12288).

Fixpoint lstrip (s : str) : str :=
  match s with
  | [] => []
  | c :: r => if isspace c then lstrip r else s
  end.

Definition rstrip (s : str) : str := rev (lstrip (rev s)).

(** [s.strip()] *)
Definition strip (s : str) : str := rstrip (lstrip s).

(** [s.split()]: the maximal whitespace-free runs of [s], in order. *)
Fixpoint split (s : str) : list str :=
  match s with
  | [] => []
  | c :: r =>
      if isspace c then split r
      else match r with
           | [] => [[c]]
           | d :: _ =>
               if isspace d then [c] :: split r
               else match split r with
                    | w :: ws => (c :: w) :: ws
                    | [] => [[c]]
                    end
           end
  end.

(** [sep.join(l)] *)
Fixpoint join (sep : str) (l : list str) : str :=
  match l with
  | [] => []
  | x :: r => match r with
              | [] => x
              | _ :: _ => x ++ sep ++ join sep r
              end
  end.

(** [s.isascii()] *)
Definition isascii (s : str) : bool :=
  forallb (fun c => (0 <=? c) && (c <? 128)) s.

Definition ascii_tolower (c : Z) : Z :=
  if (65 <=? c) && (c <=? 90) then c + 32 else c.

(** ** UTF-8 and SHA-256 *)

(** [s.encode("utf-8")]: [None] stands for [UnicodeEncodeError] (a lone
    surrogate; values outside the code space cannot occur in a [str]). *)
Definition encode_codepoint (c : Z) : option (list Z) :=
  if c <? 0 then None
  else if c <? 128 then Some [c]
  else if c <? 2048 then
    Some [Z.lor 192 (Z.shiftr c 6); Z.lor 128 (Z.land c 63)]
  else if c <? 65536 then
    if (55296 <=? c) && (c <=? 57343) then None
    else Some [Z.lor 224 (Z.shiftr c 12);
               Z.lor 128 (Z.land (Z.shiftr c 6) 63);
               Z.lor 128 (Z.land c 63)]
  else if c <? 1114112 then
    Some [Z.lor 240 (Z.shiftr c 18);
          Z.lor 128 (Z.land (Z.shiftr c 12) 63);
          Z.lor 128 (Z.land (Z.shiftr c 6) 63);
          Z.lor 128 (Z.land c 63)]
  else None.

Fixpoint encode_utf8 (s : str) : option (list Z) :=
  match s with
  | [] => Some []
  | c :: r =>
      match encode_codepoint c, encode_utf8 r with
      | Some b, Some bs => Some (b ++ bs)
      | _, _ => None
      end
  end.

Module SHA256.

Definition w32 (x : Z) : Z := x mod 4294967296.
Definition add32 (x y : Z) : Z := w32 (x + y).
Definition rotr (n x : Z) : Z :=
  Z.lor (Z.shiftr x n) (w32 (Z.shiftl x (32 - n))).
Definition not32 (x : Z) : Z := 4294967295 - x.

Definition Ch (x y z : Z) : Z := Z.lxor (Z.land x y) (Z.land (not32 x) z).
Definition Maj (x y z : Z) : Z :=
  Z.lxor (Z.lxor (Z.land x y) (Z.land x z)) (Z.land y z).
Definition Sigma0 (x : Z) : Z :=
  Z.lxor (Z.lxor (rotr 2 x) (rotr 13 x)) (rotr 22 x).
Definition Sigma1 (x : Z) : Z :=
  Z.lxor (Z.lxor (rotr 6 x) (rotr 11 x)) (rotr 25 x).
Definition sigma0 (x : Z) : Z :=
  Z.lxor (Z.lxor (rotr 7 x) (rotr 18 x)) (Z.shiftr x 3).
Definition sigma1 (x : Z) : Z :=
  Z.lxor (Z.lxor (rotr 17 x) (rotr 19 x)) (Z.shiftr x 10).

(** The first primes. *)
Definition is_prime (n : Z) : bool :=
  (1 <? n) && forallb (fun d => negb (n mod Z.of_nat d =? 0))
                      (seq 2 (Z.to_nat n - 2)).

Definition primes (n : nat) : list Z :=
  firstn n (filter is_prime (map Z.of_nat (seq 2 320))).

(** The integer cube root of a number below 2 ^ (3 * bits), bit by bit. *)
Fixpoint cbrt_bits (bits : nat) (r n : Z) : Z :=
  match bits with
  | O => r
  | S b =>
      let r' := r + 2 ^ Z.of_nat b in
      if r' * r' * r' <=? n then cbrt_bits b r' n else cbrt_bits b r n
  end.

(** The round constants: the first 32 bits of the fractional parts of the
    cube roots of the first 64 primes. *)
Definition K : list Z :=
  Eval vm_compute in
    map (fun p => w32 (cbrt_bits 40 0 (p * 2 ^ 96))) (primes 64).

(** The initial hash value: the first 32 bits of the fractional parts of
    the square roots of the first 8 primes. *)
Definition H0 : list Z :=
  Eval vm_compute in map (fun p => w32 (Z.sqrt (p * 2 ^ 64))) (primes 8).

(** Big-endian bytes of a [n]-byte word, most significant first. *)
Fixpoint be_bytes (n : nat) (x : Z) : list Z :=
  match n with
  | O => []
  | S m => Z.land (Z.shiftr x (8 * Z.of_nat m)) 255 :: be_bytes m x
  end.

(** Message padding: a 1 bit, zeros up to 56 mod 64 bytes, then the bit
    length as a 64-bit big-endian integer. *)
Definition pad (msg : list Z) : list Z :=
  let l := Z.of_nat (length msg) in
  let zeros := Z.to_nat ((55 - l) mod 64) in
  msg ++ [128] ++ repeat 0 zeros ++ be_bytes 8 (8 * l).

Fixpoint words_of_bytes (n : nat) (b : list Z) : list Z :=
  match n with
  | O => []
  | S m =>
      match b with
      | b0 :: b1 :: b2 :: b3 :: r =>
          (b0 * 16777216 + b1 * 65536 + b2 * 256 + b3) :: words_of_bytes m r
      | _ => []
      end
  end.

(** The message schedule, most recent word first: [ws] holds
    W(t-1), W(t-2), ... *)
Fixpoint schedule (n : nat) (ws : list Z) : list Z :=
  match n with
  | O => ws
  | S m =>
      let w := add32 (add32 (sigma1 (nth 1 ws 0)) (nth 6 ws 0))
                     (add32 (sigma0 (nth 14 ws 0)) (nth 15 ws 0)) in
      schedule m (w :: ws)
  end.

Record regs := Regs { ra : Z; rb : Z; rc : Z; rd : Z;
                      re : Z; rf : Z; rg : Z; rh : Z }.

Definition round (s : regs) (kw : Z * Z) : regs :=
  let t1 := add32 (add32 (add32 (rh s) (Sigma1 (re s)))
                         (add32 (Ch (re s) (rf s) (rg s)) (fst kw)))
                  (snd kw) in
  let t2 := add32 (Sigma0 (ra s)) (Maj (ra s) (rb s) (rc s)) in
  Regs (add32 t1 t2) (ra s) (rb s) (rc s) (add32 (rd s) t1) (re s) (rf s) (rg s).

Definition regs_of (h : list Z) : regs :=
  Regs (nth 0 h 0) (nth 1 h 0) (nth 2 h 0) (nth 3 h 0)
       (nth 4 h 0) (nth 5 h 0) (nth 6 h 0) (nth 7 h 0).

Definition compress (h : list Z) (block : list Z) : list Z :=
  let w := rev (schedule 48 (rev (words_of_bytes 16 block))) in
  let s0 := regs_of h in
  let s := fold_left round (combine K w) s0 in
  [add32 (ra s0) (ra s); add32 (rb s0) (rb s); add32 (rc s0) (rc s);
   add32 (rd s0) (rd s); add32 (re s0) (re s); add32 (rf s0) (rf s);
   add32 (rg s0) (rg s); add32 (rh s0) (rh s)].

Fixpoint blocks (n : nat) (h : list Z) (b : list Z) : list Z :=
  match n with
  | O => h
  | S m => blocks m (compress h (firstn 64 b)) (skipn 64 b)
  end.

(** [hashlib.sha256(msg).digest()] *)
Definition digest (msg : list Z) : list Z :=
  let p := pad msg in
  flat_map (be_bytes 4) (blocks (length p / 64)%nat H0 p).

Definition hexdigit (n : Z) : Z := if n <? 10 then 48 + n else 87 + n.

(** [hashlib.sha256(msg).hexdigest()]: lowercase hexadecimal. *)
Definition hexdigest (msg : list Z) : str :=
  flat_map (fun b => [hexdigit (Z.shiftr b 4); hexdigit (Z.land b 15)])
           (digest msg).

End SHA256.

(** ** Python values and dictionaries *)

(** What a JSON body or a stored document can hold: [None], booleans,
    numbers, strings, datetimes (microseconds since the epoch), lists and
    dictionaries (keys in insertion order, each at most once). *)
Inductive value : Type :=
| VNone
| VBool (b : bool)
| VInt (n : Z)
| VFloat (f : spec_float)
| VStr (s : str)
| VDatetime (t : Z)
| VList (l : list value)
| VDict (d : list (str * value)).

Definition dict := list (str * value).

(** [bool(v)] *)
Definition truthy (v : value) : bool :=
  match v with
  | VNone => false
  | VBool b => b
  | VInt n => negb (n =? 0)
  | VFloat f => match f with S754_zero _ => false | _ => true end
  | VStr s => str_truthy s
  | VDatetime _ => true
  | VList l => match l with [] => false | _ :: _ => true end
  | VDict d => match d with [] => false | _ :: _ => true end
  end.

(** [a or b] *)
Definition por (a b : value) : value := if truthy a then a else b.

(** [v is not None] *)
Definition is_not_None (v : value) : bool :=
  match v with VNone => false | _ => true end.

(** [isinstance(v, datetime)] *)
Definition is_datetime (v : value) : bool :=
  match v with VDatetime _ => true | _ => false end.

Fixpoint lookup (d : dict) (k : str) : option value :=
  match d with
  | [] => None
  | (k', v) :: r => if str_eqb k' k then Some v else lookup r k
  end.

(** [d.get(k, default)] *)
Definition get_default (d : dict) (k : str) (default : value) : value :=
  match lookup d k with Some v => v | None => default end.

(** [d.get(k)] *)
Definition get (d : dict) (k : str) : value := get_default d k VNone.

(** [d[k] = v] *)
Fixpoint dict_set (d : dict) (k : str) (v : value) : dict :=
  match d with
  | [] => [(k, v)]
  | (k', v') :: r =>
      if str_eqb k' k then (k', v) :: r else (k', v') :: dict_set r k v
  end.

Definition set_fields (fields : dict) (d : dict) : dict :=
  fold_left (fun acc kv => dict_set acc (fst kv) (snd kv)) fields d.

(** [timedelta(seconds=n)] in microseconds. *)
Definition timedelta_seconds (n : Z) : Z := n * 1000000.

(** ** The cache store

    The collection [analyzercache] is the list of its documents in natural
    order; [find_one] returns the first document that matches and
    [update_one] changes the first document that matches. *)
Definition document := dict.
Definition collection := list document.

(** A date on its way to the store. A BSON date counts milliseconds since
    the epoch: the driver drops the microseconds below the millisecond of
    every datetime it encodes, in a document it writes and in the bound of
    a query alike. *)
Definition bson_datetime (t : Z) : Z := t / 1000 * 1000.

(** A value as the store holds it after a write: its datetimes, at any
    depth, are cut to the millisecond; the other values are taken to fit
    the types of the store and come back as they went in. *)
Fixpoint bson (v : value) : value :=
  match v with
  | VDatetime t => VDatetime (bson_datetime t)
  | VList l => VList (map bson l)
  | VDict d => VDict (map (fun kv => match kv with (k, x) => (k, bson x) end) d)
  | _ => v
  end.

Definition bson_document (d : document) : document :=
  map (fun kv => match kv with (k, x) => (k, bson x) end) d.

(** The values a JSON body can hold: no datetime at any depth. *)
Fixpoint is_json (v : value) : bool :=
  match v with
  | VDatetime _ => false
  | VList l => forallb is_json l
  | VDict d => forallb (fun kv => match kv with (_, x) => is_json x end) d
  | _ => true
  end.

(** The filter [{"ingredients_hash": h}]. *)
Definition hash_is (h : str) (d : document) : bool :=
  match lookup d (py "ingredients_hash") with
  | Some (VStr s) => str_eqb s h
  | _ => false
  end.

(** The filter [{"created_at": {"$gte": cutoff}}]: only a date compares
    with a date, and the bound is sent as a BSON date. *)
Definition created_gte (cutoff : Z) (d : document) : bool :=
  match lookup d (py "created_at") with
  | Some (VDatetime t) => bson_datetime cutoff <=? t
  | _ => false
  end.

Fixpoint update_first (p : document -> bool) (f : document -> document)
  (c : collection) : option collection :=
  match c with
  | [] => None
  | d :: r =>
      if p d then Some (f d :: r)
      else match update_first p f r with
           | Some r' => Some (d :: r')
           | None => None
           end
  end.

(** [update_one(filter, {"$set": set, "$setOnInsert": on_insert},
    upsert=True)], where [eq_fields] are the equalities of the filter. *)
Definition upsert (p : document -> bool) (eq_fields set on_insert : dict)
  (c : collection) : collection :=
  match update_first p (set_fields set) c with
  | Some c' => c'
  | None => c ++ [set_fields on_insert (set_fields set (set_fields eq_fields []))]
  end.

(** ** Effects of a request *)

Inductive exn : Type :=
| HTTPException (status_code : Z) (detail : value)
| UnicodeEncodeError
| TypeError
| PyMongoError
| TransportError (msg : str)
| JSONDecodeError
| AttributeError
| ValidationError.

Inductive outcome (A : Type) : Type :=
| Return (a : A)
| Raise (e : exn).
Arguments Return {A} a.
Arguments Raise {A} e.

(** What a request sends out, in order. *)
Inductive event : Type :=
| Find_one (h : str)
| Insert_one (h : str)
| Update_one (h : str)
| Post (ingr : list str).

(** [db] is [None] when the database is not configured. *)
Record world := World { db : option collection; events : list event }.

(** The answer of the provider to a POST. *)
Record response := Response {
  status_code : Z;
  text : str;
  json : option value   (* [None]: the body is not JSON, [r.json()] raises *)
}.

Inductive reply : Type :=
| Unreachable (msg : str)
| Responded (r : response).

(** Environment variables. *)
Record config := Config {
  EDAMAM_APP_ID : option str;
  EDAMAM_APP_KEY : option str;
  CACHE_TTL_SECONDS : Z
}.

(** What the surroundings do during one request: the clock when the
    request looks the key up and when it writes, whether the store raises
    on the lookup or on the write, and the provider's answer. *)
Record oracle := Oracle {
  t_lookup : Z;
  t_write : Z;
  find_one_raises : bool;
  write_raises : bool;
  edamam : reply
}.

(** [bool(os.getenv(name))] *)
Definition configured (v : option str) : bool :=
  match v with Some s => str_truthy s | None => false end.

Definition M (A : Type) : Type := world -> outcome A * world.

Definition ret {A : Type} (a : A) : M A := fun w => (Return a, w).

Definition raise {A : Type} (e : exn) : M A := fun w => (Raise e, w).

Definition bind {A B : Type} (m : M A) (k : A -> M B) : M B :=
  fun w => match m w with
           | (Return a, w') => k a w'
           | (Raise e, w') => (Raise e, w')
           end.

(** [try: m  except Exception: h] *)
Definition try_except {A : Type} (m : M A) (h : exn -> M A) : M A :=
  fun w => match m w with
           | (Return a, w') => (Return a, w')
           | (Raise e, w') => h e w'
           end.

Notation "x <- m ;; k" := (bind m (fun x => k))
  (at level 61, m at next level, right associativity).
Notation "m ;;; k" := (bind m (fun _ => k))
  (at level 61, right associativity).

Definition lift {A : Type} (r : outcome A) : M A := fun w => (r, w).

Definition log (e : event) (w : world) : world :=
  World (db w) (events w ++ [e]).

(** [db is None] *)
Definition db_is_None : M bool :=
  fun w => (Return (match db w with None => true | Some _ => false end), w).

(** [db["analyzercache"].find_one(filter)] *)
Definition find_one (o : oracle) (h : str) (p : document -> bool)
  : M (option document) :=
  fun w => match db w with
           | None => (Raise TypeError, w)
           | Some c =>
               if find_one_raises o then (Raise PyMongoError, log (Find_one h) w)
               else (Return (find p c), log (Find_one h) w)
           end.

(** [db["analyzercache"].insert_one(doc)] *)
Definition insert_one (o : oracle) (h : str) (doc : document) : M unit :=
  fun w => match db w with
           | None => (Raise TypeError, w)
           | Some c =>
               if write_raises o then (Raise PyMongoError, log (Insert_one h) w)
               else (Return tt,
                     World (Some (c ++ [bson_document doc]))
                           (events w ++ [Insert_one h]))
           end.

(** [db["analyzercache"].update_one(..., upsert=True)] *)
Definition update_one (o : oracle) (h : str) (set on_insert : dict) : M unit :=
  fun w => match db w with
           | None => (Raise TypeError, w)
           | Some c =>
               if write_raises o then (Raise PyMongoError, log (Update_one h) w)
               else (Return tt,
                     World (Some (upsert (hash_is h)
                                    [(py "ingredients_hash", VStr h)]
                                    (bson_document set) (bson_document on_insert) c))
                           (events w ++ [Update_one h]))
           end.

(** The POST to the provider. *)
Definition post (o : oracle) (ingr : list str) : M response :=
  fun w => match edamam o with
           | Unreachable msg => (Raise (TransportError msg), log (Post ingr) w)
           | Responded r => (Return r, log (Post ingr) w)
           end.

(** [r.json()] *)
Definition response_json (r : response) : M value :=
  match json r with
  | Some v => ret v
  | None => raise JSONDecodeError
  end.

(** [hashlib.sha256(s.encode("utf-8")).hexdigest()] *)
Definition sha256_hex (s : str) : outcome str :=
  match encode_utf8 s with
  | Some b => Return (SHA256.hexdigest b)
  | None => Raise UnicodeEncodeError
  end.

(** An [Optional[dict]] as a value, and back. *)
Definition optional_dict (d : option document) : value :=
  match d with Some d => VDict d | None => VNone end.

Definition as_dict (v : value) : dict :=
  match v with VDict d => d | _ => [] end.

(** The response model: [data] has to be a dict, any other value is a
    validation error. *)
Record AnalyzeResponse := Build_response {
  cache : str;
  ingredients_hash : str;
  data : dict
}.

Definition make_response (c h : str) (v : value) : M AnalyzeResponse :=
  match v with
  | VDict d => ret (Build_response c h d)
  | _ => raise ValidationError
  end.

(** ** The other endpoints of src/main.py *)

Section Endpoints.

(** [s.rstrip("/")] and [s.startswith("/")], for a single character. *)
Fixpoint lstrip_char (ch : Z) (s : str) : str :=
  match s with
  | [] => []
  | c :: r => if c =? ch then lstrip_char ch r else s
  end.

Definition rstrip_char (ch : Z) (s : str) : str := rev (lstrip_char ch (rev s)).

Definition startswith_char (ch : Z) (s : str) : bool :=
  match s with
  | [] => false
  | c :: _ => c =? ch
  end.

Definition SLASH : Z := 47.

Definition ascii_toupper (c : Z) : Z :=
  if (97 <=? c) && (c <=? 122) then c - 32 else c.

(** [str.upper] of a string that is not pure ASCII, from the Unicode
    character database. *)
Variable unicode_upper : str -> str.

(** [s.upper()] *)
Definition upper (s : str) : str :=
  if isascii s then map ascii_toupper s else unicode_upper s.

(** [int(delta.total_seconds() * 1000)] for a delta of so many
    microseconds: a floating-point computation. *)
Variable elapsed_ms : Z -> Z.

Record ApiValidateRequest := Build_request {
  baseUrl : str;          (* [str(req.baseUrl)] *)
  path : option str;
  method : option str
}.

Record ApiValidateResponse := Build_validation {
  ok : bool;
  status : option Z;
  time_ms : option Z;
  final_url : option str;
  error : option str
}.

(** What [requests.request] gives: a [RequestException] with its message,
    or a response of which the handler reads the status, the text and the
    final URL. *)
Record answer := Answer { status_of : Z; text_of : str; url_of : str }.

Inductive request_outcome : Type :=
| Request_failed (msg : str)
| Answered (r : answer).

(** [validate_api]: the request it sends (method and URL) and the response
    it returns; [start] and [stop] are the clock before and after the
    request. *)
Definition validate_api (req : ApiValidateRequest) (start stop : Z)
  (reply : request_outcome) : (str * str) * ApiValidateResponse :=
  let url := rstrip_char SLASH (baseUrl req) in
  let url :=
    match path req with
    | Some p =>
        if str_truthy p then
          let p := if startswith_char SLASH p then p else [SLASH] ++ p in
          url ++ p
        else url
    | None => url
    end in
  let method :=
    upper (match method req with
           | Some m => if str_truthy m then m else py "GET"
           | None => py "GET"
           end) in
  ((method, url),
   match reply with
   | Answered r =>
       let delta := stop - start in
       Build_validation (status_of r <? 400) (Some (status_of r))
         (Some (elapsed_ms delta)) (Some (url_of r))
         (if status_of r <? 400 then None else Some (firstn 300 (text_of r)))
   | Request_failed e =>
       Build_validation false None None (Some url) (Some e)
   end).

(** The marks of the status report: U+2705, U+274C, and U+26A0 with its
    variation selector. *)
Definition CHECK_MARK : str := [9989].
Definition CROSS_MARK : str := [10060].
Definition WARNING_SIGN : str := [9888; 65039].

(** The database handle as [test_database] uses it: its [name], when it
    has one, and [list_collection_names()], which returns the names or
    raises an exception with a message. *)
Record database := Database {
  name : option str;
  list_collection_names : str + list str
}.

(** [test_database]: the report it returns, as a dictionary. The outer
    handler has nothing to catch here: [list_collection_names] is the only
    call that can raise, and it is caught by the inner one. *)
Definition test_database (handle : option database)
  (DATABASE_URL DATABASE_NAME : option str) : dict :=
  let response :=
    [(py "backend", VStr (CHECK_MARK ++ py " Running"));
     (py "database", VStr (CROSS_MARK ++ py " Not Available"));
     (py "database_url", VNone);
     (py "database_name", VNone);
     (py "connection_status", VStr (py "Not Connected"));
     (py "collections", VList [])] in
  let response :=
    match handle with
    | Some d =>
        let response :=
          dict_set response (py "database") (VStr (CHECK_MARK ++ py " Available")) in
        let response :=
          dict_set response (py "database_url")
            (VStr (CHECK_MARK ++ py " Configured")) in
        let response :=
          dict_set response (py "database_name")
            (VStr match name d with
                  | Some n => n
                  | None => CHECK_MARK ++ py " Connected"
                  end) in
        let response :=
          dict_set response (py "connection_status") (VStr (py "Connected")) in
        match list_collection_names d with
        | inr collections =>
            let response :=
              dict_set response (py "collections")
                (VList (map VStr (firstn 10 collections))) in
            dict_set response (py "database")
              (VStr (CHECK_MARK ++ py " Connected & Working"))
        | inl e =>
            dict_set response (py "database")
              (VStr (WARNING_SIGN ++ py "  Connected but Error: " ++ firstn 50 e))
        end
    | None =>
        dict_set response (py "database")
          (VStr (WARNING_SIGN ++ py "  Available but not initialized"))
    end in
  let response :=
    dict_set response (py "database_url")
      (VStr (if configured DATABASE_URL then CHECK_MARK ++ py " Set"
             else CROSS_MARK ++ py " Not Set")) in
  dict_set response (py "database_name")
    (VStr (if configured DATABASE_NAME then CHECK_MARK ++ py " Set"
           else CROSS_MARK ++ py " Not Set")).

End Endpoints.

(** A lowercase mapping that knows ASCII only, and a rendering of values
    that shows nothing of them: instances for the examples. *)
Definition ascii_only (s : str) : str := map ascii_tolower s.

Definition plain_repr (v : value) : str := py "<value>".

(** ** The two programs *)

Section Service.

(** [str.lower] of a string that is not pure ASCII goes through the Unicode
    character database of the interpreter (full lowercase mappings and the
    final-sigma rule), which is outside the repository. *)
Variable unicode_lower : str -> str.

(** [str(v)] for a value that is not a string (numbers, lists, dicts). *)
Variable repr : value -> str.

(** [s.lower()] *)
Definition lower (s : str) : str :=
  if isascii s then map ascii_tolower s else unicode_lower s.

(** The replacement field [{v}] of an f-string. *)
Definition format (v : value) : str :=
  match v with
  | VStr s => s
  | _ => repr v
  end.

(** [expires_at < now], for a datetime. *)
Definition datetime_lt (v : value) (now : Z) : bool :=
  match v with
  | VDatetime t => t <? now
  | _ => false
  end.

(** *** src/backend/main.py *)

(** The expression [" ".join(s.strip().lower().split())] applied to each
    entry by [norm_ingredients]. *)
Definition normalize (s : str) : str := join SP (split (lower (strip s))).

Definition norm_ingredients (ingredients : list str) : list str :=
  map normalize
      (filter (fun s => str_truthy s && str_truthy (strip s)) ingredients).

Definition make_hash (ingredients : list str) : outcome str :=
  let joined := join LF (norm_ingredients ingredients) in
  sha256_hex joined.

Definition fetch_from_cache (o : oracle) (ingredients_hash : str) : M value :=
  try_except
    (none <- db_is_None ;;
     if none then ret VNone
     else
       doc <- find_one o ingredients_hash (hash_is ingredients_hash) ;;
       match doc with
       | None => ret VNone
       | Some doc =>
           if negb (truthy (VDict doc)) then ret VNone
           else
             let expires_at := get doc (py "expires_at") in
             if truthy expires_at && is_datetime expires_at
                && datetime_lt expires_at (t_lookup o)
             then ret VNone
             else ret (get doc (py "data"))
       end)
    (fun _ => ret VNone).

Definition write_cache (cfg : config) (o : oracle) (ingredients_hash : str)
  (data : value) : M unit :=
  try_except
    (none <- db_is_None ;;
     if none then ret tt
     else
       let now := t_write o in
       update_one o ingredients_hash
         [(py "data", data);
          (py "updated_at", VDatetime now);
          (py "expires_at",
           VDatetime (now + timedelta_seconds (CACHE_TTL_SECONDS cfg)))]
         [(py "created_at", VDatetime now);
          (py "ingredients_hash", VStr ingredients_hash)])
    (fun _ => ret tt).

Definition call_edamam (cfg : config) (o : oracle) (ingredients : list str)
  : M value :=
  if negb (configured (EDAMAM_APP_ID cfg))
     || negb (configured (EDAMAM_APP_KEY cfg))
  then raise (HTTPException 500 (VStr (py "Edamam credentials not configured")))
  else
    r <- post o (norm_ingredients ingredients) ;;
    if 400 <=? status_code r then
      message <-
        try_except
          (err <- response_json r ;;
           match err with
           | VDict d =>
               ret (por (por (get d (py "message")) (get d (py "error")))
                        (VStr (text r)))
           | _ => raise AttributeError
           end)
          (fun _ => ret (VStr (text r))) ;;
      raise (HTTPException (status_code r)
               (VStr (py "Edamam error: " ++ format message)))
    else response_json r.

Definition analyze (cfg : config) (o : oracle) (ingredients : list str)
  : M AnalyzeResponse :=
  if match ingredients with [] => true | _ :: _ => false end
     || (length (norm_ingredients ingredients) =? 0)%nat
  then raise (HTTPException 400 (VStr (py "Provide at least one ingredient line")))
  else
    ingredients_hash <- lift (make_hash ingredients) ;;
    cached <- fetch_from_cache o ingredients_hash ;;
    if is_not_None cached then
      make_response (py "hit") ingredients_hash cached
    else
      data <- call_edamam cfg o ingredients ;;
      write_cache cfg o ingredients_hash data ;;;
      make_response (py "miss") ingredients_hash data.

(** *** src/main.py *)

(** The expression [i.strip().lower()] applied to each entry by
    [analyze_nutrition]. *)
Definition normalize_root (i : str) : str := lower (strip i).

Definition analyze_nutrition (cfg : config) (o : oracle)
  (ingredients : list str) : M AnalyzeResponse :=
  if negb (configured (EDAMAM_APP_ID cfg))
     || negb (configured (EDAMAM_APP_KEY cfg))
  then raise (HTTPException 500
                (VStr (py "Edamam credentials are not configured.")))
  else
    let ttl_seconds := CACHE_TTL_SECONDS cfg in
    let normalized :=
      map normalize_root
          (filter (fun i => str_truthy i && str_truthy (strip i)) ingredients) in
    match normalized with
    | [] => raise (HTTPException 400
                     (VStr (py "Please provide at least one ingredient.")))
    | _ :: _ =>
        let joined := join LF normalized in
        ingredients_hash <- lift (sha256_hex joined) ;;
        let now := t_lookup o in
        let ttl_cutoff := now - timedelta_seconds ttl_seconds in
        none <- db_is_None ;;
        cached_doc <-
          (if none then ret VNone
           else
             found <- find_one o ingredients_hash
                        (fun d => hash_is ingredients_hash d
                                  && created_gte ttl_cutoff d) ;;
             ret (optional_dict found)) ;;
        if truthy cached_doc then
          make_response (py "hit") ingredients_hash
            (get_default (as_dict cached_doc) (py "result") (VDict []))
        else
          r <- try_except (post o normalized)
                 (fun e =>
                    match e with
                    | TransportError msg =>
                        raise (HTTPException 502
                                 (VStr (py "Error contacting nutrition service: "
                                        ++ msg)))
                    | _ => raise e
                    end) ;;
          if 400 <=? status_code r then
            err <- try_except (response_json r)
                     (fun _ => ret (VDict [(py "message", VStr (text r))])) ;;
            raise (HTTPException (status_code r) err)
          else
            data <- response_json r ;;
            none <- db_is_None ;;
            (if none then ret tt
             else insert_one o ingredients_hash
                    [(py "ingredients", VList (map VStr normalized));
                     (py "ingredients_hash", VStr ingredients_hash);
                     (py "result", data);
                     (py "created_at", VDatetime now);
                     (py "updated_at", VDatetime now)]) ;;;
            make_response (py "miss") ingredients_hash data
    end.

(** ** Reference definitions, after the specification *)

(** Each maximal run of whitespace becomes one space. *)
Fixpoint collapse_whitespace (s : str) : str :=
  match s with
  | [] => []
  | c :: r =>
      if isspace c then
        match r with
        | [] => SP
        | d :: _ => if isspace d then collapse_whitespace r
                    else SP ++ collapse_whitespace r
        end
      else c :: collapse_whitespace r
  end.

(** Trim, collapse internal whitespace, lowercase. *)
Definition spec_normalize (s : str) : str :=
  lower (collapse_whitespace (strip s)).

(** Drop the entries that are empty after trimming and normalize the
    others. *)
Definition spec_normalized (ingredients : list str) : list str :=
  map spec_normalize
      (filter (fun s => negb (str_eqb (strip s) [])) ingredients).

(** The lowercase hexadecimal SHA-256 digest of the UTF-8 encoding of the
    newline-joined normalized sequence. *)
Definition spec_key (ingredients : list str) : outcome str :=
  match encode_utf8 (join LF (spec_normalized ingredients)) with
  | Some bytes => Return (SHA256.hexdigest bytes)
  | None => Raise UnicodeEncodeError
  end.

(** The message of a provider error, best effort: the [message] field of
    a structured body, else its [error] field, else the raw text. *)
Definition best_effort_message (r : response) : value :=
  match json r with
  | Some (VDict d) =>
      if truthy (get d (py "message")) then get d (py "message")
      else if truthy (get d (py "error")) then get d (py "error")
      else VStr (text r)
  | _ => VStr (text r)
  end.

(** The events a request added to the log. *)
Definition new_events (w w' : world) : list event :=
  skipn (length (events w)) (events w').

Definition is_post (e : event) : bool :=
  match e with Post _ => true | _ => false end.

Definition is_write (e : event) : bool :=
  match e with Insert_one _ | Update_one _ => true | _ => false end.

(** The entries a collection holds for a key. *)
Definition entries_for (h : str) (c : collection) : list document :=
  filter (hash_is h) c.

(** What [fetch_from_cache] makes of the document the lookup found. *)
Definition read_entry (now : Z) (doc : document) : value :=
  if negb (truthy (VDict doc)) then VNone
  else
    let expires_at := get doc (py "expires_at") in
    if truthy expires_at && is_datetime expires_at && datetime_lt expires_at now
    then VNone
    else get doc (py "data").

Definition credentials_missing (cfg : config) : bool :=
  negb (configured (EDAMAM_APP_ID cfg)) || negb (configured (EDAMAM_APP_KEY cfg)).

(** The fields [write_cache] sets on every write, those it sets on insert
    only, and the collection after a write that went through. *)
Definition set_on_write (cfg : config) (now : Z) (v : value) : dict :=
  [(py "data", v);
   (py "updated_at", VDatetime now);
   (py "expires_at", VDatetime (now + timedelta_seconds (CACHE_TTL_SECONDS cfg)))].

Definition set_on_insert (now : Z) (h : str) : dict :=
  [(py "created_at", VDatetime now); (py "ingredients_hash", VStr h)].

Definition written (cfg : config) (now : Z) (h : str) (v : value)
  (c : collection) : collection :=
  upsert (hash_is h) [(py "ingredients_hash", VStr h)]
    (set_on_write cfg now v) (set_on_insert now h) c.

(** The list [analyze_nutrition] calls [normalized], its query and the
    document it inserts. *)
Definition root_normalized (l : list str) : list str :=
  map normalize_root (filter (fun i => str_truthy i && str_truthy (strip i)) l).

Definition root_query (cfg : config) (now : Z) (h : str) (d : document) : bool :=
  hash_is h d && created_gte (now - timedelta_seconds (CACHE_TTL_SECONDS cfg)) d.

Definition root_entry (normalized : list str) (h : str) (v : value) (now : Z)
  : document :=
  [(py "ingredients", VList (map VStr normalized));
   (py "ingredients_hash", VStr h);
   (py "result", v);
   (py "created_at", VDatetime now);
   (py "updated_at", VDatetime now)].

Definition checked (c h : str) (v : value) : outcome AnalyzeResponse :=
  match v with
  | VDict d => Return (Build_response c h d)
  | _ => Raise ValidationError
  end.

(** What [analyze_nutrition] does once the lookup has missed, case by
    case (lemma [root_valid]). *)
Definition root_after_miss (o : oracle) (normalized : list str) (h : str)
  (w1 : world) : outcome AnalyzeResponse * world :=
  let w2 := log (Post normalized) w1 in
  match edamam o with
  | Unreachable msg =>
      (Raise (HTTPException 502
                (VStr (py "Error contacting nutrition service: " ++ msg))), w2)
  | Responded r =>
      if 400 <=? status_code r then
        (Raise (HTTPException (status_code r)
                  match json r with
                  | Some v => v
                  | None => VDict [(py "message", VStr (text r))]
                  end), w2)
      else
        match json r with
        | None => (Raise JSONDecodeError, w2)
        | Some v =>
            match db w1 with
            | None => (checked (py "miss") h v, w2)
            | Some c =>
                if write_raises o then (Raise PyMongoError, log (Insert_one h) w2)
                else (checked (py "miss") h v,
                      World (Some (c ++ [root_entry normalized h (bson v)
                                           (bson_datetime (t_lookup o))]))
                            (events w2 ++ [Insert_one h]))
            end
        end
  end.

(** Strings without whitespace, words, strings without whitespace at
    either end, and lists of blank entries. *)
Definition nows (s : str) : Prop := Forall (fun c => isspace c = false) s.

Definition word (s : str) : Prop := s <> [] /\ nows s.

Definition word_opt (a : str) : list str :=
  match a with [] => [] | _ :: _ => [a] end.

Definition trimmed (s : str) : Prop := lstrip s = s /\ lstrip (rev s) = rev s.

Definition blank (l : list str) : Prop := forall s, In s l -> strip s = [].

(** An entry whose stored expiry is before [now]. *)
Definition expired (now : Z) (e : document) : Prop :=
  exists x, lookup e (py "expires_at") = Some (VDatetime x) /\ x < now.

(** ** Sample requests

    The scenario of the specification: the list ["1 cup rice", "2 eggs"],
    a TTL of 3600 seconds, a provider that answers with a payload. *)
Definition t0 : Z := 1700000000000000.

Definition cfg0 : config := Config (Some (py "app-id")) (Some (py "app-key")) 3600.

Definition cfg_no_key : config := Config (Some (py "app-id")) None 3600.

Definition rice : list str := [py "1 cup rice"; py "2 eggs"].

Definition key_rice : str :=
  py "9a60fe1aa7dbc88888be700bec63a4f8f0c4322d81d17412b7fe894f991a5701".

Definition nutrients : dict := [(py "calories", VInt 420)].

Definition ok_response : response :=
  Response 200 (py "{" ++ [34] ++ py "calories" ++ [34] ++ py ": 420}")
    (Some (VDict nutrients)).

Definition forbidden : response :=
  Response 403
    (py "{" ++ [34] ++ py "message" ++ [34] ++ py ":" ++ [34]
     ++ py "invalid app_key" ++ [34] ++ py "}")
    (Some (VDict [(py "message", VStr (py "invalid app_key"))])).

(** A request at time [t]: the store works, the provider answers [e]. *)
Definition at_time (t : Z) (e : reply) : oracle := Oracle t t false false e.

Definition read_fails (t : Z) (e : reply) : oracle := Oracle t t true false e.

Definition write_fails (t : Z) (e : reply) : oracle := Oracle t t false true e.

Definition empty_store : world := World (Some []) [].

Definition no_store : world := World None [].

(** The entry the backend variant writes at time [t], a whole number of
    milliseconds. *)
Definition cached_entry (t : Z) : document :=
  [(py "ingredients_hash", VStr key_rice);
   (py "data", VDict nutrients);
   (py "updated_at", VDatetime t);
   (py "expires_at", VDatetime (t + timedelta_seconds 3600));
   (py "created_at", VDatetime t)].

(** A request to [validate_api], an answer, and a database handle. *)
Definition sample_request : ApiValidateRequest :=
  Build_request (py "https://api.example.com//") (Some (py "health")) None.

Definition not_found : answer :=
  Answer 404 (py "Not Found") (py "https://api.example.com/health").

Definition sample_database : database :=
  Database (Some (py "nutrition")) (inr [py "analyzercache"]).

Definition unreachable (t : Z) : oracle := at_time t (Unreachable (py "timed out")).

(** An entry without [expires_at]. *)
Definition undated_entry : document :=
  [(py "ingredients_hash", VStr key_rice);
   (py "data", VDict nutrients);
   (py "created_at", VDatetime 0)].

(** ** Properties *)

(** *** Strings *)

Lemma str_eqb_eq (a b : str) : str_eqb a b = true <-> a = b.
Proof.
  revert b; induction a as [|x a IH]; intros [|y b]; simpl;
    try (split; [discriminate | discriminate]); try tauto.
  rewrite andb_true_iff, Z.eqb_eq, IH.
  split; [intros [-> ->]; reflexivity | intros H; inversion H; auto].
Qed.

Lemma str_eqb_refl (a : str) : str_eqb a a = true.
Proof. apply str_eqb_eq; reflexivity. Qed.

Lemma str_eqb_neq (a b : str) : a <> b -> str_eqb a b = false.
Proof.
  intros H; destruct (str_eqb a b) eqn:E; [|reflexivity].
  apply str_eqb_eq in E; contradiction.
Qed.

Lemma lstrip_length (s : str) : (length (lstrip s) <= length s)%nat.
Proof.
  induction s as [|c r IH]; simpl; [lia|].
  destruct (isspace c); simpl; lia.
Qed.

Lemma lstrip_fixed_head (c : Z) (r : str) :
  lstrip (c :: r) = c :: r -> isspace c = false.
Proof.
  simpl; destruct (isspace c); [|reflexivity].
  intros H; pose proof (lstrip_length r) as L; rewrite H in L; simpl in L; lia.
Qed.

Lemma lstrip_idem (s : str) : lstrip (lstrip s) = lstrip s.
Proof.
  induction s as [|c r IH]; simpl; [reflexivity|].
  destruct (isspace c) eqn:E; [exact IH|].
  simpl; rewrite E; reflexivity.
Qed.

Lemma nows_lstrip (a : str) : nows a -> lstrip a = a.
Proof. intros [|c r Hc _]; simpl; [reflexivity | rewrite Hc; reflexivity]. Qed.

Lemma lstrip_app (u v : str) : lstrip u = u -> u <> [] -> lstrip (u ++ v) = u ++ v.
Proof.
  destruct u as [|c r]; [congruence|].
  intros H _; apply lstrip_fixed_head in H; simpl; rewrite H; reflexivity.
Qed.

Lemma lstrip_snoc (v : str) (c : Z) :
  isspace c = false -> exists u, lstrip (v ++ [c]) = u ++ [c].
Proof.
  intros Hc; induction v as [|d v IH]; simpl.
  - rewrite Hc; exists []; reflexivity.
  - destruct (isspace d); [exact IH | exists (d :: v); reflexivity].
Qed.

Lemma strip_trimmed (s : str) : trimmed (strip s).
Proof.
  unfold trimmed, strip, rstrip; split.
  - pose proof (lstrip_idem s) as H.
    destruct (lstrip s) as [|c t] eqn:E; [reflexivity|].
    apply lstrip_fixed_head in H.
    simpl rev.
    destruct (lstrip_snoc (rev t) c H) as [u ->].
    rewrite rev_app_distr; simpl; rewrite H; reflexivity.
  - rewrite rev_involutive; apply lstrip_idem.
Qed.

Lemma trimmed_strip (s : str) : trimmed s -> strip s = s.
Proof.
  intros [H1 H2]; unfold strip, rstrip.
  rewrite H1, H2; apply rev_involutive.
Qed.

Lemma nows_app (a b : str) : nows (a ++ b) <-> nows a /\ nows b.
Proof. apply Forall_app. Qed.

Lemma nows_rev (a : str) : nows a -> nows (rev a).
Proof. apply Forall_rev. Qed.

(** A string is free of whitespace, or splits at its first whitespace. *)
Lemma first_space (s : str) :
  nows s \/ exists a w b, s = a ++ w :: b /\ nows a /\ isspace w = true.
Proof.
  induction s as [|c r IH]; [left; constructor|].
  destruct (isspace c) eqn:E.
  - right; exists [], c, r; repeat split; [constructor | exact E].
  - destruct IH as [H | (a & w & b & -> & Ha & Hw)].
    + left; constructor; assumption.
    + right; exists (c :: a), w, b; repeat split; [constructor|]; assumption.
Qed.

(** Induction over the whitespace characters of a string. *)
Lemma ws_ind (P : str -> Prop) :
  (forall a, nows a -> P a) ->
  (forall a w b, nows a -> isspace w = true -> P b -> P (a ++ w :: b)) ->
  forall s, P s.
Proof.
  intros Hbase Hstep s.
  enough (H : forall pre, nows pre -> P (pre ++ s)) by (apply (H []); constructor).
  induction s as [|c r IH]; intros pre Hpre.
  - rewrite app_nil_r; auto.
  - destruct (isspace c) eqn:E.
    + apply Hstep; auto. apply (IH []); constructor.
    + replace (pre ++ c :: r) with ((pre ++ [c]) ++ r)
        by (rewrite <- app_assoc; reflexivity).
      apply IH, nows_app; split; [assumption | repeat constructor; assumption].
Qed.

Lemma split_nows (a : str) : nows a -> split a = word_opt a.
Proof.
  induction a as [|c r IH]; intros H; [reflexivity|].
  inversion H as [|? ? Hc Hr]; subst.
  simpl; rewrite Hc.
  destruct r as [|d r']; [reflexivity|].
  inversion Hr as [|? ? Hd _]; subst; rewrite Hd.
  rewrite (IH Hr); reflexivity.
Qed.

Lemma split_app_space (a : str) (w : Z) (b : str) :
  nows a -> isspace w = true -> split (a ++ w :: b) = word_opt a ++ split b.
Proof.
  intros Ha Hw; induction a as [|c r IH].
  - simpl; rewrite Hw; reflexivity.
  - inversion Ha as [|? ? Hc Hr]; subst.
    change ((c :: r) ++ w :: b) with (c :: (r ++ w :: b)).
    cbn [split]; rewrite Hc.
    destruct r as [|d r'].
    + cbn [app]; rewrite Hw; simpl; rewrite Hw; reflexivity.
    + inversion Hr as [|? ? Hd _]; subst.
      change ((d :: r') ++ w :: b) with (d :: (r' ++ w :: b)) in *.
      cbv iota; rewrite Hd, (IH Hr); reflexivity.
Qed.

Lemma word_opt_words (a : str) : nows a -> Forall word (word_opt a).
Proof.
  destruct a; intros H; simpl; constructor; [|constructor].
  split; [discriminate | assumption].
Qed.

Lemma split_words (s : str) : Forall word (split s).
Proof.
  induction s as [a Ha | a w b Ha Hw IH] using ws_ind.
  - rewrite split_nows by assumption; apply word_opt_words; assumption.
  - rewrite split_app_space by assumption.
    apply Forall_app; split; [apply word_opt_words|]; assumption.
Qed.

Lemma word_opt_word (a : str) : word a -> word_opt a = [a].
Proof. intros [H _]; destruct a; [congruence | reflexivity]. Qed.

Lemma isspace_SP : isspace 32 = true.
Proof. reflexivity. Qed.

Lemma join_cons (sep a : str) (l : list str) :
  l <> [] -> join sep (a :: l) = a ++ sep ++ join sep l.
Proof. destruct l; [congruence | reflexivity]. Qed.

Lemma split_join (ws : list str) : Forall word ws -> split (join SP ws) = ws.
Proof.
  induction 1 as [|a l Ha Hl IH]; [reflexivity|].
  destruct l as [|b l'].
  - simpl; rewrite split_nows by apply Ha; apply word_opt_word, Ha.
  - rewrite join_cons by discriminate.
    change (SP ++ join SP (b :: l')) with (32 :: join SP (b :: l')).
    rewrite split_app_space; [| apply Ha | reflexivity].
    rewrite IH, word_opt_word by assumption; reflexivity.
Qed.

Lemma join_nonempty (ws : list str) : Forall word ws -> ws <> [] -> join SP ws <> [].
Proof.
  intros H Hne; destruct H as [|a l [Ha _] Hl]; [congruence|].
  destruct l; simpl; [assumption|].
  destruct a; [congruence | discriminate].
Qed.

Lemma word_lstrip (a : str) : word a -> lstrip a = a.
Proof. intros [_ H]; apply nows_lstrip, H. Qed.

Lemma join_trimmed (ws : list str) : Forall word ws -> trimmed (join SP ws).
Proof.
  intros H; split.
  - destruct H as [|a l Ha Hl]; [reflexivity|].
    destruct l; [apply word_lstrip, Ha|].
    rewrite join_cons by discriminate.
    apply lstrip_app; [apply word_lstrip, Ha | apply Ha].
  - induction H as [|a l Ha Hl IH]; [reflexivity|].
    destruct l as [|b l'].
    + simpl; apply nows_lstrip, nows_rev, Ha.
    + rewrite join_cons by discriminate.
      rewrite !rev_app_distr, <- app_assoc.
      apply lstrip_app; [exact IH|].
      intros E; apply (f_equal (@rev Z)) in E; rewrite rev_involutive in E.
      revert E; apply join_nonempty; [assumption | discriminate].
Qed.

(** The facts about [str.lower] that the properties of normalization rest
    on: it works between whitespace characters, which it leaves in place,
    it neither creates whitespace nor deletes a word, and lowering twice
    changes nothing. They hold of the Unicode character database. *)
Hypothesis lower_at_space : forall a w b,
  isspace w = true -> lower (a ++ w :: b) = lower a ++ w :: lower b.
Hypothesis lower_nows : forall a, nows a -> nows (lower a).
Hypothesis lower_nonempty : forall a, a <> [] -> lower a <> [].
Hypothesis lower_idempotent : forall a, lower (lower a) = lower a.

Lemma rev_app_cons (u : str) (w : Z) (v : str) :
  rev (u ++ w :: v) = rev v ++ w :: rev u.
Proof. rewrite rev_app_distr; simpl; rewrite <- app_assoc; reflexivity. Qed.

Lemma lower_nil : lower [] = [].
Proof. reflexivity. Qed.

Lemma lower_word (a : str) : word a -> word (lower a).
Proof. intros [H1 H2]; split; [apply lower_nonempty | apply lower_nows]; assumption. Qed.

Lemma word_opt_lower (a : str) : word_opt (lower a) = map lower (word_opt a).
Proof.
  destruct a as [|c r]; [reflexivity|].
  pose proof (lower_nonempty (c :: r)) as H.
  simpl map; destruct (lower (c :: r)); [exfalso; apply H; [discriminate | reflexivity] | reflexivity].
Qed.

Lemma split_lower (x : str) : split (lower x) = map lower (split x).
Proof.
  induction x as [a Ha | a w b Ha Hw IH] using ws_ind.
  - rewrite !split_nows by auto using lower_nows. apply word_opt_lower.
  - rewrite lower_at_space by assumption.
    rewrite !split_app_space by auto using lower_nows.
    rewrite map_app, IH, word_opt_lower; reflexivity.
Qed.

Lemma lower_join (ws : list str) : lower (join SP ws) = join SP (map lower ws).
Proof.
  induction ws as [|a l IH]; [reflexivity|].
  destruct l as [|b l']; [reflexivity|].
  rewrite join_cons by discriminate.
  change (SP ++ join SP (b :: l')) with (32 :: join SP (b :: l')).
  rewrite lower_at_space, IH by reflexivity.
  reflexivity.
Qed.

Lemma lower_words (ws : list str) : Forall word ws -> Forall word (map lower ws).
Proof. induction 1; simpl; constructor; auto using lower_word. Qed.

Lemma lower_lstrip (x : str) : lstrip x = x -> lstrip (lower x) = lower x.
Proof.
  intros H; destruct (first_space x) as [Hx | (a & w & b & -> & Ha & Hw)].
  - apply nows_lstrip, lower_nows, Hx.
  - destruct a as [|c a'].
    + apply lstrip_fixed_head in H; congruence.
    + rewrite lower_at_space by assumption.
      apply lstrip_app;
        [apply nows_lstrip, lower_nows, Ha | apply lower_nonempty; discriminate].
Qed.

Lemma lower_rstrip (x : str) :
  lstrip (rev x) = rev x -> lstrip (rev (lower x)) = rev (lower x).
Proof.
  intros H; destruct (first_space (rev x)) as [Hx | (a & w & b & E & Ha & Hw)].
  - apply nows_lstrip, nows_rev, lower_nows.
    rewrite <- (rev_involutive x); apply nows_rev, Hx.
  - assert (Ex : x = rev b ++ w :: rev a).
    { rewrite <- (rev_involutive x), E; apply rev_app_cons. }
    destruct a as [|c a'].
    + rewrite E in H; apply lstrip_fixed_head in H; congruence.
    + rewrite Ex, lower_at_space by assumption.
      rewrite rev_app_cons.
      apply lstrip_app.
      * apply nows_lstrip, nows_rev, lower_nows, nows_rev, Ha.
      * intros E'; apply (f_equal (@rev Z)) in E'; rewrite rev_involutive in E'.
        revert E'; apply lower_nonempty.
        simpl; destruct (rev a'); discriminate.
Qed.

Lemma lower_trimmed (x : str) : trimmed x -> trimmed (lower x).
Proof. intros [H1 H2]; split; [apply lower_lstrip | apply lower_rstrip]; assumption. Qed.

(** What [normalize] returns: the lowered words of the entry, one space
    apart. *)
Lemma normalize_words (s : str) : normalize s = join SP (map lower (split (strip s))).
Proof. unfold normalize; rewrite split_lower; reflexivity. Qed.

Lemma normalize_fixed (ws : list str) :
  Forall word ws -> map lower ws = ws -> normalize (join SP ws) = join SP ws.
Proof.
  intros Hw Hl; rewrite normalize_words.
  rewrite trimmed_strip by (apply join_trimmed, Hw).
  rewrite split_join, Hl by assumption; reflexivity.
Qed.

Lemma collapse_nows (a r : str) :
  nows a -> collapse_whitespace (a ++ r) = a ++ collapse_whitespace r.
Proof.
  induction a as [|c a IH]; intros Ha; [reflexivity|].
  inversion Ha as [|? ? Hc Ha']; subst; simpl; rewrite Hc, IH by assumption.
  reflexivity.
Qed.

Lemma collapse_space (w d : Z) (b : str) :
  isspace w = true ->
  collapse_whitespace (w :: d :: b) =
    if isspace d then collapse_whitespace (d :: b)
    else SP ++ collapse_whitespace (d :: b).
Proof. intros Hw; simpl; rewrite Hw; reflexivity. Qed.

Lemma no_space_at_end (a : str) (w : Z) (b : str) :
  isspace w = true ->
  lstrip (rev (a ++ w :: b)) = rev (a ++ w :: b) ->
  b <> [] /\ lstrip (rev b) = rev b.
Proof.
  intros Hw; rewrite rev_app_cons.
  destruct (rev b) as [|e t] eqn:E; simpl app; intros H.
  - apply lstrip_fixed_head in H; congruence.
  - split.
    + intros ->; discriminate.
    + apply lstrip_fixed_head in H; simpl; rewrite H; reflexivity.
Qed.

(** [collapse_whitespace] on a string that does not end in whitespace. *)
Lemma collapse_split (s : str) :
  lstrip (rev s) = rev s ->
  collapse_whitespace s =
    match s with
    | [] => []
    | c :: _ => if isspace c then SP ++ join SP (split s) else join SP (split s)
    end
  /\ (s <> [] -> split s <> []).
Proof.
  induction s as [a Ha | a w b Ha Hw IH] using ws_ind; intros Hend.
  - rewrite <- (app_nil_r a) at 1; rewrite collapse_nows by assumption; simpl.
    rewrite app_nil_r, split_nows by assumption.
    destruct a as [|c a']; [split; [reflexivity | congruence]|].
    inversion Ha as [|? ? Hc _]; subst; rewrite Hc.
    split; [reflexivity | discriminate].
  - destruct (no_space_at_end a w b Hw Hend) as [Hne Hb].
    destruct (IH Hb) as [IH1 IH2]; specialize (IH2 Hne).
    assert (Hwb : collapse_whitespace (w :: b) = SP ++ join SP (split b)).
    { destruct b as [|d b']; [congruence|].
      rewrite collapse_space, IH1 by assumption.
      destruct (isspace d); reflexivity. }
    rewrite collapse_nows, Hwb, split_app_space by assumption.
    split.
    + destruct a as [|c a'].
      * simpl; rewrite Hw; reflexivity.
      * inversion Ha as [|? ? Hc _]; subst.
        cbn [app]; rewrite Hc.
        change (word_opt (c :: a') ++ split b) with ((c :: a') :: split b).
        rewrite join_cons by assumption; reflexivity.
    + intros _ E; apply app_eq_nil in E; tauto.
Qed.

Lemma collapse_trimmed (x : str) :
  trimmed x -> collapse_whitespace x = join SP (split x).
Proof.
  intros [H1 H2]; destruct (collapse_split x H2) as [E _]; rewrite E.
  destruct x as [|c r]; [reflexivity|].
  apply lstrip_fixed_head in H1; rewrite H1; reflexivity.
Qed.

(** The expression of [norm_ingredients] computes the reference
    normalization. *)
Lemma normalize_spec (s : str) : normalize s = spec_normalize s.
Proof.
  unfold spec_normalize.
  rewrite collapse_trimmed by apply strip_trimmed.
  rewrite lower_join; apply normalize_words.
Qed.

Lemma nonblank_spec (s : str) :
  str_truthy s && str_truthy (strip s) = negb (str_eqb (strip s) []).
Proof.
  destruct s as [|c r]; [reflexivity|].
  simpl str_truthy at 1; destruct (strip (c :: r)); reflexivity.
Qed.

Lemma norm_ingredients_spec (l : list str) : norm_ingredients l = spec_normalized l.
Proof.
  unfold norm_ingredients, spec_normalized.
  rewrite (filter_ext _ _ nonblank_spec).
  apply map_ext, normalize_spec.
Qed.

Lemma normalize_idempotent (s : str) : normalize (normalize s) = normalize s.
Proof.
  rewrite (normalize_words s).
  apply normalize_fixed.
  - apply lower_words, split_words.
  - rewrite map_map; apply map_ext; intros a; apply lower_idempotent.
Qed.

Lemma normalize_root_idempotent (s : str) :
  normalize_root (normalize_root s) = normalize_root s.
Proof.
  unfold normalize_root.
  rewrite (trimmed_strip (lower (strip s)))
    by apply lower_trimmed, strip_trimmed.
  apply lower_idempotent.
Qed.

(** *** Dates and values in the store *)

Lemma bson_datetime_le (t : Z) : bson_datetime t <= t.
Proof.
  unfold bson_datetime; pose proof (Z.mul_div_le t 1000); lia.
Qed.

Lemma bson_datetime_gt (t : Z) : t - 1000 < bson_datetime t.
Proof.
  unfold bson_datetime.
  pose proof (Z.div_mod t 1000); pose proof (Z.mod_pos_bound t 1000); lia.
Qed.

Lemma bson_datetime_mono (a b : Z) : a <= b -> bson_datetime a <= bson_datetime b.
Proof.
  intros H; unfold bson_datetime.
  pose proof (Z.div_le_mono a b 1000); lia.
Qed.

Lemma bson_datetime_idem (t : Z) : bson_datetime (bson_datetime t) = bson_datetime t.
Proof. unfold bson_datetime; rewrite Z.div_mul by lia; reflexivity. Qed.

(** A whole number of seconds goes through the cut. *)
Lemma bson_datetime_add_seconds (t n : Z) :
  bson_datetime (t + timedelta_seconds n) = bson_datetime t + timedelta_seconds n.
Proof.
  unfold bson_datetime, timedelta_seconds.
  replace (t + n * 1000000) with (t + (n * 1000) * 1000) by lia.
  rewrite Z.div_add by lia; lia.
Qed.

Lemma bson_datetime_sub_seconds (t n : Z) :
  bson_datetime (t - timedelta_seconds n) = bson_datetime t - timedelta_seconds n.
Proof.
  replace (t - timedelta_seconds n) with (t + timedelta_seconds (- n))
    by (unfold timedelta_seconds; lia).
  rewrite bson_datetime_add_seconds; unfold timedelta_seconds; lia.
Qed.

(** A JSON value is stored as it is. *)
Lemma bson_json : forall v : value, is_json v = true -> bson v = v.
Proof.
  fix IH 1; intros [ | b | n | f | s | t | l | d]; cbn [is_json bson];
    try reflexivity; try discriminate; intros H; f_equal.
  - induction l as [|a l IHl]; [reflexivity|].
    cbn [forallb map] in *; apply andb_prop in H; destruct H as [Ha Hl].
    rewrite (IH a Ha), (IHl Hl); reflexivity.
  - induction d as [|[k x] d IHd]; [reflexivity|].
    cbn [forallb map] in *; apply andb_prop in H; destruct H as [Hx Hd].
    rewrite (IH x Hx), (IHd Hd); reflexivity.
Qed.

Lemma bson_strings (l : list str) : map bson (map VStr l) = map VStr l.
Proof. rewrite map_map; reflexivity. Qed.

Lemma bson_set_on_write (cfg : config) (now : Z) (v : value) :
  bson_document (set_on_write cfg now v)
  = set_on_write cfg (bson_datetime now) (bson v).
Proof.
  unfold set_on_write, bson_document; cbn [map bson].
  rewrite bson_datetime_add_seconds; reflexivity.
Qed.

Lemma bson_set_on_insert (now : Z) (h : str) :
  bson_document (set_on_insert now h) = set_on_insert (bson_datetime now) h.
Proof. reflexivity. Qed.

Lemma bson_root_entry (nl : list str) (h : str) (v : value) (now : Z) :
  bson_document (root_entry nl h v now)
  = root_entry nl h (bson v) (bson_datetime now).
Proof.
  unfold root_entry, bson_document; cbn [map bson].
  rewrite bson_strings; reflexivity.
Qed.

(** *** The operations of the backend variant, case by case *)

Ltac run :=
  cbv beta iota delta
    [bind ret raise try_except lift db_is_None find_one update_one insert_one
     post response_json make_response log db events].

Lemma fetch_unconfigured (o : oracle) (h : str) (w : world) :
  db w = None -> fetch_from_cache o h w = (Return VNone, w).
Proof. destruct w as [d ev]; simpl; intros ->; reflexivity. Qed.

Lemma fetch_raises (o : oracle) (h : str) (w : world) (c : collection) :
  db w = Some c -> find_one_raises o = true ->
  fetch_from_cache o h w = (Return VNone, log (Find_one h) w).
Proof.
  destruct w as [d ev]; simpl; intros -> Hr.
  unfold fetch_from_cache; run; rewrite Hr; reflexivity.
Qed.

Lemma fetch_reads (o : oracle) (h : str) (w : world) (c : collection) :
  db w = Some c -> find_one_raises o = false ->
  fetch_from_cache o h w =
    (Return match find (hash_is h) c with
            | Some doc => read_entry (t_lookup o) doc
            | None => VNone
            end,
     log (Find_one h) w).
Proof.
  destruct w as [d ev]; simpl; intros -> Hr.
  unfold fetch_from_cache, read_entry; run; rewrite Hr.
  destruct (find (hash_is h) c) as [doc|]; [|reflexivity].
  destruct (negb (truthy (VDict doc))); [reflexivity|].
  destruct (truthy (get doc (py "expires_at")) && _ && _); reflexivity.
Qed.

(** The lookup never raises and never changes the store. *)
Lemma fetch_total (o : oracle) (h : str) (w : world) :
  exists v w', fetch_from_cache o h w = (Return v, w') /\ db w' = db w
               /\ (w' = w \/ w' = log (Find_one h) w).
Proof.
  destruct (db w) as [c|] eqn:E.
  - destruct (find_one_raises o) eqn:R.
    + rewrite (fetch_raises o h w c E R); eauto 6.
    + rewrite (fetch_reads o h w c E R); eauto 6.
  - rewrite (fetch_unconfigured o h w E); eauto 6.
Qed.

Lemma write_unconfigured (cfg : config) (o : oracle) (h : str) (v : value) (w : world) :
  db w = None -> write_cache cfg o h v w = (Return tt, w).
Proof. destruct w as [d ev]; simpl; intros ->; reflexivity. Qed.

Lemma write_raises_dropped (cfg : config) (o : oracle) (h : str) (v : value)
  (w : world) (c : collection) :
  db w = Some c -> write_raises o = true ->
  write_cache cfg o h v w = (Return tt, log (Update_one h) w).
Proof.
  destruct w as [d ev]; simpl; intros -> Hr.
  unfold write_cache; run; rewrite Hr; reflexivity.
Qed.

Lemma write_upserts (cfg : config) (o : oracle) (h : str) (v : value)
  (w : world) (c : collection) :
  db w = Some c -> write_raises o = false ->
  write_cache cfg o h v w =
    (Return tt,
     World (Some (written cfg (bson_datetime (t_write o)) h (bson v) c))
           (events w ++ [Update_one h])).
Proof.
  destruct w as [d ev]; cbn [db]; intros -> Hr.
  unfold write_cache; run; rewrite Hr.
  unfold written; rewrite <- bson_set_on_write, <- bson_set_on_insert; reflexivity.
Qed.

(** The write never raises. *)
Lemma write_total (cfg : config) (o : oracle) (h : str) (v : value) (w : world) :
  exists w', write_cache cfg o h v w = (Return tt, w')
             /\ (w' = w \/ events w' = events w ++ [Update_one h]).
Proof.
  destruct (db w) as [c|] eqn:E.
  - destruct (write_raises o) eqn:R.
    + rewrite (write_raises_dropped cfg o h v w c E R).
      eexists; split; [reflexivity | right; reflexivity].
    + rewrite (write_upserts cfg o h v w c E R).
      eexists; split; [reflexivity | right; reflexivity].
  - rewrite (write_unconfigured cfg o h v w E).
    eexists; split; [reflexivity | left; reflexivity].
Qed.

Lemma call_without_credentials (cfg : config) (o : oracle) (l : list str) (w : world) :
  credentials_missing cfg = true ->
  call_edamam cfg o l w =
    (Raise (HTTPException 500 (VStr (py "Edamam credentials not configured"))), w).
Proof.
  unfold credentials_missing, call_edamam; intros ->; reflexivity.
Qed.

Lemma call_unreachable (cfg : config) (o : oracle) (l : list str) (w : world) (msg : str) :
  credentials_missing cfg = false -> edamam o = Unreachable msg ->
  call_edamam cfg o l w =
    (Raise (TransportError msg), log (Post (norm_ingredients l)) w).
Proof.
  unfold credentials_missing, call_edamam; intros -> E.
  run; rewrite E; reflexivity.
Qed.

Lemma por_first_truthy (a b c : value) :
  por (por a b) c = if truthy a then a else if truthy b then b else c.
Proof.
  unfold por; destruct (truthy a) eqn:A; [rewrite A|]; reflexivity.
Qed.

Lemma call_error (cfg : config) (o : oracle) (l : list str) (w : world) (r : response) :
  credentials_missing cfg = false -> edamam o = Responded r ->
  400 <= status_code r ->
  call_edamam cfg o l w =
    (Raise (HTTPException (status_code r)
              (VStr (py "Edamam error: " ++ format (best_effort_message r)))),
     log (Post (norm_ingredients l)) w).
Proof.
  unfold credentials_missing, call_edamam; intros -> E Hs.
  apply Z.leb_le in Hs.
  run; rewrite E, Hs; unfold best_effort_message.
  destruct (json r) as [v|]; [|reflexivity].
  destruct v; try reflexivity.
  rewrite por_first_truthy; reflexivity.
Qed.

Lemma call_ok (cfg : config) (o : oracle) (l : list str) (w : world) (r : response) :
  credentials_missing cfg = false -> edamam o = Responded r ->
  status_code r < 400 ->
  call_edamam cfg o l w =
    (match json r with Some v => Return v | None => Raise JSONDecodeError end,
     log (Post (norm_ingredients l)) w).
Proof.
  unfold credentials_missing, call_edamam; intros -> E Hs.
  apply Z.leb_gt in Hs.
  run; rewrite E, Hs.
  destruct (json r); reflexivity.
Qed.

(** *** The backend handler, path by path *)

Lemma blank_filter (l : list str) :
  blank l <-> filter (fun s => str_truthy s && str_truthy (strip s)) l = [].
Proof.
  unfold blank; induction l as [|a l IH]; simpl; [tauto|].
  rewrite nonblank_spec.
  destruct (strip a) as [|c t] eqn:E; simpl.
  - rewrite <- IH; split; [auto | intros H s [<- | Hs]; auto].
  - split; [|discriminate].
    intros H; specialize (H a (or_introl eq_refl)); congruence.
Qed.

Lemma blank_norm (l : list str) : blank l <-> norm_ingredients l = [].
Proof.
  rewrite blank_filter; unfold norm_ingredients.
  destruct (filter _ l); simpl; split; congruence.
Qed.

Lemma analyze_blank (cfg : config) (o : oracle) (l : list str) (w : world) :
  norm_ingredients l = [] ->
  analyze cfg o l w =
    (Raise (HTTPException 400 (VStr (py "Provide at least one ingredient line"))), w).
Proof.
  unfold analyze; intros ->; rewrite orb_true_r; reflexivity.
Qed.

Lemma analyze_valid (cfg : config) (o : oracle) (l : list str) (w : world) :
  norm_ingredients l <> [] ->
  analyze cfg o l w =
    match make_hash l with
    | Raise e => (Raise e, w)
    | Return h =>
        match fetch_from_cache o h w with
        | (Raise e, w1) => (Raise e, w1)
        | (Return cached, w1) =>
            if is_not_None cached then make_response (py "hit") h cached w1
            else
              match call_edamam cfg o l w1 with
              | (Raise e, w2) => (Raise e, w2)
              | (Return data, w2) =>
                  match write_cache cfg o h data w2 with
                  | (Raise e, w3) => (Raise e, w3)
                  | (Return _, w3) => make_response (py "miss") h data w3
                  end
              end
        end
    end.
Proof.
  intros H; unfold analyze.
  destruct l as [|a l']; [exfalso; apply H; reflexivity|].
  destruct (norm_ingredients (a :: l')) eqn:E; [congruence|].
  cbn [length Nat.eqb orb]; unfold bind, lift.
  destruct (make_hash (a :: l')) as [h|e]; [|reflexivity].
  destruct (fetch_from_cache o h w) as [[v|e] w1]; [|reflexivity].
  destruct (is_not_None v); [reflexivity|].
  destruct (call_edamam cfg o (a :: l') w1) as [[data|e] w2]; [|reflexivity].
  destruct (write_cache cfg o h data w2) as [[u|e] w3]; reflexivity.
Qed.

Lemma analyze_hit (cfg : config) (o : oracle) (l : list str) (w w1 : world)
  (h : str) (d : dict) :
  norm_ingredients l <> [] -> make_hash l = Return h ->
  fetch_from_cache o h w = (Return (VDict d), w1) ->
  analyze cfg o l w = (Return (Build_response (py "hit") h d), w1).
Proof.
  intros Hn Hh Hf; rewrite analyze_valid, Hh, Hf by assumption; reflexivity.
Qed.

Lemma analyze_miss (cfg : config) (o : oracle) (l : list str) (w w1 : world)
  (h : str) :
  norm_ingredients l <> [] -> make_hash l = Return h ->
  fetch_from_cache o h w = (Return VNone, w1) ->
  analyze cfg o l w =
    match call_edamam cfg o l w1 with
    | (Raise e, w2) => (Raise e, w2)
    | (Return data, w2) =>
        (match data with
         | VDict d => Return (Build_response (py "miss") h d)
         | _ => Raise ValidationError
         end,
         snd (write_cache cfg o h data w2))
    end.
Proof.
  intros Hn Hh Hf; rewrite analyze_valid, Hh, Hf by assumption.
  cbn [is_not_None].
  destruct (call_edamam cfg o l w1) as [[data|e] w2]; [|reflexivity].
  destruct (write_total cfg o h data w2) as (w3 & -> & _).
  destruct data; reflexivity.
Qed.

(** Every way [analyze] can return a response. *)
Lemma analyze_returns (cfg : config) (o : oracle) (l : list str) (w w' : world)
  (resp : AnalyzeResponse) :
  analyze cfg o l w = (Return resp, w') ->
  exists h, norm_ingredients l <> [] /\ make_hash l = Return h /\
    ((exists d, fetch_from_cache o h w = (Return (VDict d), w')
                /\ resp = Build_response (py "hit") h d)
     \/
     (exists w1 r d,
        fetch_from_cache o h w = (Return VNone, w1)
        /\ credentials_missing cfg = false
        /\ edamam o = Responded r /\ status_code r < 400
        /\ json r = Some (VDict d)
        /\ w' = snd (write_cache cfg o h (VDict d)
                       (log (Post (norm_ingredients l)) w1))
        /\ resp = Build_response (py "miss") h d)).
Proof.
  intros H.
  destruct (norm_ingredients l) as [|n ns] eqn:En.
  { rewrite analyze_blank in H by assumption; discriminate. }
  assert (Hn : norm_ingredients l <> []) by congruence.
  rewrite <- En in *; clear En.
  destruct (make_hash l) as [h|e] eqn:Eh.
  2:{ rewrite analyze_valid, Eh in H by assumption; discriminate. }
  exists h; split; [assumption|]; split; [reflexivity|].
  destruct (fetch_total o h w) as (v & w1 & Ef & _).
  destruct (is_not_None v) eqn:Ev.
  - left. rewrite analyze_valid, Eh, Ef, Ev in H by assumption.
    destruct v; try discriminate; inversion H; subst; eauto.
  - right. destruct v; try discriminate.
    rewrite (analyze_miss cfg o l w w1 h Hn Eh Ef) in H.
    destruct (credentials_missing cfg) eqn:Ec.
    { rewrite call_without_credentials in H by assumption; discriminate. }
    destruct (edamam o) as [msg|r] eqn:Er.
    { rewrite (call_unreachable cfg o l w1 msg Ec Er) in H; discriminate. }
    destruct (Z_lt_le_dec (status_code r) 400) as [Hs|Hs].
    2:{ rewrite (call_error cfg o l w1 r Ec Er Hs) in H; discriminate. }
    rewrite (call_ok cfg o l w1 r Ec Er Hs) in H.
    destruct (json r) as [v|] eqn:Ej; [|discriminate].
    destruct v; try discriminate.
    inversion H; subst.
    exists w1, r, d; repeat split; auto.
Qed.

(** *** Dictionaries and the store *)

Lemma lookup_dict_set (d : dict) (k : str) (v : value) (k2 : str) :
  lookup (dict_set d k v) k2 = if str_eqb k k2 then Some v else lookup d k2.
Proof.
  induction d as [|[k' v'] r IH]; simpl; [reflexivity|].
  destruct (str_eqb k' k) eqn:E; simpl.
  - apply str_eqb_eq in E; subst k'.
    destruct (str_eqb k k2); reflexivity.
  - rewrite IH.
    destruct (str_eqb k k2) eqn:E2; [|reflexivity].
    apply str_eqb_eq in E2; subst k2; rewrite E; reflexivity.
Qed.

Lemma lookup_set_on_write (cfg : config) (now : Z) (v : value) (d : dict) (k : str) :
  lookup (set_fields (set_on_write cfg now v) d) k =
    if str_eqb (py "expires_at") k then
      Some (VDatetime (now + timedelta_seconds (CACHE_TTL_SECONDS cfg)))
    else if str_eqb (py "updated_at") k then Some (VDatetime now)
    else if str_eqb (py "data") k then Some v
    else lookup d k.
Proof.
  unfold set_fields, set_on_write; cbn [fold_left fst snd].
  rewrite !lookup_dict_set; reflexivity.
Qed.

Lemma hash_is_set_on_write (cfg : config) (now : Z) (v : value) (k : str) (d : dict) :
  hash_is k (set_fields (set_on_write cfg now v) d) = hash_is k d.
Proof. unfold hash_is; rewrite lookup_set_on_write; reflexivity. Qed.

Lemma find_none_false {A : Type} (p : A -> bool) (c : list A) :
  find p c = None -> forall d, In d c -> p d = false.
Proof. intros H d Hd; apply (find_none p c H d Hd). Qed.

Lemma update_first_none (p : document -> bool) (f : document -> document)
  (c : collection) :
  find p c = None -> update_first p f c = None.
Proof.
  induction c as [|d r IH]; simpl; [reflexivity|].
  destruct (p d); [discriminate|].
  intros H; rewrite (IH H); reflexivity.
Qed.

(** The document [find] returns, and what [update_first] does to it. *)
Lemma update_first_some (p : document -> bool) (f : document -> document)
  (c : collection) (e : document) :
  find p c = Some e ->
  exists c1 c2, c = c1 ++ e :: c2 /\ (forall d, In d c1 -> p d = false)
                /\ p e = true
                /\ update_first p f c = Some (c1 ++ f e :: c2).
Proof.
  induction c as [|d r IH]; simpl; [discriminate|].
  destruct (p d) eqn:E.
  - intros H; inversion H; subst.
    exists [], r; repeat split; [intros ? [] | assumption].
  - intros H; destruct (IH H) as (c1 & c2 & -> & H1 & H2 & ->).
    exists (d :: c1), c2; repeat split; [|assumption].
    intros x [<- | Hx]; auto.
Qed.

Lemma find_app_skip {A : Type} (p : A -> bool) (c1 c2 : list A) :
  (forall d, In d c1 -> p d = false) -> find p (c1 ++ c2) = find p c2.
Proof.
  induction c1 as [|d r IH]; simpl; intros H; [reflexivity|].
  rewrite (H d (or_introl eq_refl)); apply IH; auto.
Qed.


Lemma hash_is_other (h k : str) (d : document) :
  k <> h -> hash_is h d = true -> hash_is k d = false.
Proof.
  unfold hash_is; destruct (lookup d (py "ingredients_hash")) as [[]|]; try discriminate.
  intros Hk E; apply str_eqb_eq in E; subst.
  apply str_eqb_neq; congruence.
Qed.

Lemma hash_is_first (h : str) (rest : dict) :
  hash_is h ((py "ingredients_hash", VStr h) :: rest) = true.
Proof.
  unfold hash_is; cbn [lookup].
  rewrite (str_eqb_refl (py "ingredients_hash")); apply str_eqb_refl.
Qed.

Lemma hash_is_first_other (h k : str) (rest : dict) :
  h <> k -> hash_is k ((py "ingredients_hash", VStr h) :: rest) = false.
Proof.
  intros H; unfold hash_is; cbn [lookup].
  rewrite (str_eqb_refl (py "ingredients_hash")); apply str_eqb_neq, H.
Qed.

Lemma new_entry (cfg : config) (now : Z) (h : str) (v : value) :
  set_fields (set_on_insert now h)
    (set_fields (set_on_write cfg now v)
       (set_fields [(py "ingredients_hash", VStr h)] [])) =
  [(py "ingredients_hash", VStr h); (py "data", v);
   (py "updated_at", VDatetime now);
   (py "expires_at", VDatetime (now + timedelta_seconds (CACHE_TTL_SECONDS cfg)));
   (py "created_at", VDatetime now)].
Proof. reflexivity. Qed.

(** The entry a lookup finds after a write: the payload, the update time
    and the expiry are those of the write; the creation time is that of the
    entry the write found, or of the write when it found none. *)
Lemma find_written (cfg : config) (now : Z) (h : str) (v : value) (c : collection) :
  exists e',
    find (hash_is h) (written cfg now h v c) = Some e'
    /\ lookup e' (py "data") = Some v
    /\ lookup e' (py "updated_at") = Some (VDatetime now)
    /\ lookup e' (py "expires_at") =
         Some (VDatetime (now + timedelta_seconds (CACHE_TTL_SECONDS cfg)))
    /\ lookup e' (py "created_at") =
         match find (hash_is h) c with
         | Some e => lookup e (py "created_at")
         | None => Some (VDatetime now)
         end.
Proof.
  unfold written, upsert.
  destruct (find (hash_is h) c) as [e|] eqn:E.
  - destruct (update_first_some _ (set_fields (set_on_write cfg now v)) c e E)
      as (c1 & c2 & -> & H1 & H2 & ->).
    exists (set_fields (set_on_write cfg now v) e).
    rewrite find_app_skip by assumption; cbn [find].
    rewrite hash_is_set_on_write, H2, !lookup_set_on_write.
    repeat split; reflexivity.
  - rewrite update_first_none by assumption.
    rewrite new_entry.
    eexists; rewrite find_app_skip by (apply find_none_false; assumption).
    cbn [find]; rewrite hash_is_first.
    repeat split; reflexivity.
Qed.


(** *** Reading an entry *)

Lemma lookup_nonempty (e : dict) (k : str) (v : value) :
  lookup e k = Some v -> truthy (VDict e) = true.
Proof. destruct e; [discriminate | reflexivity]. Qed.

Lemma get_lookup (e : dict) (k : str) (v : value) :
  lookup e k = Some v -> get e k = v.
Proof. unfold get, get_default; intros ->; reflexivity. Qed.

Lemma hash_is_nonempty (h : str) (e : document) :
  hash_is h e = true -> truthy (VDict e) = true.
Proof. destruct e; [discriminate | reflexivity]. Qed.

Lemma read_entry_fresh (now x : Z) (e : document) :
  truthy (VDict e) = true ->
  lookup e (py "expires_at") = Some (VDatetime x) -> now <= x ->
  read_entry now e = get e (py "data").
Proof.
  intros Ht Hx Hle; unfold read_entry; rewrite Ht, (get_lookup _ _ _ Hx).
  cbn [negb truthy is_datetime datetime_lt andb].
  destruct (Z.ltb_spec x now); [lia | reflexivity].
Qed.

Lemma read_entry_stale (now x : Z) (e : document) :
  lookup e (py "expires_at") = Some (VDatetime x) -> x < now ->
  read_entry now e = VNone.
Proof.
  intros Hx Hlt; unfold read_entry.
  rewrite (lookup_nonempty _ _ _ Hx), (get_lookup _ _ _ Hx).
  cbn [negb truthy is_datetime datetime_lt andb].
  destruct (Z.ltb_spec x now); [reflexivity | lia].
Qed.

Lemma read_entry_no_expiry (now : Z) (e : document) :
  truthy (VDict e) = true ->
  is_datetime (get e (py "expires_at")) = false ->
  read_entry now e = get e (py "data").
Proof.
  intros Ht Hd; unfold read_entry; rewrite Ht, Hd, andb_false_r; reflexivity.
Qed.

(** *** The log of a request *)

Lemma new_events_none (w : world) : new_events w w = [].
Proof. apply skipn_all. Qed.

Lemma skipn_app_exact {A : Type} (l x : list A) : skipn (length l) (l ++ x) = x.
Proof. induction l; simpl; auto. Qed.

Lemma new_events_1 (w : world) (e : event) : new_events w (log e w) = [e].
Proof. apply skipn_app_exact. Qed.

Lemma new_events_2 (w : world) (e1 e2 : event) :
  new_events w (log e2 (log e1 w)) = [e1; e2].
Proof.
  unfold new_events, log; cbn [events].
  rewrite <- app_assoc; apply skipn_app_exact.
Qed.

Lemma new_events_app (w w' : world) (x : list event) :
  events w' = events w ++ x -> new_events w w' = x.
Proof. unfold new_events; intros ->; apply skipn_app_exact. Qed.

(** *** The backend variant *)

Lemma miss_is_not_hit : py "hit" <> py "miss".
Proof. discriminate. Qed.

(** After a miss that wrote its payload, the same request hits. *)
Lemma backend_round_trip (cfg : config) (o1 o2 : oracle) (l : list str)
  (w0 w1 : world) (resp : AnalyzeResponse) :
  analyze cfg o1 l w0 = (Return resp, w1) ->
  cache resp = py "miss" -> is_json (VDict (data resp)) = true ->
  db w0 <> None -> write_raises o1 = false -> find_one_raises o2 = false ->
  t_lookup o2
    <= bson_datetime (t_write o1 + timedelta_seconds (CACHE_TTL_SECONDS cfg)) ->
  analyze cfg o2 l w1 =
    (Return (Build_response (py "hit") (ingredients_hash resp) (data resp)),
     log (Find_one (ingredients_hash resp)) w1).
Proof.
  intros H Hm Hjson Hdb Hw Hf Ht.
  destruct (analyze_returns _ _ _ _ _ _ H) as (h & Hn & Hh & [(d & _ & ->) | Hmiss]).
  { exfalso; apply miss_is_not_hit; exact Hm. }
  destruct Hmiss as (wf & r & d & Ef & _ & _ & _ & _ & -> & ->).
  cbn [ingredients_hash data] in *.
  destruct (fetch_total o1 h w0) as (v & wf' & Ef' & Hdbf & _).
  rewrite Ef in Ef'; inversion Ef'; subst wf' v; clear Ef'.
  destruct (db w0) as [c|] eqn:Ec; [clear Hdb | congruence].
  rewrite (write_upserts cfg o1 h (VDict d) _ c) by (assumption || exact Hdbf).
  cbn [snd].
  rewrite bson_datetime_add_seconds in Ht.
  destruct (find_written cfg (bson_datetime (t_write o1)) h (bson (VDict d)) c)
    as (e' & Efind & Hdata & _ & Hexp & _).
  rewrite (bson_json _ Hjson) in *.
  apply analyze_hit; [assumption | assumption|].
  erewrite fetch_reads by (reflexivity || assumption).
  rewrite Efind, (read_entry_fresh _ _ _ (lookup_nonempty _ _ _ Hdata) Hexp Ht).
  rewrite (get_lookup _ _ _ Hdata); reflexivity.
Qed.


(** An entry without a datetime in [expires_at] is read whatever the
    clock says. *)
Lemma backend_no_expiry (o : oracle) (h : str) (w : world) (c : collection)
  (e : document) :
  db w = Some c -> find_one_raises o = false ->
  find (hash_is h) c = Some e ->
  is_datetime (get e (py "expires_at")) = false ->
  fetch_from_cache o h w = (Return (get e (py "data")), log (Find_one h) w).
Proof.
  intros Hdb Hf He Hd.
  rewrite (fetch_reads o h w c Hdb Hf), He.
  rewrite read_entry_no_expiry; [reflexivity | | assumption].
  apply find_some in He; apply (hash_is_nonempty h), He.
Qed.

Lemma norm_cases (l : list str) :
  norm_ingredients l = [] \/ norm_ingredients l <> [].
Proof. destruct (norm_ingredients l); [left; reflexivity | right; discriminate]. Qed.

Lemma make_hash_raises (l : list str) (e : exn) :
  make_hash l = Raise e -> e = UnicodeEncodeError.
Proof.
  unfold make_hash, sha256_hex; destruct (encode_utf8 _); [discriminate|].
  intros H; inversion H; reflexivity.
Qed.

(** No error of the store leaves [analyze]. *)
Lemma backend_no_store_error (cfg : config) (o : oracle) (l : list str) (w : world) :
  fst (analyze cfg o l w) <> Raise PyMongoError
  /\ fst (analyze cfg o l w) <> Raise TypeError.
Proof.
  destruct (norm_ingredients l) as [|n ns] eqn:En.
  { rewrite analyze_blank by assumption; split; discriminate. }
  assert (Hn : norm_ingredients l <> []) by congruence.
  rewrite analyze_valid by assumption.
  destruct (make_hash l) as [h|e] eqn:Eh.
  2:{ apply make_hash_raises in Eh; subst; split; discriminate. }
  destruct (fetch_total o h w) as (v & w1 & -> & _).
  destruct (is_not_None v).
  { destruct v; split; discriminate. }
  destruct (credentials_missing cfg) eqn:Ec.
  { rewrite call_without_credentials by assumption; split; discriminate. }
  destruct (edamam o) as [msg|r] eqn:Er.
  { rewrite (call_unreachable cfg o l w1 msg Ec Er); split; discriminate. }
  destruct (Z_lt_le_dec (status_code r) 400) as [Hs|Hs].
  2:{ rewrite (call_error cfg o l w1 r Ec Er Hs); split; discriminate. }
  rewrite (call_ok cfg o l w1 r Ec Er Hs).
  destruct (json r) as [data|]; [|split; discriminate].
  destruct (write_total cfg o h data (log (Post (norm_ingredients l)) w1))
    as (w3 & -> & _).
  destruct data; split; discriminate.
Qed.

(** With the store unconfigured or failing, the provider's payload is
    still returned. *)
Lemma backend_store_failure (cfg : config) (o : oracle) (l : list str) (w : world)
  (h : str) (r : response) (d : dict) :
  norm_ingredients l <> [] -> make_hash l = Return h ->
  credentials_missing cfg = false ->
  edamam o = Responded r -> status_code r < 400 -> json r = Some (VDict d) ->
  db w = None \/ find_one_raises o = true
  \/ (write_raises o = true /\ fst (fetch_from_cache o h w) = Return VNone) ->
  fst (analyze cfg o l w) = Return (Build_response (py "miss") h d)
  /\ (db w = None \/ write_raises o = true ->
      db (snd (analyze cfg o l w)) = db w).
Proof.
  intros Hn Hh Hc Hr Hs Hj Hfail.
  destruct (fetch_total o h w) as (v & w1 & Ef & Hdb1 & _).
  assert (Hv : v = VNone).
  { destruct Hfail as [Hnone | [Hraise | [_ Hmiss]]].
    - rewrite (fetch_unconfigured o h w Hnone) in Ef; congruence.
    - destruct (db w) as [c|] eqn:Edb.
      + rewrite (fetch_raises o h w c Edb Hraise) in Ef; congruence.
      + rewrite (fetch_unconfigured o h w Edb) in Ef; congruence.
    - rewrite Ef in Hmiss; simpl in Hmiss; congruence. }
  subst v.
  rewrite (analyze_miss cfg o l w w1 h Hn Hh Ef).
  rewrite (call_ok cfg o l w1 r Hc Hr Hs), Hj.
  split; [reflexivity|].
  cbn [snd]; rewrite <- Hdb1.
  set (w2 := log (Post (norm_ingredients l)) w1).
  change (db w1) with (db w2).
  intros [Hnone | Hwr].
  - rewrite write_unconfigured; [reflexivity | exact Hnone].
  - destruct (db w2) as [c|] eqn:E2.
    + rewrite (write_raises_dropped cfg o h _ w2 c E2 Hwr); exact E2.
    + rewrite (write_unconfigured cfg o h _ w2 E2); exact E2.
Qed.

Lemma no_post_before_call (o : oracle) (h : str) (w w1 : world) :
  w1 = w \/ w1 = log (Find_one h) w ->
  existsb is_post (new_events w w1) = false
  /\ forallb (fun e => negb (is_write e)) (new_events w w1) = true.
Proof.
  intros [-> | ->]; [rewrite new_events_none | rewrite new_events_1]; split; reflexivity.
Qed.

(** A provider answer with status 400 or more ends the request with that
    status and the message of the body; nothing is written. *)
Lemma backend_provider_error (cfg : config) (o : oracle) (l : list str) (w : world)
  (r : response) :
  edamam o = Responded r -> 400 <= status_code r ->
  existsb is_post (new_events w (snd (analyze cfg o l w))) = true ->
  fst (analyze cfg o l w) =
    Raise (HTTPException (status_code r)
             (VStr (py "Edamam error: " ++ format (best_effort_message r))))
  /\ db (snd (analyze cfg o l w)) = db w
  /\ forallb (fun e => negb (is_write e))
       (new_events w (snd (analyze cfg o l w))) = true.
Proof.
  intros Hr Hs.
  destruct (norm_ingredients l) as [|n ns] eqn:En.
  { rewrite analyze_blank by assumption; cbn [snd].
    rewrite new_events_none; discriminate. }
  assert (Hn : norm_ingredients l <> []) by congruence.
  rewrite analyze_valid by assumption.
  destruct (make_hash l) as [h|e] eqn:Eh.
  2:{ cbn [snd]; rewrite new_events_none; discriminate. }
  destruct (fetch_total o h w) as (v & w1 & -> & Hdb1 & Hw1).
  destruct (no_post_before_call o h w w1 Hw1) as [Hp1 Hp2].
  destruct (is_not_None v).
  { destruct v; cbn [make_response ret raise snd]; rewrite Hp1; discriminate. }
  destruct (credentials_missing cfg) eqn:Ec.
  { rewrite call_without_credentials by assumption; cbn [snd].
    rewrite Hp1; discriminate. }
  rewrite (call_error cfg o l w1 r Ec Hr Hs); cbn [fst snd].
  intros _; repeat split; [exact Hdb1|].
  destruct Hw1 as [-> | ->]; [rewrite new_events_1 | rewrite new_events_2];
    reflexivity.
Qed.

(** Without credentials the provider is never called and nothing is
    written; a request that gets as far as the provider step fails with
    status 500. *)
Lemma backend_without_credentials (cfg : config) (o : oracle) (l : list str)
  (w : world) :
  credentials_missing cfg = true ->
  existsb is_post (new_events w (snd (analyze cfg o l w))) = false
  /\ db (snd (analyze cfg o l w)) = db w
  /\ forall h, norm_ingredients l <> [] -> make_hash l = Return h ->
       fst (fetch_from_cache o h w) = Return VNone ->
       fst (analyze cfg o l w) =
         Raise (HTTPException 500 (VStr (py "Edamam credentials not configured"))).
Proof.
  intros Hc.
  destruct (norm_cases l) as [En | Hn].
  { rewrite analyze_blank by assumption; cbn [snd].
    rewrite new_events_none; repeat split; congruence. }
  rewrite analyze_valid by assumption.
  destruct (make_hash l) as [h|e] eqn:Eh.
  2:{ cbn [snd]; rewrite new_events_none; repeat split; congruence. }
  destruct (fetch_total o h w) as (v & w1 & Ef & Hdb1 & Hw1).
  rewrite Ef.
  destruct (no_post_before_call o h w w1 Hw1) as [Hp1 _].
  destruct (is_not_None v) eqn:Ev.
  { assert (Ew : snd (make_response (py "hit") h v w1) = w1)
      by (destruct v; reflexivity).
    rewrite Ew; repeat split; try assumption.
    intros h' _ Hh' Hf; inversion Hh'; subst h'.
    rewrite Ef in Hf; cbn [fst] in Hf; inversion Hf; subst v; discriminate. }
  rewrite call_without_credentials by assumption; cbn [fst snd].
  repeat split; assumption.
Qed.

(** *** The root variant, path by path *)

Lemma root_without_credentials (cfg : config) (o : oracle) (l : list str) (w : world) :
  credentials_missing cfg = true ->
  analyze_nutrition cfg o l w =
    (Raise (HTTPException 500 (VStr (py "Edamam credentials are not configured."))), w).
Proof. unfold credentials_missing, analyze_nutrition; intros ->; reflexivity. Qed.

Lemma root_blank (cfg : config) (o : oracle) (l : list str) (w : world) :
  credentials_missing cfg = false -> root_normalized l = [] ->
  analyze_nutrition cfg o l w =
    (Raise (HTTPException 400 (VStr (py "Please provide at least one ingredient."))), w).
Proof.
  unfold credentials_missing, analyze_nutrition, root_normalized.
  intros -> ->; reflexivity.
Qed.

Lemma make_response_checked (c h : str) (v : value) (w : world) :
  make_response c h v w = (checked c h v, w).
Proof. destruct v; reflexivity. Qed.

Lemma root_valid (cfg : config) (o : oracle) (l : list str) (w : world) :
  credentials_missing cfg = false -> root_normalized l <> [] ->
  analyze_nutrition cfg o l w =
    match sha256_hex (join LF (root_normalized l)) with
    | Raise e => (Raise e, w)
    | Return h =>
        match db w with
        | None => root_after_miss o (root_normalized l) h w
        | Some c =>
            if find_one_raises o then (Raise PyMongoError, log (Find_one h) w)
            else
              match find (root_query cfg (t_lookup o) h) c with
              | Some doc =>
                  (checked (py "hit") h (get_default doc (py "result") (VDict [])),
                   log (Find_one h) w)
              | None => root_after_miss o (root_normalized l) h (log (Find_one h) w)
              end
        end
    end.
Proof.
  unfold credentials_missing, analyze_nutrition; intros -> Hn.
  fold (root_normalized l).
  destruct (root_normalized l) as [|n ns] eqn:En; [congruence|].
  rewrite <- En; clear Hn En n ns.
  generalize (root_normalized l); intros nl.
  destruct (sha256_hex (join LF nl)) as [h|e]; [|reflexivity].
  assert (Hmiss : forall w1,
    (r <- try_except (post o nl)
            (fun e => match e with
                      | TransportError msg =>
                          raise (HTTPException 502
                                   (VStr (py "Error contacting nutrition service: " ++ msg)))
                      | _ => raise e
                      end) ;;
     if 400 <=? status_code r then
       err <- try_except (response_json r)
                (fun _ => ret (VDict [(py "message", VStr (text r))])) ;;
       raise (HTTPException (status_code r) err)
     else
       data <- response_json r ;;
       none <- db_is_None ;;
       (if none then ret tt
        else insert_one o h (root_entry nl h data (t_lookup o))) ;;;
       make_response (py "miss") h data) w1
    = root_after_miss o nl h w1).
  { intros [d1 ev1]; unfold root_after_miss; run.
    destruct (edamam o) as [msg|r]; [reflexivity|].
    destruct (400 <=? status_code r).
    - destruct (json r); reflexivity.
    - destruct (json r) as [v|]; [|reflexivity].
      destruct d1 as [c|].
      + destruct (write_raises o); [reflexivity|].
        rewrite bson_root_entry; destruct v; reflexivity.
      + destruct v; reflexivity. }
  destruct w as [[c|] ev].
  - unfold bind at 1, lift. unfold bind at 1; unfold db_is_None at 1; cbn [db].
    unfold bind at 1. unfold bind at 1; unfold find_one at 1; cbn [db].
    destruct (find_one_raises o); [reflexivity|].
    fold (root_query cfg (t_lookup o) h).
    destruct (find (root_query cfg (t_lookup o) h) c) as [doc|] eqn:Ef.
    + unfold ret at 1; cbn [optional_dict as_dict].
      apply find_some in Ef; destruct Ef as [_ Hq].
      unfold root_query in Hq; apply andb_true_iff in Hq; destruct Hq as [Hq _].
      rewrite (hash_is_nonempty h doc Hq).
      apply make_response_checked.
    + unfold ret at 1; cbn [optional_dict truthy]. apply Hmiss.
  - unfold bind at 1, lift. unfold bind at 1; unfold db_is_None at 1; cbn [db].
    unfold bind at 1, ret at 1; cbn [truthy]. apply Hmiss.
Qed.

Lemma root_cases (l : list str) : root_normalized l = [] \/ root_normalized l <> [].
Proof. destruct (root_normalized l); [left; reflexivity | right; discriminate]. Qed.

Lemma checked_returns (c h : str) (v : value) (resp : AnalyzeResponse) :
  checked c h v = Return resp -> v = VDict (data resp) /\ resp = Build_response c h (data resp).
Proof. destruct v; try discriminate; intros H; inversion H; auto. Qed.

(** Every way the lookup of [analyze_nutrition] can miss and still end
    in a response. *)
Lemma root_after_miss_returns (o : oracle) (nl : list str) (h : str)
  (w1 w' : world) (resp : AnalyzeResponse) :
  root_after_miss o nl h w1 = (Return resp, w') ->
  resp = Build_response (py "miss") h (data resp)
  /\ exists r, edamam o = Responded r /\ status_code r < 400
       /\ json r = Some (VDict (data resp))
       /\ ((db w1 = None /\ w' = log (Post nl) w1)
           \/ (exists c, db w1 = Some c /\ write_raises o = false
                 /\ w' = World (Some (c ++ [root_entry nl h
                                              (bson (VDict (data resp)))
                                              (bson_datetime (t_lookup o))]))
                               (events w1 ++ [Post nl; Insert_one h]))).
Proof.
  unfold root_after_miss.
  destruct (edamam o) as [msg|r]; [discriminate|].
  destruct (Z.leb_spec 400 (status_code r)) as [Hs|Hs]; [discriminate|].
  destruct (json r) as [v|] eqn:Ej; [|discriminate].
  destruct (db w1) as [c|] eqn:Edb.
  - destruct (write_raises o); [discriminate|].
    intros H; inversion H as [[Hc Hw]].
    apply checked_returns in Hc; destruct Hc as [-> Hc].
    split; [exact Hc|].
    exists r; split; [reflexivity|]; split; [assumption|]; split; [assumption|].
    right; exists c; split; [reflexivity|]; split; [reflexivity|].
    unfold log; cbn [events]; rewrite <- app_assoc; reflexivity.
  - intros H; inversion H as [[Hc Hw]].
    apply checked_returns in Hc; destruct Hc as [-> Hc].
    split; [exact Hc|].
    exists r; split; [reflexivity|]; split; [assumption|]; split; [assumption|].
    left; split; reflexivity.
Qed.

(** Every way [analyze_nutrition] can return a response. *)
Lemma root_returns (cfg : config) (o : oracle) (l : list str) (w w' : world)
  (resp : AnalyzeResponse) :
  analyze_nutrition cfg o l w = (Return resp, w') ->
  credentials_missing cfg = false /\ root_normalized l <> []
  /\ sha256_hex (join LF (root_normalized l)) = Return (ingredients_hash resp)
  /\ ((cache resp = py "hit"
       /\ exists c doc, db w = Some c /\ find_one_raises o = false
            /\ find (root_query cfg (t_lookup o) (ingredients_hash resp)) c = Some doc
            /\ get_default doc (py "result") (VDict []) = VDict (data resp)
            /\ w' = log (Find_one (ingredients_hash resp)) w)
      \/ (cache resp = py "miss"
          /\ exists w1,
               root_after_miss o (root_normalized l) (ingredients_hash resp) w1
                 = (Return resp, w')
               /\ ((db w = None /\ w1 = w)
                   \/ (exists c, db w = Some c /\ find_one_raises o = false
                         /\ find (root_query cfg (t_lookup o) (ingredients_hash resp)) c = None
                         /\ w1 = log (Find_one (ingredients_hash resp)) w)))).
Proof.
  intros H.
  destruct (credentials_missing cfg) eqn:Ec.
  { rewrite root_without_credentials in H by assumption; discriminate. }
  destruct (root_cases l) as [En | Hn].
  { rewrite root_blank in H by assumption; discriminate. }
  rewrite root_valid in H by assumption.
  destruct (sha256_hex (join LF (root_normalized l))) as [h|e]; [|discriminate].
  split; [reflexivity|]; split; [assumption|].
  destruct (db w) as [c|] eqn:Edb.
  - destruct (find_one_raises o) eqn:Ef; [discriminate|].
    destruct (find (root_query cfg (t_lookup o) h) c) as [doc|] eqn:Eq.
    + inversion H as [[Hc Hw]].
      apply checked_returns in Hc; destruct Hc as [Hv Hc].
      rewrite Hc; cbn [ingredients_hash cache data].
      split; [reflexivity|]; left; split; [reflexivity|].
      exists c, doc; repeat split; assumption.
    + destruct (root_after_miss_returns _ _ _ _ _ _ H) as [Hc _].
      rewrite Hc; cbn [ingredients_hash cache data]; rewrite <- Hc.
      split; [reflexivity|]; right; split; [reflexivity|].
      eexists; split; [exact H|].
      right; exists c; repeat split; assumption.
  - destruct (root_after_miss_returns _ _ _ _ _ _ H) as [Hc _].
    rewrite Hc; cbn [ingredients_hash cache data]; rewrite <- Hc.
    split; [reflexivity|]; right; split; [reflexivity|].
    eexists; split; [exact H|].
    left; split; reflexivity.
Qed.

Lemma created_gte_mono (c1 c2 : Z) (d : document) :
  c1 <= c2 -> created_gte c2 d = true -> created_gte c1 d = true.
Proof.
  unfold created_gte; destruct (lookup d (py "created_at")) as [[]|]; try discriminate.
  intros H1 H2; apply Z.leb_le in H2; apply Z.leb_le.
  pose proof (bson_datetime_mono c1 c2 H1); lia.
Qed.

(** The query compares at the millisecond: an entry matches when the
    current time, cut to the millisecond, is at most its creation time plus
    the TTL. *)
Lemma root_query_entry (cfg : config) (now t : Z) (nl : list str) (h : str) (v : value) :
  bson_datetime now <= t + timedelta_seconds (CACHE_TTL_SECONDS cfg) ->
  root_query cfg now h (root_entry nl h v t) = true.
Proof.
  intros H; unfold root_query, root_entry, hash_is, created_gte; cbn [lookup].
  change (str_eqb (py "ingredients") (py "ingredients_hash")) with false.
  change (str_eqb (py "ingredients") (py "created_at")) with false.
  change (str_eqb (py "ingredients_hash") (py "created_at")) with false.
  change (str_eqb (py "result") (py "created_at")) with false.
  rewrite !(str_eqb_refl (py _)), str_eqb_refl; cbn [andb].
  rewrite bson_datetime_sub_seconds; apply Z.leb_le; lia.
Qed.

(** After a miss that inserted its payload, the same request hits. *)
Lemma root_round_trip (cfg : config) (o1 o2 : oracle) (l : list str)
  (w0 w1 : world) (resp : AnalyzeResponse) :
  analyze_nutrition cfg o1 l w0 = (Return resp, w1) ->
  cache resp = py "miss" -> is_json (VDict (data resp)) = true ->
  db w0 <> None -> find_one_raises o2 = false ->
  t_lookup o1 <= t_lookup o2 ->
  t_lookup o2 <= t_lookup o1 + timedelta_seconds (CACHE_TTL_SECONDS cfg) ->
  analyze_nutrition cfg o2 l w1 =
    (Return (Build_response (py "hit") (ingredients_hash resp) (data resp)),
     log (Find_one (ingredients_hash resp)) w1).
Proof.
  intros H Hm Hjson Hdb Hf2 Hmono Hfresh.
  destruct (root_returns _ _ _ _ _ _ H) as (Hc & Hn & Hh & [[Hhit _] | [_ Hmiss]]).
  { exfalso; apply miss_is_not_hit; rewrite <- Hhit, <- Hm; reflexivity. }
  destruct Hmiss as (wm & Hafter & [[Hnone _] | (c & Ec & _ & Enone & ->)]);
    [congruence|].
  destruct (root_after_miss_returns _ _ _ _ _ _ Hafter)
    as (_ & r & _ & _ & _ & [[Hnone _] | (c' & Ec' & _ & ->)]).
  { cbn [log db] in Hnone; congruence. }
  cbn [log db] in Ec'; rewrite Ec in Ec'; inversion Ec'; subst c'; clear Ec'.
  rewrite root_valid, Hh by assumption; cbn [db]; rewrite Hf2.
  rewrite find_app_skip.
  - cbn [find]; rewrite root_query_entry.
    + rewrite (bson_json _ Hjson).
      unfold root_entry, get_default; cbn [lookup].
      change (str_eqb (py "ingredients") (py "result")) with false.
      change (str_eqb (py "ingredients_hash") (py "result")) with false.
      rewrite (str_eqb_refl (py "result")); reflexivity.
    + rewrite <- bson_datetime_add_seconds; apply bson_datetime_mono, Hfresh.
  - intros d Hd; pose proof (find_none_false _ _ Enone d Hd) as Hq.
    unfold root_query in *.
    apply andb_false_iff in Hq; apply andb_false_iff.
    destruct Hq as [Hq | Hq]; [left; exact Hq | right].
    match goal with |- ?g = false => destruct g eqn:E; [|reflexivity] end.
    apply (created_gte_mono
             (t_lookup o1 - timedelta_seconds (CACHE_TTL_SECONDS cfg))) in E;
      [congruence | lia].
Qed.

Lemma root_after_miss_ok (o : oracle) (nl : list str) (h : str) (w1 : world)
  (r : response) (d : dict) :
  edamam o = Responded r -> status_code r < 400 -> json r = Some (VDict d) ->
  root_after_miss o nl h w1 =
    match db w1 with
    | None => (Return (Build_response (py "miss") h d), log (Post nl) w1)
    | Some c =>
        if write_raises o
        then (Raise PyMongoError, log (Insert_one h) (log (Post nl) w1))
        else (Return (Build_response (py "miss") h d),
              World (Some (c ++ [root_entry nl h (bson (VDict d))
                                   (bson_datetime (t_lookup o))]))
                    (events w1 ++ [Post nl; Insert_one h]))
    end.
Proof.
  intros Hr Hs Hj; unfold root_after_miss; rewrite Hr, Hj.
  destruct (Z.leb_spec 400 (status_code r)); [lia|].
  destruct (db w1); [|reflexivity].
  destruct (write_raises o); [reflexivity|].
  unfold log; cbn [events checked]; rewrite <- app_assoc; reflexivity.
Qed.


(** With the database not configured the request still returns the
    provider's payload, and the store is never addressed. *)
Lemma root_store_unconfigured (cfg : config) (o : oracle) (l : list str) (w : world)
  (h : str) (r : response) (d : dict) :
  credentials_missing cfg = false -> root_normalized l <> [] ->
  sha256_hex (join LF (root_normalized l)) = Return h ->
  edamam o = Responded r -> status_code r < 400 -> json r = Some (VDict d) ->
  db w = None ->
  analyze_nutrition cfg o l w =
    (Return (Build_response (py "miss") h d), log (Post (root_normalized l)) w).
Proof.
  intros Hc Hn Hh Hr Hs Hj Hdb.
  rewrite root_valid, Hh, Hdb by assumption.
  rewrite (root_after_miss_ok o _ h _ r d Hr Hs Hj), Hdb; reflexivity.
Qed.

(** A provider answer with status 400 or more ends the request with that
    status and the body (or its text under [message]); nothing is
    written. *)
Lemma root_provider_error (cfg : config) (o : oracle) (l : list str) (w : world)
  (r : response) :
  edamam o = Responded r -> 400 <= status_code r ->
  existsb is_post (new_events w (snd (analyze_nutrition cfg o l w))) = true ->
  fst (analyze_nutrition cfg o l w) =
    Raise (HTTPException (status_code r)
             match json r with
             | Some v => v
             | None => VDict [(py "message", VStr (text r))]
             end)
  /\ db (snd (analyze_nutrition cfg o l w)) = db w
  /\ forallb (fun e => negb (is_write e))
       (new_events w (snd (analyze_nutrition cfg o l w))) = true.
Proof.
  intros Hr Hs.
  destruct (credentials_missing cfg) eqn:Ec.
  { rewrite root_without_credentials by assumption; cbn [snd].
    rewrite new_events_none; discriminate. }
  destruct (root_cases l) as [En | Hn].
  { rewrite root_blank by assumption; cbn [snd].
    rewrite new_events_none; discriminate. }
  rewrite root_valid by assumption.
  destruct (sha256_hex (join LF (root_normalized l))) as [h|e].
  2:{ cbn [snd]; rewrite new_events_none; discriminate. }
  assert (Hafter : forall w1,
            root_after_miss o (root_normalized l) h w1 =
              (Raise (HTTPException (status_code r)
                        match json r with
                        | Some v => v
                        | None => VDict [(py "message", VStr (text r))]
                        end),
               log (Post (root_normalized l)) w1)).
  { intros w1; unfold root_after_miss; rewrite Hr.
    destruct (Z.leb_spec 400 (status_code r)); [reflexivity | lia]. }
  destruct (db w) as [c|] eqn:Edb.
  - destruct (find_one_raises o).
    { cbn [snd]; rewrite new_events_1; discriminate. }
    destruct (find (root_query cfg (t_lookup o) h) c).
    { cbn [snd]; rewrite new_events_1; discriminate. }
    rewrite Hafter; cbn [fst snd]; rewrite new_events_2.
    intros _; repeat split; exact Edb.
  - rewrite Hafter; cbn [fst snd]; rewrite new_events_1.
    intros _; repeat split; exact Edb.
Qed.

Lemma blank_root (l : list str) : blank l <-> root_normalized l = [].
Proof.
  rewrite blank_filter; unfold root_normalized.
  destruct (filter _ l); simpl; split; congruence.
Qed.

(** The cache key of [analyze_nutrition], and when it is the reference
    key: when trimming leaves no run of whitespace but single spaces. *)
Lemma root_normalized_spec (l : list str) :
  (forall s, In s l -> collapse_whitespace (strip s) = strip s) ->
  root_normalized l = spec_normalized l.
Proof.
  intros H; unfold root_normalized, spec_normalized.
  rewrite (filter_ext _ _ nonblank_spec).
  apply map_ext_in; intros s Hs.
  apply filter_In in Hs; destruct Hs as [Hs _].
  unfold normalize_root, spec_normalize; rewrite (H s Hs); reflexivity.
Qed.

Lemma make_hash_spec (l : list str) : make_hash l = spec_key l.
Proof.
  unfold make_hash, spec_key, sha256_hex; rewrite norm_ingredients_spec; reflexivity.
Qed.

(** When the store holds at most one entry for a key, that entry is the
    one a lookup by key returns. *)
Lemma find_only_entry (h : str) (c : collection) (e : document) :
  In e c -> hash_is h e = true -> (length (entries_for h c) <= 1)%nat ->
  find (hash_is h) c = Some e.
Proof.
  unfold entries_for; induction c as [|d r IH]; intros Hin He Hlen; [contradiction|].
  cbn [find filter] in *.
  destruct Hin as [-> | Hin].
  - rewrite He; reflexivity.
  - destruct (hash_is h d) eqn:Ed.
    + exfalso.
      assert (Hf : In e (filter (hash_is h) r)) by (apply filter_In; auto).
      destruct (filter (hash_is h) r); [contradiction | simpl in Hlen; lia].
    + apply IH; assumption.
Qed.

(** A field that holds no datetime: absent, [None], or of another type. *)
Lemma no_datetime (e : dict) (k : str) :
  lookup e k = None \/ lookup e k = Some VNone
  \/ (exists v, lookup e k = Some v /\ is_datetime v = false) ->
  is_datetime (get e k) = false.
Proof.
  unfold get, get_default.
  intros [-> | [-> | (v & -> & Hv)]]; [reflexivity | reflexivity | exact Hv].
Qed.

(** *** The claims *)

(** C1, as the code has it. After a request that missed, obtained a JSON
    payload from the provider and wrote it to the cache, the same ingredient
    list asked again returns "hit" with the same key and payload, and the
    second request sends one lookup to the store and nothing to the
    provider. First conjunct: [analyze] of the backend variant, when the
    second lookup is not after the expiry the store holds, which is the
    time of the write plus the TTL cut to the millisecond. Second conjunct:
    [analyze_nutrition] of the root variant, when the TTL has not elapsed
    since the first request and the clock has not gone back. *)
Theorem cache_round_trip :
  forall (cfg : config) (o1 o2 : oracle) (l : list str) (w0 w1 : world)
         (resp : AnalyzeResponse),
    cache resp = py "miss" -> is_json (VDict (data resp)) = true ->
    db w0 <> None -> find_one_raises o2 = false ->
    (analyze cfg o1 l w0 = (Return resp, w1) ->
     write_raises o1 = false ->
     t_lookup o2
       <= bson_datetime (t_write o1 + timedelta_seconds (CACHE_TTL_SECONDS cfg)) ->
     analyze cfg o2 l w1 =
       (Return (Build_response (py "hit") (ingredients_hash resp) (data resp)),
        log (Find_one (ingredients_hash resp)) w1))
    /\
    (analyze_nutrition cfg o1 l w0 = (Return resp, w1) ->
     t_lookup o1 <= t_lookup o2 ->
     t_lookup o2 <= t_lookup o1 + timedelta_seconds (CACHE_TTL_SECONDS cfg) ->
     analyze_nutrition cfg o2 l w1 =
       (Return (Build_response (py "hit") (ingredients_hash resp) (data resp)),
        log (Find_one (ingredients_hash resp)) w1)).
Proof.
  intros cfg o1 o2 l w0 w1 resp Hm Hjson Hdb Hf; split.
  - intros H Hw Ht; apply (backend_round_trip cfg o1 o2 l w0 w1 resp); assumption.
  - intros H H1 H2; apply (root_round_trip cfg o1 o2 l w0 w1 resp); assumption.
Qed.


(** C3, as the code has it. Backend variant: no error of the store ever
    leaves [analyze]; with the store not configured, the lookup raising, or
    the write raising after a miss, the request returns the provider's
    payload as a "miss", and an unconfigured store or a raising write
    leaves the store as it was. Root variant: an unconfigured store is
    tolerated the same way, the store is not addressed at all; an exception
    of the lookup, or of the insert that follows the provider's answer, is
    not caught. *)
Theorem cache_failures :
  forall (cfg : config) (o : oracle) (l : list str) (w : world),
    (fst (analyze cfg o l w) <> Raise PyMongoError
     /\ fst (analyze cfg o l w) <> Raise TypeError)
    /\
    (forall (h : str) (r : response) (d : dict),
       credentials_missing cfg = false ->
       edamam o = Responded r -> status_code r < 400 -> json r = Some (VDict d) ->
       (norm_ingredients l <> [] -> make_hash l = Return h ->
        db w = None \/ find_one_raises o = true
        \/ (write_raises o = true /\ fst (fetch_from_cache o h w) = Return VNone) ->
        fst (analyze cfg o l w) = Return (Build_response (py "miss") h d)
        /\ (db w = None \/ write_raises o = true ->
            db (snd (analyze cfg o l w)) = db w))
       /\
       (root_normalized l <> [] ->
        sha256_hex (join LF (root_normalized l)) = Return h ->
        db w = None ->
        analyze_nutrition cfg o l w =
          (Return (Build_response (py "miss") h d),
           log (Post (root_normalized l)) w)))
    /\
    (forall (h : str) (c : collection),
       credentials_missing cfg = false ->
       root_normalized l <> [] ->
       sha256_hex (join LF (root_normalized l)) = Return h ->
       db w = Some c -> find_one_raises o = true ->
       analyze_nutrition cfg o l w = (Raise PyMongoError, log (Find_one h) w))
    /\
    (forall (h : str) (c : collection) (r : response) (d : dict),
       credentials_missing cfg = false ->
       root_normalized l <> [] ->
       sha256_hex (join LF (root_normalized l)) = Return h ->
       db w = Some c -> find_one_raises o = false ->
       find (root_query cfg (t_lookup o) h) c = None ->
       edamam o = Responded r -> status_code r < 400 -> json r = Some (VDict d) ->
       write_raises o = true ->
       analyze_nutrition cfg o l w =
         (Raise PyMongoError,
          log (Insert_one h) (log (Post (root_normalized l)) (log (Find_one h) w)))).
Proof.
  intros cfg o l w; split; [apply backend_no_store_error|]; split; [|split].
  - intros h r d Hc Hr Hs Hj; split.
    + intros Hn Hh Hfail.
      apply (backend_store_failure cfg o l w h r d); assumption.
    + intros Hn Hh Hdb.
      apply (root_store_unconfigured cfg o l w h r d); assumption.
  - intros h c Hc Hn Hh Hdb Hf.
    rewrite root_valid, Hh, Hdb, Hf by assumption; reflexivity.
  - intros h c r d Hc Hn Hh Hdb Hf Hq Hr Hs Hj Hw.
    rewrite root_valid, Hh, Hdb, Hf, Hq by assumption.
    rewrite (root_after_miss_ok o _ h _ r d Hr Hs Hj); cbn [log db].
    rewrite Hdb, Hw; reflexivity.
Qed.


(** C5, as the code has it. Backend variant: [norm_ingredients] and
    [make_hash] compute the reference normalization and the reference key
    of every list. Root variant: the key of a response is the digest of the
    newline-joined list of the non-blank entries, trimmed and lowercased;
    it is the reference key when trimming leaves no run of whitespace other
    than single spaces in any entry. *)
Theorem key_derivation :
  forall l : list str,
    (norm_ingredients l = spec_normalized l /\ make_hash l = spec_key l)
    /\
    (forall (cfg : config) (o : oracle) (w w' : world) (resp : AnalyzeResponse),
       analyze_nutrition cfg o l w = (Return resp, w') ->
       sha256_hex (join LF (map (fun i => lower (strip i))
                              (filter (fun i => negb (str_eqb (strip i) [])) l)))
         = Return (ingredients_hash resp)
       /\ ((forall s, In s l -> collapse_whitespace (strip s) = strip s) ->
           spec_key l = Return (ingredients_hash resp))).
Proof.
  intros l; split.
  - split; [apply norm_ingredients_spec | apply make_hash_spec].
  - intros cfg o w w' resp H.
    destruct (root_returns _ _ _ _ _ _ H) as (_ & _ & Hh & _).
    split.
    + rewrite <- Hh; unfold root_normalized.
      rewrite (filter_ext _ _ nonblank_spec); reflexivity.
    + intros Hl; rewrite <- Hh, (root_normalized_spec l Hl); reflexivity.
Qed.

(** C6, as the code has it. A request whose entries are all blank fails
    before any lookup or provider call, the world is as before: with status
    400 in the backend variant, and in the root variant with status 400
    when both credentials are configured, with status 500 when one is
    not. *)
Theorem empty_input_rejected :
  forall (cfg : config) (o : oracle) (l : list str) (w : world),
    blank l ->
    analyze cfg o l w =
      (Raise (HTTPException 400 (VStr (py "Provide at least one ingredient line"))),
       w)
    /\ (credentials_missing cfg = false ->
        analyze_nutrition cfg o l w =
          (Raise (HTTPException 400
                    (VStr (py "Please provide at least one ingredient."))), w))
    /\ (credentials_missing cfg = true ->
        analyze_nutrition cfg o l w =
          (Raise (HTTPException 500
                    (VStr (py "Edamam credentials are not configured."))), w)).
Proof.
  intros cfg o l w Hb; split; [|split].
  - apply analyze_blank, blank_norm, Hb.
  - intros Hc; apply root_blank; [assumption | apply blank_root, Hb].
  - intros Hc; apply root_without_credentials, Hc.
Qed.

(** C7, as the code has it. When the provider, once called, answers with
    a status of 400 or more, the request fails with that status, the store
    is what it was and no write was sent. In the backend variant the detail
    of the error is the text "Edamam error: " followed by the best-effort
    message: the [message] field of a structured body, else its [error]
    field, else the raw text. The root variant extracts no message: the
    detail is the parsed body as a whole, whatever it holds, or the raw
    text under [message] when the body is not JSON. *)
Theorem provider_error_propagation :
  forall (cfg : config) (o : oracle) (l : list str) (w : world) (r : response),
    edamam o = Responded r -> 400 <= status_code r ->
    (existsb is_post (new_events w (snd (analyze cfg o l w))) = true ->
     fst (analyze cfg o l w) =
       Raise (HTTPException (status_code r)
                (VStr (py "Edamam error: " ++ format (best_effort_message r))))
     /\ db (snd (analyze cfg o l w)) = db w
     /\ forallb (fun e => negb (is_write e))
          (new_events w (snd (analyze cfg o l w))) = true)
    /\
    (existsb is_post (new_events w (snd (analyze_nutrition cfg o l w))) = true ->
     fst (analyze_nutrition cfg o l w) =
       Raise (HTTPException (status_code r)
                match json r with
                | Some v => v
                | None => VDict [(py "message", VStr (text r))]
                end)
     /\ db (snd (analyze_nutrition cfg o l w)) = db w
     /\ forallb (fun e => negb (is_write e))
          (new_events w (snd (analyze_nutrition cfg o l w))) = true).
Proof.
  intros cfg o l w r Hr Hs; split.
  - apply backend_provider_error; assumption.
  - apply root_provider_error; assumption.
Qed.

(** C8, as the code has it. With a credential missing, the provider is
    never called. The root variant fails with status 500 before anything
    else. The backend variant fails with status 500 when the request
    reaches the provider step, that is for an input that is not blank and
    misses the cache; it sends nothing to the provider and writes
    nothing. *)
Theorem missing_credentials :
  forall (cfg : config) (o : oracle) (l : list str) (w : world),
    credentials_missing cfg = true ->
    analyze_nutrition cfg o l w =
      (Raise (HTTPException 500
                (VStr (py "Edamam credentials are not configured."))), w)
    /\ existsb is_post (new_events w (snd (analyze cfg o l w))) = false
    /\ db (snd (analyze cfg o l w)) = db w
    /\ forall h, norm_ingredients l <> [] -> make_hash l = Return h ->
         fst (fetch_from_cache o h w) = Return VNone ->
         fst (analyze cfg o l w) =
           Raise (HTTPException 500
                    (VStr (py "Edamam credentials not configured"))).
Proof.
  intros cfg o l w Hc; split.
  - apply root_without_credentials, Hc.
  - apply backend_without_credentials, Hc.
Qed.

(** C9. Normalization is idempotent: normalizing an entry twice gives what
    normalizing it once gives, for the expression of [norm_ingredients]
    and for the expression of [analyze_nutrition]. *)
Theorem normalization_idempotent :
  forall s : str,
    normalize (normalize s) = normalize s
    /\ normalize_root (normalize_root s) = normalize_root s.
Proof.
  intros s; split; [apply normalize_idempotent | apply normalize_root_idempotent].
Qed.

(** C10. An entry whose [expires_at] is absent, [None] or not a datetime
    never expires in the backend variant: when it is the entry the store
    returns for the key, then whatever the clock and whatever its
    [created_at], [fetch_from_cache] returns its stored payload, and the
    request is a "hit" that returns it. *)
Theorem entry_without_expiry :
  forall (cfg : config) (o : oracle) (l : list str) (w : world) (c : collection)
         (e : document) (h : str),
    db w = Some c -> find_one_raises o = false ->
    find (hash_is h) c = Some e ->
    lookup e (py "expires_at") = None
    \/ lookup e (py "expires_at") = Some VNone
    \/ (exists v, lookup e (py "expires_at") = Some v /\ is_datetime v = false) ->
    fetch_from_cache o h w = (Return (get e (py "data")), log (Find_one h) w)
    /\ forall d, get e (py "data") = VDict d ->
         norm_ingredients l <> [] -> make_hash l = Return h ->
         analyze cfg o l w =
           (Return (Build_response (py "hit") h d), log (Find_one h) w).
Proof.
  intros cfg o l w c e h Hdb Hf He Hd.
  apply no_datetime in Hd.
  pose proof (backend_no_expiry o h w c e Hdb Hf He Hd) as H.
  split; [exact H|].
  intros d Hdata Hn Hh; apply analyze_hit; [assumption | assumption|].
  rewrite H, Hdata; reflexivity.
Qed.

(** *** More on normalization and keys *)

Lemma lstrip_prefix (s : str) :
  exists pre, s = pre ++ lstrip s /\ Forall (fun c => isspace c = true) pre.
Proof.
  induction s as [|c r (pre & E & H)]; [exists []; split; [reflexivity | constructor]|].
  simpl; destruct (isspace c) eqn:Ec.
  - exists (c :: pre); split; [simpl; congruence | constructor; assumption].
  - exists []; split; [reflexivity | constructor].
Qed.

Lemma split_spaces (ws : str) :
  Forall (fun c => isspace c = true) ws -> split ws = [].
Proof. induction 1 as [|c r Hc _ IH]; [reflexivity|]; simpl; rewrite Hc; exact IH. Qed.

Lemma split_skip_spaces (ws s : str) :
  Forall (fun c => isspace c = true) ws -> split (ws ++ s) = split s.
Proof.
  induction 1 as [|c r Hc _ IH]; [reflexivity|].
  cbn [app split]; rewrite Hc; exact IH.
Qed.

Lemma split_drop_spaces (u ws : str) :
  Forall (fun c => isspace c = true) ws -> split (u ++ ws) = split u.
Proof.
  intros Hws; induction u as [a Ha | a w b Ha Hw IH] using ws_ind.
  - destruct Hws as [|c r Hc Hr]; [rewrite app_nil_r; reflexivity|].
    rewrite split_app_space, (split_nows a Ha), (split_spaces r Hr) by assumption.
    apply app_nil_r.
  - rewrite <- app_assoc; cbn [app].
    rewrite !split_app_space, IH by assumption; reflexivity.
Qed.

Lemma split_lstrip (s : str) : split (lstrip s) = split s.
Proof.
  destruct (lstrip_prefix s) as (pre & E & H).
  rewrite E at 2; rewrite split_skip_spaces by assumption; reflexivity.
Qed.

Lemma split_strip (s : str) : split (strip s) = split s.
Proof.
  unfold strip, rstrip.
  rewrite <- (split_lstrip s).
  generalize (lstrip s); intros t.
  destruct (lstrip_prefix (rev t)) as (pre & E & H).
  assert (Et : t = rev (lstrip (rev t)) ++ rev pre).
  { rewrite <- rev_app_distr, <- E, rev_involutive; reflexivity. }
  rewrite Et at 2.
  rewrite split_drop_spaces; [reflexivity | apply Forall_rev, H].
Qed.

Lemma join_words_injective (ws1 ws2 : list str) :
  Forall word ws1 -> Forall word ws2 -> join SP ws1 = join SP ws2 -> ws1 = ws2.
Proof.
  intros H1 H2 E.
  rewrite <- (split_join ws1 H1), <- (split_join ws2 H2), E; reflexivity.
Qed.

Lemma strip_nonempty_split (s : str) : strip s <> [] -> split s <> [].
Proof.
  intros H; rewrite <- split_strip.
  destruct (strip_trimmed s) as [_ Hend].
  apply (proj2 (collapse_split (strip s) Hend)), H.
Qed.

Lemma nonblank_truthy (s : str) :
  str_truthy s && str_truthy (strip s) = true <-> strip s <> [].
Proof.
  rewrite nonblank_spec, negb_true_iff; split.
  - intros H E; rewrite E in H; discriminate.
  - intros H; apply str_eqb_neq, H.
Qed.

Lemma normalize_nonblank (s : str) : strip s <> [] -> normalize s <> [].
Proof.
  intros H; pose proof (strip_nonempty_split s H) as Hs.
  assert (Hm : map lower (split s) <> [])
    by (destruct (split s); [congruence | discriminate]).
  rewrite normalize_words, split_strip.
  apply join_nonempty; [apply lower_words, split_words | exact Hm].
Qed.

Lemma normalize_passes_filter (s : str) :
  strip s <> [] ->
  str_truthy (normalize s) && str_truthy (strip (normalize s)) = true.
Proof.
  intros H; apply nonblank_truthy.
  rewrite normalize_words at 1.
  rewrite trimmed_strip by (apply join_trimmed, lower_words, split_words).
  rewrite <- normalize_words; apply normalize_nonblank, H.
Qed.

Lemma norm_ingredients_again (l : list str) :
  norm_ingredients (norm_ingredients l) = norm_ingredients l.
Proof.
  unfold norm_ingredients; induction l as [|s l IH]; [reflexivity|].
  cbn [filter].
  destruct (str_truthy s && str_truthy (strip s)) eqn:E; [|exact IH].
  apply nonblank_truthy in E.
  cbn [map filter]; rewrite (normalize_passes_filter s E).
  cbn [map]; rewrite normalize_idempotent, IH; reflexivity.
Qed.

Lemma norm_ingredients_app (l1 l2 : list str) :
  norm_ingredients (l1 ++ l2) = norm_ingredients l1 ++ norm_ingredients l2.
Proof. unfold norm_ingredients; rewrite filter_app, map_app; reflexivity. Qed.

Lemma root_normalized_app (l1 l2 : list str) :
  root_normalized (l1 ++ l2) = root_normalized l1 ++ root_normalized l2.
Proof. unfold root_normalized; rewrite filter_app, map_app; reflexivity. Qed.

Lemma in_join (sep : str) (ws : list str) (x : Z) :
  In x (join sep ws) -> In x sep \/ exists w, In w ws /\ In x w.
Proof.
  induction ws as [|a l IH]; [intros []|].
  destruct l as [|b l'].
  - intros H; right; exists a; split; [left; reflexivity | exact H].
  - rewrite join_cons by discriminate.
    intros H; apply in_app_or in H; destruct H as [H | H].
    + right; exists a; split; [left; reflexivity | exact H].
    + apply in_app_or in H; destruct H as [H | H]; [left; exact H|].
      destruct (IH H) as [Hs | (w & Hw & Hx)]; [left; exact Hs|].
      right; exists w; split; [right; exact Hw | exact Hx].
Qed.

Lemma normalize_no_newline (s : str) : ~ In 10 (normalize s).
Proof.
  unfold normalize; intros H; apply in_join in H.
  destruct H as [[H | []] | (w & Hw & Hx)]; [discriminate|].
  pose proof (split_words (lower (strip s))) as Hall.
  rewrite Forall_forall in Hall; destruct (Hall w Hw) as [_ Hn].
  unfold nows in Hn; rewrite Forall_forall in Hn.
  specialize (Hn 10 Hx); discriminate.
Qed.

Lemma cut_at_newline (a a' r r' : str) :
  ~ In 10 a -> ~ In 10 a' -> a ++ 10 :: r = a' ++ 10 :: r' -> a = a' /\ r = r'.
Proof.
  revert a'; induction a as [|x a IH]; intros [|y a'] Ha Ha' E; simpl in *.
  - inversion E; auto.
  - inversion E; subst; exfalso; apply Ha'; left; reflexivity.
  - inversion E; subst; exfalso; apply Ha; left; reflexivity.
  - inversion E; subst.
    destruct (IH a') as [-> ->]; auto.
Qed.

Lemma join_lines_nonempty (a : str) (l : list str) : a <> [] -> join LF (a :: l) <> [].
Proof.
  intros Ha; destruct l; simpl; [exact Ha|].
  destruct a; [congruence | discriminate].
Qed.

Lemma join_lines_injective (l1 l2 : list str) :
  Forall (fun e => e <> [] /\ ~ In 10 e) l1 ->
  Forall (fun e => e <> [] /\ ~ In 10 e) l2 ->
  join LF l1 = join LF l2 -> l1 = l2.
Proof.
  intros H1; revert l2; induction H1 as [|a r1 [Ha Hna] Hr1 IH];
    intros l2 H2 E; destruct H2 as [|b r2 [Hb Hnb] Hr2].
  - reflexivity.
  - exfalso; symmetry in E; revert E; apply join_lines_nonempty, Hb.
  - exfalso; revert E; apply join_lines_nonempty, Ha.
  - destruct r1 as [|a1 r1']; destruct r2 as [|b1 r2'].
    + simpl in E; congruence.
    + rewrite (join_cons LF b) in E by discriminate; cbn [join] in E.
      exfalso; apply Hna; rewrite E; apply in_or_app; right; left; reflexivity.
    + rewrite (join_cons LF a) in E by discriminate; cbn [join] in E.
      exfalso; apply Hnb; rewrite <- E; apply in_or_app; right; left; reflexivity.
    + rewrite (join_cons LF a), (join_cons LF b) in E by discriminate.
      destruct (cut_at_newline _ _ _ _ Hna Hnb E) as [-> E'].
      rewrite (IH _ Hr2 E'); reflexivity.
Qed.

Lemma norm_ingredients_entries (l : list str) :
  Forall (fun e => e <> [] /\ ~ In 10 e) (norm_ingredients l).
Proof.
  unfold norm_ingredients; apply Forall_map, Forall_forall; intros s Hs.
  apply filter_In in Hs; destruct Hs as [_ Hs]; apply nonblank_truthy in Hs.
  split; [apply normalize_nonblank, Hs | apply normalize_no_newline].
Qed.

Lemma trimmed_around_newline (a b : str) :
  trimmed a -> a <> [] -> trimmed b -> b <> [] -> trimmed (a ++ 10 :: b).
Proof.
  intros [Ha _] Hna [_ Hb] Hnb; split.
  - apply lstrip_app; assumption.
  - rewrite rev_app_cons; apply lstrip_app; [exact Hb|].
    intros E; apply (f_equal (@rev Z)) in E; rewrite rev_involutive in E; auto.
Qed.

(** X1. What [normalize] computes: the words of the entry, lowercased
    and one space apart; two entries have the same normal form exactly
    when they have the same words up to case, whatever the whitespace
    around and between the words. *)
Theorem normalize_by_words :
  forall s1 s2 : str,
    normalize s1 = join SP (map lower (split s1))
    /\ (normalize s1 = normalize s2
        <-> map lower (split s1) = map lower (split s2)).
Proof.
  assert (H : forall s, normalize s = join SP (map lower (split s))).
  { intros s; rewrite normalize_words, split_strip; reflexivity. }
  intros s1 s2; split; [apply H|].
  rewrite !H; split; [|intros ->; reflexivity].
  apply join_words_injective; apply lower_words, split_words.
Qed.

(** X2. [norm_ingredients] returns a list in normal form: applied to its
    own result it changes nothing, so the key of a list and the key of its
    normalized list are the same. *)
Theorem norm_ingredients_idempotent :
  forall l : list str,
    norm_ingredients (norm_ingredients l) = norm_ingredients l
    /\ make_hash (norm_ingredients l) = make_hash l.
Proof.
  intros l; split; [apply norm_ingredients_again|].
  unfold make_hash; rewrite norm_ingredients_again; reflexivity.
Qed.

(** X3. Blank entries do not count: entries that are empty or all
    whitespace, anywhere in the list, change neither the normalized list
    nor the key of the backend variant, nor the list the root variant
    normalizes. *)
Theorem blank_entries_ignored :
  forall l1 b l2 : list str,
    blank b ->
    norm_ingredients (l1 ++ b ++ l2) = norm_ingredients (l1 ++ l2)
    /\ make_hash (l1 ++ b ++ l2) = make_hash (l1 ++ l2)
    /\ root_normalized (l1 ++ b ++ l2) = root_normalized (l1 ++ l2).
Proof.
  intros l1 b l2 Hb.
  assert (E1 : norm_ingredients (l1 ++ b ++ l2) = norm_ingredients (l1 ++ l2)).
  { rewrite !norm_ingredients_app, (proj1 (blank_norm b) Hb); reflexivity. }
  split; [exact E1|]; split.
  - unfold make_hash; rewrite E1; reflexivity.
  - rewrite !root_normalized_app, (proj1 (blank_root b) Hb); reflexivity.
Qed.

(** X4. In the backend variant the text that is hashed determines the
    normalized list: two lists are hashed from the same text only when
    their normalized lists are equal (no entry is empty or contains a
    newline), so the order and the cut between entries always count. *)
Theorem hashed_text_injective :
  forall l1 l2 : list str,
    join LF (norm_ingredients l1) = join LF (norm_ingredients l2) ->
    norm_ingredients l1 = norm_ingredients l2.
Proof.
  intros l1 l2; apply join_lines_injective; apply norm_ingredients_entries.
Qed.

(** X5. In the root variant a newline inside an entry is kept, so the
    one-entry list [a + newline + b] and the two-entry list [a, b] are
    hashed from the same text: their responses carry the same key. *)
Theorem root_newline_collision :
  forall (a b : str) (cfg1 cfg2 : config) (o1 o2 : oracle) (w1 w1' w2 w2' : world)
         (r1 r2 : AnalyzeResponse),
    trimmed a -> a <> [] -> trimmed b -> b <> [] ->
    analyze_nutrition cfg1 o1 [a ++ LF ++ b] w1 = (Return r1, w1') ->
    analyze_nutrition cfg2 o2 [a; b] w2 = (Return r2, w2') ->
    ingredients_hash r1 = ingredients_hash r2.
Proof.
  intros a b cfg1 cfg2 o1 o2 w1 w1' w2 w2' r1 r2 Ha Hna Hb Hnb H1 H2.
  destruct (root_returns _ _ _ _ _ _ H1) as (_ & _ & E1 & _).
  destruct (root_returns _ _ _ _ _ _ H2) as (_ & _ & E2 & _).
  assert (E : join LF (root_normalized [a ++ LF ++ b]) = join LF (root_normalized [a; b])).
  { pose proof (trimmed_around_newline a b Ha Hna Hb Hnb) as Hab.
    unfold root_normalized; cbn [filter app LF].
    rewrite (proj2 (nonblank_truthy (a ++ 10 :: b))), (proj2 (nonblank_truthy a)),
      (proj2 (nonblank_truthy b)).
    - cbn [map join]; unfold normalize_root.
      rewrite !trimmed_strip by assumption.
      rewrite lower_at_space by reflexivity; reflexivity.
    - rewrite trimmed_strip; assumption.
    - rewrite trimmed_strip; assumption.
    - rewrite trimmed_strip by assumption; destruct a; discriminate. }
  rewrite E in E1; rewrite E1 in E2; inversion E2; reflexivity.
Qed.

(** *** More on the cache functions of the backend variant *)

Lemma find_app {A : Type} (p : A -> bool) (c1 c2 : list A) :
  find p (c1 ++ c2) = match find p c1 with Some x => Some x | None => find p c2 end.
Proof.
  induction c1 as [|d r IH]; simpl; [reflexivity|].
  destruct (p d); [reflexivity | exact IH].
Qed.

Lemma find_written_other (cfg : config) (now : Z) (h k : str) (v : value)
  (c : collection) :
  k <> h -> find (hash_is k) (written cfg now h v c) = find (hash_is k) c.
Proof.
  intros Hk; unfold written, upsert.
  destruct (find (hash_is h) c) as [e|] eqn:E.
  - destruct (update_first_some _ (set_fields (set_on_write cfg now v)) c e E)
      as (c1 & c2 & -> & H1 & H2 & ->).
    rewrite !find_app; cbn [find].
    rewrite hash_is_set_on_write, (hash_is_other h k e Hk H2); reflexivity.
  - rewrite update_first_none by assumption.
    rewrite new_entry, find_app; cbn [find].
    rewrite hash_is_first_other by congruence.
    destruct (find (hash_is k) c); reflexivity.
Qed.

Lemma read_entry_cases (now : Z) (e : document) :
  truthy (VDict e) = true ->
  (read_entry now e = VNone <-> expired now e \/ get e (py "data") = VNone).
Proof.
  intros Ht; unfold expired.
  destruct (lookup e (py "expires_at")) as [x|] eqn:Ex.
  - destruct (is_datetime x) eqn:Hx.
    + destruct x; try discriminate.
      destruct (Z_lt_le_dec t now) as [Hlt | Hge].
      * rewrite (read_entry_stale now t e Ex Hlt).
        split; [intros _; left; exists t; split; [reflexivity | exact Hlt] | reflexivity].
      * rewrite (read_entry_fresh now t e Ht Ex Hge).
        split; [intros H; right; exact H|].
        intros [(y & Hy & Hlt) | H]; [inversion Hy; subst; lia | exact H].
    + rewrite read_entry_no_expiry;
        [| exact Ht | rewrite (get_lookup _ _ _ Ex); exact Hx].
      split; [intros H; right; exact H|].
      intros [(y & Hy & _) | H]; [inversion Hy; subst; discriminate | exact H].
  - rewrite read_entry_no_expiry;
      [| exact Ht | unfold get, get_default; rewrite Ex; reflexivity].
    split; [intros H; right; exact H
           | intros [(y & Hy & _) | H]; [discriminate | exact H]].
Qed.

(** X6. The two cache functions of the backend variant never raise,
    whatever the store does, and a lookup leaves the store as it is. *)
Theorem cache_functions_total :
  forall (cfg : config) (o : oracle) (h : str) (v : value) (w : world),
    (exists r w', fetch_from_cache o h w = (Return r, w') /\ db w' = db w)
    /\ (exists w', write_cache cfg o h v w = (Return tt, w')).
Proof.
  intros cfg o h v w; split.
  - destruct (fetch_total o h w) as (r & w' & E & Hdb & _); eauto.
  - destruct (write_total cfg o h v w) as (w' & E & _); eauto.
Qed.

(** X7. Write, then read. After a write of the backend variant that went
    through, whatever the store held before, a lookup of the same key
    returns the payload as stored (a JSON payload as it was written) up to
    the stored expiry, which is the time of the write plus the TTL cut to
    the millisecond, and [None] after it. *)
Theorem write_then_fetch :
  forall (cfg : config) (o1 o2 : oracle) (h : str) (v : value) (w : world)
         (c : collection),
    db w = Some c -> write_raises o1 = false -> find_one_raises o2 = false ->
    let expiry :=
      bson_datetime (t_write o1 + timedelta_seconds (CACHE_TTL_SECONDS cfg)) in
    let read := fst (fetch_from_cache o2 h (snd (write_cache cfg o1 h v w))) in
    (t_lookup o2 <= expiry ->
     read = Return (bson v) /\ (is_json v = true -> read = Return v))
    /\
    (expiry < t_lookup o2 -> read = Return VNone).
Proof.
  intros cfg o1 o2 h v w c Hdb Hw Hf; cbv zeta.
  rewrite (write_upserts cfg o1 h v w c Hdb Hw); cbn [snd].
  erewrite fetch_reads by (reflexivity || assumption); cbn [fst].
  rewrite bson_datetime_add_seconds.
  destruct (find_written cfg (bson_datetime (t_write o1)) h (bson v) c)
    as (e' & -> & Hd & _ & Hx & _).
  split; intros Ht.
  - rewrite (read_entry_fresh _ _ _ (lookup_nonempty _ _ _ Hd) Hx Ht).
    rewrite (get_lookup _ _ _ Hd); split; [reflexivity|].
    intros Hjson; rewrite (bson_json v Hjson); reflexivity.
  - rewrite (read_entry_stale _ _ _ Hx Ht); reflexivity.
Qed.

(** X8. A write for one key never changes what a lookup of another key
    returns, whether or not the store is configured or raises. *)
Theorem write_other_key :
  forall (cfg : config) (o1 o2 : oracle) (h k : str) (v : value) (w : world),
    k <> h ->
    fst (fetch_from_cache o2 k (snd (write_cache cfg o1 h v w)))
    = fst (fetch_from_cache o2 k w).
Proof.
  intros cfg o1 o2 h k v w Hk.
  destruct (db w) as [c|] eqn:Hdb.
  - destruct (find_one_raises o2) eqn:Hf.
    + destruct (write_total cfg o1 h v w) as (w' & E & _); rewrite E; cbn [snd].
      destruct (fetch_total o2 k w') as (r' & w2 & E2 & _).
      destruct (db w') as [c'|] eqn:Hdb'.
      * rewrite (fetch_raises o2 k w' c' Hdb' Hf), (fetch_raises o2 k w c Hdb Hf).
        reflexivity.
      * rewrite (fetch_unconfigured o2 k w' Hdb'), (fetch_raises o2 k w c Hdb Hf).
        reflexivity.
    + destruct (write_raises o1) eqn:Hw.
      * rewrite (write_raises_dropped cfg o1 h v w c Hdb Hw); cbn [snd].
        rewrite (fetch_reads o2 k (log (Update_one h) w) c Hdb Hf).
        rewrite (fetch_reads o2 k w c Hdb Hf); reflexivity.
      * rewrite (write_upserts cfg o1 h v w c Hdb Hw); cbn [snd].
        erewrite fetch_reads by (reflexivity || assumption).
        rewrite (fetch_reads o2 k w c Hdb Hf), find_written_other by assumption.
        reflexivity.
  - rewrite (write_unconfigured cfg o1 h v w Hdb); reflexivity.
Qed.

(** X9. When the backend variant misses. With a store that answers, a
    lookup returns [None] exactly when the store has no entry for the key,
    or the entry it returns is expired, or that entry has no payload
    ([data] absent or [None]). *)
Theorem fetch_misses :
  forall (o : oracle) (h : str) (w : world) (c : collection),
    db w = Some c -> find_one_raises o = false ->
    (fst (fetch_from_cache o h w) = Return VNone
     <-> find (hash_is h) c = None
         \/ exists e, find (hash_is h) c = Some e
                      /\ (expired (t_lookup o) e \/ get e (py "data") = VNone)).
Proof.
  intros o h w c Hdb Hf.
  rewrite (fetch_reads o h w c Hdb Hf); cbn [fst].
  destruct (find (hash_is h) c) as [e|] eqn:E.
  - assert (Ht : truthy (VDict e) = true).
    { apply find_some in E; apply (hash_is_nonempty h), E. }
    split.
    + intros H; right; exists e; split; [reflexivity|].
      apply (read_entry_cases _ _ Ht); inversion H; reflexivity.
    + intros [H | (e' & He & H)]; [discriminate|].
      inversion He; subst e'.
      apply (read_entry_cases _ _ Ht) in H; rewrite H; reflexivity.
  - split; [intros _; left; reflexivity | reflexivity].
Qed.

(** *** More on the two handlers *)

Lemma make_response_world (c h : str) (v : value) (w : world) :
  snd (make_response c h v w) = w.
Proof. rewrite make_response_checked; reflexivity. Qed.

(** What follows a miss in [analyze]: nothing, a provider call, or a
    provider call and a write; a write needs a configured store and a
    provider answer below 400 with a JSON body. *)
Lemma backend_after_miss_events (cfg : config) (o : oracle) (l : list str)
  (h : str) (w1 : world) :
  exists x,
    events (snd match call_edamam cfg o l w1 with
                | (Raise e, w2) => (Raise e, w2)
                | (Return data, w2) =>
                    (match data with
                     | VDict d => Return (Build_response (py "miss") h d)
                     | _ => Raise ValidationError
                     end,
                     snd (write_cache cfg o h data w2))
                end) = events w1 ++ x
    /\ (x = [] \/ x = [Post (norm_ingredients l)]
        \/ (x = [Post (norm_ingredients l); Update_one h]
            /\ db w1 <> None
            /\ exists r v, edamam o = Responded r /\ status_code r < 400
                           /\ json r = Some v)).
Proof.
  destruct (credentials_missing cfg) eqn:Ec.
  { rewrite call_without_credentials by assumption.
    exists []; split; [cbn [snd]; rewrite app_nil_r; reflexivity | left; reflexivity]. }
  destruct (edamam o) as [msg|r] eqn:Er.
  { rewrite (call_unreachable cfg o l w1 msg Ec Er).
    exists [Post (norm_ingredients l)]; split; [reflexivity | right; left; reflexivity]. }
  destruct (Z_lt_le_dec (status_code r) 400) as [Hs|Hs].
  2:{ rewrite (call_error cfg o l w1 r Ec Er Hs).
      exists [Post (norm_ingredients l)]; split; [reflexivity | right; left; reflexivity]. }
  rewrite (call_ok cfg o l w1 r Ec Er Hs).
  destruct (json r) as [v|] eqn:Ej.
  2:{ exists [Post (norm_ingredients l)]; split; [reflexivity | right; left; reflexivity]. }
  cbn [snd]; set (w2 := log (Post (norm_ingredients l)) w1).
  destruct (db w1) as [c|] eqn:Edb.
  - exists [Post (norm_ingredients l); Update_one h]; split.
    + destruct (write_raises o) eqn:Ew.
      * rewrite (write_raises_dropped cfg o h v w2 c Edb Ew).
        cbn [snd log events w2]; rewrite <- app_assoc; reflexivity.
      * rewrite (write_upserts cfg o h v w2 c Edb Ew).
        cbn [snd log events w2]; rewrite <- app_assoc; reflexivity.
    + right; right; split; [reflexivity|]; split; [discriminate|].
      exists r, v; auto.
  - exists [Post (norm_ingredients l)]; split; [|right; left; reflexivity].
    rewrite (write_unconfigured cfg o h v w2 Edb); reflexivity.
Qed.

(** X10. The order of a request in the backend variant: at most one
    lookup, then at most one provider call, then at most one write. The
    store is looked up before the provider is called, a write only follows
    a provider answer below 400 with a JSON body, and nothing is sent when
    the key cannot be computed. *)
Theorem backend_request_order :
  forall (cfg : config) (o : oracle) (l : list str) (w : world),
    match make_hash l with
    | Raise _ => new_events w (snd (analyze cfg o l w)) = []
    | Return h =>
        let n := norm_ingredients l in
        let t := new_events w (snd (analyze cfg o l w)) in
        (t = [] \/ t = [Post n] \/ t = [Find_one h] \/ t = [Find_one h; Post n]
         \/ t = [Find_one h; Post n; Update_one h])
        /\ (In (Update_one h) t ->
            exists r v, edamam o = Responded r /\ status_code r < 400
                        /\ json r = Some v)
        /\ (db w = None -> existsb is_write t = false /\ ~ In (Find_one h) t)
    end.
Proof.
  intros cfg o l w.
  destruct (norm_cases l) as [En | Hn].
  { rewrite analyze_blank by assumption; cbn [snd]; rewrite new_events_none.
    destruct (make_hash l); [|reflexivity].
    cbv zeta; split; [left; reflexivity|]; split; [intros [] | intros _; split; [reflexivity | intros []]]. }
  destruct (make_hash l) as [h|e] eqn:Eh.
  2:{ rewrite analyze_valid, Eh by assumption; cbn [snd]; apply new_events_none. }
  cbv zeta.
  destruct (fetch_total o h w) as (v & w1 & Ef & Hdb1 & Hw1).
  assert (Hfind : db w = None -> w1 = w).
  { intros Hnone; rewrite (fetch_unconfigured o h w Hnone) in Ef; congruence. }
  assert (Hlook : db w <> None -> w1 = log (Find_one h) w).
  { intros Hsome; destruct (db w) as [c|] eqn:Edb; [|congruence].
    destruct (find_one_raises o) eqn:Er.
    - rewrite (fetch_raises o h w c Edb Er) in Ef; congruence.
    - rewrite (fetch_reads o h w c Edb Er) in Ef; congruence. }
  destruct (is_not_None v) eqn:Ev.
  - rewrite analyze_valid, Eh, Ef, Ev, make_response_world by assumption.
    destruct (db w) as [c|] eqn:Edb.
    + rewrite Hlook by discriminate; rewrite new_events_1.
      split; [right; right; left; reflexivity|].
      split; [intros [H | []]; discriminate | intros H; discriminate].
    + exfalso; rewrite (fetch_unconfigured o h w Edb) in Ef.
      inversion Ef; subst v; discriminate.
  - assert (Hv : v = VNone) by (destruct v; try discriminate; reflexivity).
    subst v; rewrite (analyze_miss cfg o l w w1 h Hn Eh Ef).
    destruct (backend_after_miss_events cfg o l h w1) as (x & Ex & Hx).
    destruct (db w) as [c|] eqn:Edb.
    + rewrite (Hlook ltac:(discriminate)) in Ex |- *.
      cbn [log events] in Ex; rewrite <- app_assoc in Ex.
      rewrite (new_events_app _ _ _ Ex).
      destruct Hx as [-> | [-> | (-> & _ & Hok)]]; cbn [app].
      * split; [right; right; left; reflexivity|].
        split; [intros [H | []]; discriminate | intros H; discriminate].
      * split; [right; right; right; left; reflexivity|].
        split; [intros [H | [H | []]]; discriminate | intros H; discriminate].
      * split; [right; right; right; right; reflexivity|].
        split; [intros _; exact Hok | intros H; discriminate].
    + rewrite (Hfind eq_refl) in Ex, Hx |- *.
      rewrite (new_events_app _ _ _ Ex).
      destruct Hx as [-> | [-> | (_ & Hdb & _)]]; [| |congruence].
      * split; [left; reflexivity|].
        split; [intros [] | intros _; split; [reflexivity | intros []]].
      * split; [right; left; reflexivity|].
        split; [intros [H | []]; discriminate|].
        intros _; split; [reflexivity | intros [H | []]; discriminate].
Qed.

Lemma root_after_miss_events (o : oracle) (nl : list str) (h : str) (w1 : world) :
  exists x,
    events (snd (root_after_miss o nl h w1)) = events w1 ++ x
    /\ (x = [Post nl]
        \/ (x = [Post nl; Insert_one h]
            /\ db w1 <> None
            /\ exists r v, edamam o = Responded r /\ status_code r < 400
                           /\ json r = Some v)).
Proof.
  unfold root_after_miss.
  destruct (edamam o) as [msg|r]; [exists [Post nl]; split; [reflexivity | left; reflexivity]|].
  destruct (Z.leb_spec 400 (status_code r)) as [Hs|Hs];
    [exists [Post nl]; split; [reflexivity | left; reflexivity]|].
  destruct (json r) as [v|] eqn:Ej;
    [|exists [Post nl]; split; [reflexivity | left; reflexivity]].
  destruct (db w1) as [c|] eqn:Edb;
    [|exists [Post nl]; split; [reflexivity | left; reflexivity]].
  exists [Post nl; Insert_one h]; split.
  - destruct (write_raises o); cbn [snd log events]; rewrite <- app_assoc; reflexivity.
  - right; split; [reflexivity|]; split; [discriminate|].
    exists r, v; auto.
Qed.

(** X11. The order of a request in the root variant: at most one lookup,
    then at most one provider call, then at most one insert; an insert only
    follows a provider answer below 400 with a JSON body, and with the
    database not configured the store is never addressed. *)
Theorem root_request_order :
  forall (cfg : config) (o : oracle) (l : list str) (w : world),
    match sha256_hex (join LF (root_normalized l)) with
    | Raise _ => new_events w (snd (analyze_nutrition cfg o l w)) = []
    | Return h =>
        let n := root_normalized l in
        let t := new_events w (snd (analyze_nutrition cfg o l w)) in
        (t = [] \/ t = [Post n] \/ t = [Find_one h] \/ t = [Find_one h; Post n]
         \/ t = [Find_one h; Post n; Insert_one h])
        /\ (In (Insert_one h) t ->
            exists r v, edamam o = Responded r /\ status_code r < 400
                        /\ json r = Some v)
        /\ (db w = None -> existsb is_write t = false /\ ~ In (Find_one h) t)
    end.
Proof.
  intros cfg o l w.
  assert (Hnil : forall h : str,
            let t := @nil event in
            (t = [] \/ t = [Post (root_normalized l)] \/ t = [Find_one h]
             \/ t = [Find_one h; Post (root_normalized l)]
             \/ t = [Find_one h; Post (root_normalized l); Insert_one h])
            /\ (In (Insert_one h) t ->
                exists r v, edamam o = Responded r /\ status_code r < 400
                            /\ json r = Some v)
            /\ (db w = None -> existsb is_write t = false /\ ~ In (Find_one h) t)).
  { intros h; cbv zeta; split; [left; reflexivity|].
    split; [intros [] | intros _; split; [reflexivity | intros []]]. }
  destruct (credentials_missing cfg) eqn:Ec.
  { rewrite root_without_credentials by assumption; cbn [snd].
    rewrite new_events_none; destruct (sha256_hex _); [apply Hnil | reflexivity]. }
  destruct (root_cases l) as [En | Hn].
  { rewrite root_blank by assumption; cbn [snd].
    rewrite new_events_none; destruct (sha256_hex _); [apply Hnil | reflexivity]. }
  rewrite root_valid by assumption.
  destruct (sha256_hex (join LF (root_normalized l))) as [h|e];
    [|cbn [snd]; apply new_events_none].
  cbv zeta.
  destruct (db w) as [c|] eqn:Edb.
  - destruct (find_one_raises o).
    { cbn [snd]; rewrite new_events_1.
      split; [right; right; left; reflexivity|].
      split; [intros [H | []]; discriminate | intros H; discriminate]. }
    destruct (find (root_query cfg (t_lookup o) h) c).
    { cbn [snd]; rewrite new_events_1.
      split; [right; right; left; reflexivity|].
      split; [intros [H | []]; discriminate | intros H; discriminate]. }
    destruct (root_after_miss_events o (root_normalized l) h (log (Find_one h) w))
      as (x & Ex & Hx).
    cbn [log events] in Ex; rewrite <- app_assoc in Ex.
    rewrite (new_events_app _ _ _ Ex).
    destruct Hx as [-> | (-> & _ & Hok)]; cbn [app].
    + split; [right; right; right; left; reflexivity|].
      split; [intros [H | [H | []]]; discriminate | intros H; discriminate].
    + split; [right; right; right; right; reflexivity|].
      split; [intros _; exact Hok | intros H; discriminate].
  - destruct (root_after_miss_events o (root_normalized l) h w) as (x & Ex & Hx).
    rewrite (new_events_app _ _ _ Ex).
    destruct Hx as [-> | (_ & Hdb & _)]; [|congruence].
    split; [right; left; reflexivity|].
    split; [intros [H | []]; discriminate|].
    intros _; split; [reflexivity | intros [H | []]; discriminate].
Qed.

(** X12. When the provider cannot be reached. The root variant turns the
    failure into an error of status 502 whose detail is "Error contacting
    nutrition service: " followed by the message of the failure; the
    backend variant does not catch it. Neither writes to the store. *)
Theorem provider_unreachable :
  forall (cfg : config) (o : oracle) (l : list str) (w : world) (msg : str),
    edamam o = Unreachable msg ->
    (existsb is_post (new_events w (snd (analyze cfg o l w))) = true ->
     fst (analyze cfg o l w) = Raise (TransportError msg)
     /\ db (snd (analyze cfg o l w)) = db w
     /\ existsb is_write (new_events w (snd (analyze cfg o l w))) = false)
    /\
    (existsb is_post (new_events w (snd (analyze_nutrition cfg o l w))) = true ->
     fst (analyze_nutrition cfg o l w) =
       Raise (HTTPException 502
                (VStr (py "Error contacting nutrition service: " ++ msg)))
     /\ db (snd (analyze_nutrition cfg o l w)) = db w
     /\ existsb is_write (new_events w (snd (analyze_nutrition cfg o l w))) = false).
Proof.
  intros cfg o l w msg Hr; split.
  - destruct (norm_cases l) as [En | Hn].
    { rewrite analyze_blank by assumption; cbn [snd].
      rewrite new_events_none; discriminate. }
    rewrite analyze_valid by assumption.
    destruct (make_hash l) as [h|e] eqn:Eh.
    2:{ cbn [snd]; rewrite new_events_none; discriminate. }
    destruct (fetch_total o h w) as (v & w1 & -> & Hdb1 & Hw1).
    destruct (no_post_before_call o h w w1 Hw1) as [Hp1 _].
    destruct (is_not_None v).
    { rewrite make_response_world, Hp1; discriminate. }
    destruct (credentials_missing cfg) eqn:Ec.
    { rewrite call_without_credentials by assumption; cbn [snd].
      rewrite Hp1; discriminate. }
    rewrite (call_unreachable cfg o l w1 msg Ec Hr); cbn [fst snd].
    intros _; split; [reflexivity|]; split; [exact Hdb1|].
    destruct Hw1 as [-> | ->]; [rewrite new_events_1 | rewrite new_events_2];
      reflexivity.
  - destruct (credentials_missing cfg) eqn:Ec.
    { rewrite root_without_credentials by assumption; cbn [snd].
      rewrite new_events_none; discriminate. }
    destruct (root_cases l) as [En | Hn].
    { rewrite root_blank by assumption; cbn [snd].
      rewrite new_events_none; discriminate. }
    rewrite root_valid by assumption.
    destruct (sha256_hex (join LF (root_normalized l))) as [h|e].
    2:{ cbn [snd]; rewrite new_events_none; discriminate. }
    assert (Hafter : forall w1,
              root_after_miss o (root_normalized l) h w1 =
                (Raise (HTTPException 502
                          (VStr (py "Error contacting nutrition service: " ++ msg))),
                 log (Post (root_normalized l)) w1)).
    { intros w1; unfold root_after_miss; rewrite Hr; reflexivity. }
    destruct (db w) as [c|] eqn:Edb.
    + destruct (find_one_raises o).
      { cbn [snd]; rewrite new_events_1; discriminate. }
      destruct (find (root_query cfg (t_lookup o) h) c).
      { cbn [snd]; rewrite new_events_1; discriminate. }
      rewrite Hafter; cbn [fst snd]; rewrite new_events_2.
      intros _; repeat split; exact Edb.
    + rewrite Hafter; cbn [fst snd]; rewrite new_events_1.
      intros _; repeat split; exact Edb.
Qed.

(** X13. A hit reads and does nothing else: in both variants a request
    answered "hit" leaves the store exactly as it was (no timestamp of the
    entry is refreshed) and its only event is the lookup of its key. *)
Theorem hit_only_reads :
  forall (cfg : config) (o : oracle) (l : list str) (w w' : world)
         (resp : AnalyzeResponse),
    cache resp = py "hit" ->
    (analyze cfg o l w = (Return resp, w') ->
     w' = log (Find_one (ingredients_hash resp)) w)
    /\ (analyze_nutrition cfg o l w = (Return resp, w') ->
        w' = log (Find_one (ingredients_hash resp)) w).
Proof.
  intros cfg o l w w' resp Hhit; split; intros H.
  - destruct (analyze_returns _ _ _ _ _ _ H)
      as (h & Hn & Hh & [(d & Ef & ->) | (w1 & r & d & _ & _ & _ & _ & _ & _ & ->)]).
    + cbn [ingredients_hash].
      destruct (db w) as [c|] eqn:Edb.
      * destruct (find_one_raises o) eqn:Er.
        -- rewrite (fetch_raises o h w c Edb Er) in Ef; discriminate.
        -- rewrite (fetch_reads o h w c Edb Er) in Ef; congruence.
      * rewrite (fetch_unconfigured o h w Edb) in Ef; discriminate.
    + exfalso; apply miss_is_not_hit; symmetry; exact Hhit.
  - destruct (root_returns _ _ _ _ _ _ H)
      as (_ & _ & _ & [[_ (c & doc & _ & _ & _ & _ & ->)] | [Hmiss _]]).
    + reflexivity.
    + exfalso; apply miss_is_not_hit; rewrite <- Hhit, <- Hmiss; reflexivity.
Qed.

(** X14. A fresh entry without [result]: when the query of the root
    variant finds an entry that has no [result] field (such as an entry
    written by the backend variant, which stores its payload under
    [data]), the request is a "hit" with empty data. *)
Theorem root_hit_without_result :
  forall (cfg : config) (o : oracle) (l : list str) (w : world) (c : collection)
         (doc : document) (h : str),
    credentials_missing cfg = false -> root_normalized l <> [] ->
    sha256_hex (join LF (root_normalized l)) = Return h ->
    db w = Some c -> find_one_raises o = false ->
    find (root_query cfg (t_lookup o) h) c = Some doc ->
    lookup doc (py "result") = None ->
    analyze_nutrition cfg o l w =
      (Return (Build_response (py "hit") h []), log (Find_one h) w).
Proof.
  intros cfg o l w c doc h Hc Hn Hh Hdb Hf Hq Hr.
  rewrite root_valid, Hh, Hdb, Hf, Hq by assumption.
  unfold get_default; rewrite Hr; reflexivity.
Qed.

End Service.

(** ** The ASCII instance

    [ascii_only] satisfies the four facts about [str.lower]. *)

Lemma ascii_lower (s : str) : lower ascii_only s = map ascii_tolower s.
Proof. unfold lower, ascii_only; destruct (isascii s); reflexivity. Qed.

Ltac compare_all :=
  repeat match goal with
         | |- context [Z.leb ?a ?b] => destruct (Z.leb_spec a b); try lia
         | |- context [Z.eqb ?a ?b] => destruct (Z.eqb_spec a b); try lia
         end.

Lemma isspace_printable (c : Z) : 33 <= c <= 132 -> isspace c = false.
Proof. intros H; unfold isspace; compare_all; reflexivity. Qed.

Lemma isspace_tolower (c : Z) : isspace (ascii_tolower c) = isspace c.
Proof.
  unfold ascii_tolower.
  destruct (Z.leb_spec 65 c); [|reflexivity].
  destruct (Z.leb_spec c 90); [|reflexivity].
  cbn [andb]; rewrite !isspace_printable by lia; reflexivity.
Qed.

Lemma tolower_space (w : Z) : isspace w = true -> ascii_tolower w = w.
Proof.
  intros H; unfold ascii_tolower.
  destruct (Z.leb_spec 65 w); [|reflexivity].
  destruct (Z.leb_spec w 90); [|reflexivity].
  rewrite isspace_printable in H by lia; discriminate.
Qed.

Lemma tolower_idempotent (c : Z) : ascii_tolower (ascii_tolower c) = ascii_tolower c.
Proof.
  unfold ascii_tolower.
  destruct ((65 <=? c) && (c <=? 90)) eqn:E; [|rewrite E; reflexivity].
  apply andb_true_iff in E; destruct E as [E1 E2]; apply Z.leb_le in E1, E2.
  destruct (Z.leb_spec (c + 32) 90); [lia|].
  rewrite andb_false_r; reflexivity.
Qed.

Lemma ascii_lower_at_space (a : str) (w : Z) (b : str) :
  isspace w = true ->
  lower ascii_only (a ++ w :: b) = lower ascii_only a ++ w :: lower ascii_only b.
Proof.
  intros H; rewrite !ascii_lower, map_app; simpl.
  rewrite (tolower_space w H); reflexivity.
Qed.

Lemma ascii_lower_nows (a : str) : nows a -> nows (lower ascii_only a).
Proof.
  rewrite ascii_lower; unfold nows; intros H.
  apply Forall_map; revert H; apply Forall_impl.
  intros c Hc; rewrite isspace_tolower; exact Hc.
Qed.

Lemma ascii_lower_nonempty (a : str) : a <> [] -> lower ascii_only a <> [].
Proof. rewrite ascii_lower; destruct a; [congruence | discriminate]. Qed.

Lemma ascii_lower_idempotent (a : str) :
  lower ascii_only (lower ascii_only a) = lower ascii_only a.
Proof.
  rewrite !ascii_lower, map_map; apply map_ext, tolower_idempotent.
Qed.

(** ** Runs of the two programs *)

Example sha256_empty :
  SHA256.hexdigest [] =
  py "e3b0c44298fc1c149afbf4c8996fb92427ae41e4649b934ca495991b7852b855".
Proof. vm_compute; reflexivity. Qed.

Example sha256_abc :
  SHA256.hexdigest (py "abc") =
  py "ba7816bf8f01cfea414140de5dae2223b00361a396177a9cb410ff61f20015ad".
Proof. vm_compute; reflexivity. Qed.

Example split_example :
  split (py "  1   cup  rice ") = [py "1"; py "cup"; py "rice"].
Proof. reflexivity. Qed.

Example strip_example : strip (py "  Rice  ") = py "Rice".
Proof. reflexivity. Qed.

Example norm_example :
  norm_ingredients ascii_only [py "  1   Cup  RICE "; py "   "; []; py "2 Eggs"]
  = rice.
Proof. vm_compute; reflexivity. Qed.

Example make_hash_rice : make_hash ascii_only rice = Return key_rice.
Proof. vm_compute; reflexivity. Qed.

(** The first request of the scenario, in each variant: a miss that
    stores the payload. *)
Example backend_first_request :
  analyze ascii_only plain_repr cfg0 (at_time t0 (Responded ok_response)) rice
    empty_store
  = (Return (Build_response (py "miss") key_rice nutrients),
     World (Some [cached_entry t0])
       [Find_one key_rice; Post rice; Update_one key_rice]).
Proof. vm_compute; reflexivity. Qed.

Example root_first_request :
  analyze_nutrition ascii_only cfg0 (at_time t0 (Responded ok_response)) rice
    empty_store
  = (Return (Build_response (py "miss") key_rice nutrients),
     World (Some [root_entry rice key_rice (VDict nutrients) t0])
       [Find_one key_rice; Post rice; Insert_one key_rice]).
Proof. vm_compute; reflexivity. Qed.

(** ** The claims at the sample requests *)

Ltac by_computation := vm_compute; first [reflexivity | intros H; discriminate H].

(** C1 at the scenario, the first request 999 microseconds after [t0]:
    the store dates the entry at [t0]. The backend variant hits at the
    stored expiry, [t0] plus the TTL; the root variant hits as long as the
    TTL has not elapsed since the first request. *)
Lemma cache_round_trip_witness :
  analyze ascii_only plain_repr cfg0
    (at_time (t0 + 3600000000) (Responded ok_response)) rice
    (World (Some [cached_entry t0])
       [Find_one key_rice; Post rice; Update_one key_rice])
  = (Return (Build_response (py "hit") key_rice nutrients),
     World (Some [cached_entry t0])
       [Find_one key_rice; Post rice; Update_one key_rice; Find_one key_rice])
  /\
  analyze_nutrition ascii_only cfg0
    (at_time (t0 + 3600000999) (Responded ok_response)) rice
    (World (Some [root_entry rice key_rice (VDict nutrients) t0])
       [Find_one key_rice; Post rice; Insert_one key_rice])
  = (Return (Build_response (py "hit") key_rice nutrients),
     World (Some [root_entry rice key_rice (VDict nutrients) t0])
       [Find_one key_rice; Post rice; Insert_one key_rice; Find_one key_rice]).
Proof.
  split.
  - refine (proj1 (cache_round_trip ascii_only plain_repr cfg0
                     (at_time (t0 + 999) (Responded ok_response))
                     (at_time (t0 + 3600000000) (Responded ok_response))
                     rice empty_store _
                     (Build_response (py "miss") key_rice nutrients)
                     eq_refl eq_refl _ eq_refl) _ eq_refl _).
    + discriminate.
    + by_computation.
    + by_computation.
  - refine (proj2 (cache_round_trip ascii_only plain_repr cfg0
                     (at_time (t0 + 999) (Responded ok_response))
                     (at_time (t0 + 3600000999) (Responded ok_response))
                     rice empty_store _
                     (Build_response (py "miss") key_rice nutrients)
                     eq_refl eq_refl _ eq_refl) _ _ _).
    + discriminate.
    + by_computation.
    + by_computation.
    + by_computation.
Defined.


(** C3 at the scenario: the backend variant returns the payload when the
    lookup raises and when the write raises; the root variant when the
    database is not configured. *)
Lemma cache_failures_witness :
  fst (analyze ascii_only plain_repr cfg0
         (read_fails t0 (Responded ok_response)) rice empty_store)
  = Return (Build_response (py "miss") key_rice nutrients)
  /\
  fst (analyze ascii_only plain_repr cfg0
         (write_fails t0 (Responded ok_response)) rice empty_store)
  = Return (Build_response (py "miss") key_rice nutrients)
  /\
  analyze_nutrition ascii_only cfg0 (at_time t0 (Responded ok_response)) rice
    no_store
  = (Return (Build_response (py "miss") key_rice nutrients),
     log (Post (root_normalized ascii_only rice)) no_store).
Proof.
  split; [|split].
  - refine (proj1 (proj1 (proj1 (proj2 (cache_failures ascii_only plain_repr cfg0
             (read_fails t0 (Responded ok_response)) rice empty_store))
             key_rice ok_response nutrients eq_refl eq_refl eq_refl eq_refl)
             _ _ (or_intror (or_introl eq_refl)))).
    + by_computation.
    + by_computation.
  - refine (proj1 (proj1 (proj1 (proj2 (cache_failures ascii_only plain_repr cfg0
             (write_fails t0 (Responded ok_response)) rice empty_store))
             key_rice ok_response nutrients eq_refl eq_refl eq_refl eq_refl)
             _ _ (or_intror (or_intror (conj eq_refl _))))).
    + by_computation.
    + by_computation.
    + by_computation.
  - refine (proj2 (proj1 (proj2 (cache_failures ascii_only plain_repr cfg0
             (at_time t0 (Responded ok_response)) rice no_store))
             key_rice ok_response nutrients eq_refl eq_refl eq_refl eq_refl)
             _ _ eq_refl).
    + by_computation.
    + by_computation.
Defined.


(** C5 at two lists: the backend variant on a list with blank entries and
    runs of whitespace, the root variant on the list of the scenario. *)
Lemma key_derivation_witness :
  make_hash ascii_only [py "  1   Cup  RICE "; py "   "; []; py "2 Eggs"]
  = spec_key ascii_only [py "  1   Cup  RICE "; py "   "; []; py "2 Eggs"]
  /\ spec_key ascii_only rice = Return key_rice.
Proof.
  split.
  - exact (proj2 (proj1 (key_derivation ascii_only ascii_lower_at_space
                           ascii_lower_nows ascii_lower_nonempty
                           [py "  1   Cup  RICE "; py "   "; []; py "2 Eggs"]))).
  - refine (proj2 (proj2 (key_derivation ascii_only ascii_lower_at_space
                            ascii_lower_nows ascii_lower_nonempty rice)
                     cfg0 (at_time t0 (Responded ok_response)) empty_store _
                     (Build_response (py "miss") key_rice nutrients) _) _).
    + by_computation.
    + intros s [<- | [<- | []]]; by_computation.
Defined.

(** C6 at a list of blank entries. *)
Lemma empty_input_rejected_witness :
  analyze ascii_only plain_repr cfg0 (at_time t0 (Responded ok_response))
    [py "   "; []] empty_store
  = (Raise (HTTPException 400 (VStr (py "Provide at least one ingredient line"))),
     empty_store)
  /\
  analyze_nutrition ascii_only cfg0 (at_time t0 (Responded ok_response))
    [py "   "; []] empty_store
  = (Raise (HTTPException 400 (VStr (py "Please provide at least one ingredient."))),
     empty_store).
Proof.
  assert (Hb : blank [py "   "; []]).
  { intros s [<- | [<- | []]]; reflexivity. }
  split.
  - exact (proj1 (empty_input_rejected ascii_only plain_repr cfg0
                    (at_time t0 (Responded ok_response)) [py "   "; []]
                    empty_store Hb)).
  - exact (proj1 (proj2 (empty_input_rejected ascii_only plain_repr cfg0
                           (at_time t0 (Responded ok_response)) [py "   "; []]
                           empty_store Hb)) eq_refl).
Defined.

(** C7 at the example of the specification: status 403 with the body
    [{"message": "invalid app_key"}]. *)
Lemma provider_error_propagation_witness :
  fst (analyze ascii_only plain_repr cfg0 (at_time t0 (Responded forbidden))
         rice empty_store)
  = Raise (HTTPException 403 (VStr (py "Edamam error: invalid app_key")))
  /\
  fst (analyze_nutrition ascii_only cfg0 (at_time t0 (Responded forbidden))
         rice empty_store)
  = Raise (HTTPException 403
             (VDict [(py "message", VStr (py "invalid app_key"))])).
Proof.
  assert (Hs : 400 <= status_code forbidden) by by_computation.
  split.
  - refine (proj1 (proj1 (provider_error_propagation ascii_only plain_repr cfg0
                            (at_time t0 (Responded forbidden)) rice empty_store
                            forbidden eq_refl Hs) _)).
    by_computation.
  - refine (proj1 (proj2 (provider_error_propagation ascii_only plain_repr cfg0
                            (at_time t0 (Responded forbidden)) rice empty_store
                            forbidden eq_refl Hs) _)).
    by_computation.
Defined.

(** C8 at the scenario without the application key. *)
Lemma missing_credentials_witness :
  analyze_nutrition ascii_only cfg_no_key (at_time t0 (Responded ok_response))
    rice empty_store
  = (Raise (HTTPException 500
              (VStr (py "Edamam credentials are not configured."))),
     empty_store)
  /\
  fst (analyze ascii_only plain_repr cfg_no_key
         (at_time t0 (Responded ok_response)) rice empty_store)
  = Raise (HTTPException 500 (VStr (py "Edamam credentials not configured"))).
Proof.
  split.
  - exact (proj1 (missing_credentials ascii_only plain_repr cfg_no_key
                    (at_time t0 (Responded ok_response)) rice empty_store
                    eq_refl)).
  - refine (proj2 (proj2 (proj2 (missing_credentials ascii_only plain_repr
                                   cfg_no_key
                                   (at_time t0 (Responded ok_response)) rice
                                   empty_store eq_refl))) key_rice _ _ _);
      by_computation.
Defined.

(** C9 at an entry with capitals and runs of whitespace. *)
Lemma normalization_idempotent_witness :
  normalize ascii_only (normalize ascii_only (py "  1   Cup  RICE "))
  = normalize ascii_only (py "  1   Cup  RICE ")
  /\
  normalize_root ascii_only (normalize_root ascii_only (py "  1   Cup  RICE "))
  = normalize_root ascii_only (py "  1   Cup  RICE ").
Proof.
  exact (normalization_idempotent ascii_only ascii_lower_at_space
           ascii_lower_nows ascii_lower_nonempty ascii_lower_idempotent
           (py "  1   Cup  RICE ")).
Defined.

(** C10 at an entry created at the epoch and without [expires_at], read
    at [t0]. *)
Lemma entry_without_expiry_witness :
  analyze ascii_only plain_repr cfg0 (at_time t0 (Responded ok_response)) rice
    (World (Some [undated_entry]) [])
  = (Return (Build_response (py "hit") key_rice nutrients),
     log (Find_one key_rice) (World (Some [undated_entry]) [])).
Proof.
  refine (proj2 (entry_without_expiry ascii_only plain_repr cfg0
                   (at_time t0 (Responded ok_response)) rice
                   (World (Some [undated_entry]) []) [undated_entry]
                   undated_entry key_rice eq_refl eq_refl _ (or_introl eq_refl))
            nutrients eq_refl _ _);
    by_computation.
Defined.

(** ** Where the claims, as stated, fail *)

(** C1 as stated fails in the backend variant: the first request writes
    999 microseconds after [t0] and the store dates the expiry at [t0] plus
    the TTL; the second request comes 500 microseconds after that, before
    the TTL has elapsed since the write, and misses: the provider is called
    again. *)
Lemma backend_miss_within_ttl :
  t_lookup (at_time (t0 + 3600000500) (Responded ok_response))
    < t_write (at_time (t0 + 999) (Responded ok_response))
      + timedelta_seconds (CACHE_TTL_SECONDS cfg0)
  /\
  analyze ascii_only plain_repr cfg0
    (at_time (t0 + 999) (Responded ok_response)) rice empty_store
  = (Return (Build_response (py "miss") key_rice nutrients),
     World (Some [cached_entry t0])
       [Find_one key_rice; Post rice; Update_one key_rice])
  /\
  fst (analyze ascii_only plain_repr cfg0
         (at_time (t0 + 3600000500) (Responded ok_response)) rice
         (World (Some [cached_entry t0])
            [Find_one key_rice; Post rice; Update_one key_rice]))
  = Return (Build_response (py "miss") key_rice nutrients)
  /\
  new_events
    (World (Some [cached_entry t0])
       [Find_one key_rice; Post rice; Update_one key_rice])
    (snd (analyze ascii_only plain_repr cfg0
            (at_time (t0 + 3600000500) (Responded ok_response)) rice
            (World (Some [cached_entry t0])
               [Find_one key_rice; Post rice; Update_one key_rice])))
  = [Find_one key_rice; Post rice; Update_one key_rice].
Proof. repeat split; vm_compute; reflexivity. Qed.


(** C3 as stated fails in the root variant: an exception of the lookup,
    or of the insert after the provider has answered, ends the request. *)
Lemma root_store_error_surfaces :
  fst (analyze_nutrition ascii_only cfg0 (read_fails t0 (Responded ok_response))
         rice empty_store)
  = Raise PyMongoError
  /\
  analyze_nutrition ascii_only cfg0 (write_fails t0 (Responded ok_response))
    rice empty_store
  = (Raise PyMongoError,
     World (Some []) [Find_one key_rice; Post rice; Insert_one key_rice]).
Proof. split; vm_compute; reflexivity. Qed.


(** C5 as stated fails in the root variant: a run of two spaces inside an
    entry stays in the normalized entry, and the key is not the reference
    key. *)
Lemma root_keeps_inner_whitespace :
  fst (analyze_nutrition ascii_only cfg0 (at_time t0 (Responded ok_response))
         [py "1  cup rice"] empty_store)
  = Return (Build_response (py "miss")
              (SHA256.hexdigest (py "1  cup rice")) nutrients)
  /\ spec_key ascii_only [py "1  cup rice"]
     = Return (SHA256.hexdigest (py "1 cup rice"))
  /\ SHA256.hexdigest (py "1  cup rice") <> SHA256.hexdigest (py "1 cup rice").
Proof. repeat split; by_computation. Qed.

(** C6 as stated fails in the root variant: without the application key
    an empty list is answered with status 500, not 400. *)
Lemma root_empty_without_key :
  blank []
  /\ analyze_nutrition ascii_only cfg_no_key (at_time t0 (Responded ok_response))
       [] empty_store
     = (Raise (HTTPException 500
                 (VStr (py "Edamam credentials are not configured."))),
        empty_store).
Proof. split; [intros s [] | reflexivity]. Qed.

(** C7 as stated fails in the root variant: for the body
    [{"message": "invalid app_key"}] the best-effort message is the string
    "invalid app_key", and the detail of the error is the body itself. *)
Lemma root_forwards_whole_body :
  best_effort_message forbidden = VStr (py "invalid app_key")
  /\
  fst (analyze_nutrition ascii_only cfg0 (at_time t0 (Responded forbidden))
         rice empty_store)
  = Raise (HTTPException 403
             (VDict [(py "message", VStr (py "invalid app_key"))]))
  /\
  VDict [(py "message", VStr (py "invalid app_key"))]
    <> best_effort_message forbidden.
Proof. repeat split; by_computation. Qed.

(** C8 as stated fails in the backend variant: without the application
    key a request whose key is cached is served from the cache. *)
Lemma backend_hit_without_key :
  credentials_missing cfg_no_key = true
  /\ analyze ascii_only plain_repr cfg_no_key
       (at_time (t0 + 5000000) (Responded ok_response)) rice
       (World (Some [cached_entry t0]) [])
     = (Return (Build_response (py "hit") key_rice nutrients),
        World (Some [cached_entry t0]) [Find_one key_rice]).
Proof. split; vm_compute; reflexivity. Qed.

(** ** The other endpoints *)

Section EndpointProperties.

Variable unicode_upper : str -> str.
Variable elapsed_ms : Z -> Z.

Lemma lstrip_char_prefix (ch : Z) (s : str) :
  exists pre, s = pre ++ lstrip_char ch s /\ Forall (fun c => c = ch) pre.
Proof.
  induction s as [|c r (pre & E & H)]; [exists []; split; [reflexivity | constructor]|].
  simpl; destruct (Z.eqb_spec c ch) as [-> | Hne].
  - exists (ch :: pre); split; [simpl; congruence | constructor; auto].
  - exists []; split; [reflexivity | constructor].
Qed.

Lemma lstrip_char_head (ch c : Z) (s r : str) : lstrip_char ch s = c :: r -> c <> ch.
Proof.
  induction s as [|d t IH]; simpl; [discriminate|].
  destruct (Z.eqb_spec d ch) as [-> | Hne]; [exact IH|].
  intros H; inversion H; subst; exact Hne.
Qed.

(** [s.rstrip("/")] cuts a run of slashes off the end and leaves none
    there. *)
Lemma rstrip_char_spec (ch : Z) (s : str) :
  exists slashes,
    s = rstrip_char ch s ++ slashes /\ Forall (fun c => c = ch) slashes
    /\ forall b', rstrip_char ch s <> b' ++ [ch].
Proof.
  unfold rstrip_char.
  destruct (lstrip_char_prefix ch (rev s)) as (pre & E & H).
  exists (rev pre); split; [|split].
  - rewrite <- rev_app_distr, <- E, rev_involutive; reflexivity.
  - apply Forall_rev, H.
  - intros b' Hb; apply (f_equal (@rev Z)) in Hb.
    rewrite rev_involutive, rev_app_distr in Hb; simpl in Hb.
    apply lstrip_char_head in Hb; congruence.
Qed.

(** X15. What [validate_api] reports. It never raises on a failed
    request. [ok] is true exactly when the request was answered with a
    status below 400, and exactly when [error] is [None]; an answer with
    status 400 or more is reported with at most the first 300 characters of
    its text; a failed request is reported with the URL that was asked, the
    message of the failure, and neither status nor time. *)
Theorem validate_api_report :
  forall (req : ApiValidateRequest) (start stop : Z) (reply : request_outcome),
    let sent := fst (validate_api unicode_upper elapsed_ms req start stop reply) in
    let resp := snd (validate_api unicode_upper elapsed_ms req start stop reply) in
    (ok resp = true <-> error resp = None)
    /\ (ok resp = true <-> exists r, reply = Answered r /\ status_of r < 400)
    /\ (forall r, reply = Answered r ->
          status resp = Some (status_of r) /\ final_url resp = Some (url_of r)
          /\ (400 <= status_of r ->
              error resp = Some (firstn 300 (text_of r))
              /\ (length (firstn 300 (text_of r)) <= 300)%nat))
    /\ (forall msg, reply = Request_failed msg ->
          resp = Build_validation false None None (Some (snd sent)) (Some msg)).
Proof.
  intros req start stop reply; cbv zeta; unfold validate_api; cbn [fst snd].
  destruct reply as [msg | r]; cbn [ok error status final_url].
  - split; [split; discriminate|]; split.
    + split; [discriminate | intros (r & Hr & _); discriminate].
    + split; [intros r Hr; discriminate|].
      intros msg' H; inversion H; reflexivity.
  - destruct (Z.ltb_spec (status_of r) 400) as [Hlt | Hge].
    + split; [split; reflexivity|]; split.
      * split; [intros _; exists r; auto | reflexivity].
      * split; [|intros msg H; discriminate].
        intros r' H; inversion H; subst r'.
        split; [reflexivity|]; split; [reflexivity | lia].
    + split; [split; discriminate|]; split.
      * split; [discriminate|].
        intros (r' & H & Hlt); inversion H; subst r'; lia.
      * split; [|intros msg H; discriminate].
        intros r' H; inversion H; subst r'.
        split; [reflexivity|]; split; [reflexivity|].
        intros _; split; [reflexivity | apply firstn_le_length].
Qed.

(** X16. What [validate_api] asks. The URL is the base without its
    trailing slashes, followed, when a non-empty path is given, by the path
    with a slash put in front unless it has one: the base contributes no
    slash at the seam and the path at least one. The method is "GET" when
    none or an empty one is given. Neither depends on the answer. *)
Theorem validate_api_request :
  forall (req : ApiValidateRequest) (start stop : Z) (reply : request_outcome),
    let sent := fst (validate_api unicode_upper elapsed_ms req start stop reply) in
    (exists b slashes suffix,
       baseUrl req = b ++ slashes
       /\ Forall (fun c => c = SLASH) slashes
       /\ (forall b', b <> b' ++ [SLASH])
       /\ snd sent = b ++ suffix
       /\ match path req with
          | Some (c :: p) =>
              suffix = (if c =? SLASH then c :: p else SLASH :: c :: p)
              /\ exists q, suffix = SLASH :: q
          | _ => suffix = []
          end)
    /\ (method req = None \/ method req = Some [] -> fst sent = py "GET")
    /\ (forall start' stop' reply',
          fst (validate_api unicode_upper elapsed_ms req start' stop' reply') = sent).
Proof.
  intros req start stop reply; cbv zeta; unfold validate_api; cbn [fst snd].
  split; [|split].
  - destruct (rstrip_char_spec SLASH (baseUrl req)) as (slashes & E & Hs & Hb).
    exists (rstrip_char SLASH (baseUrl req)), slashes.
    destruct (path req) as [[|c p]|].
    + exists []; cbn [str_truthy]; repeat split; auto.
      rewrite app_nil_r; reflexivity.
    + cbn [str_truthy startswith_char].
      destruct (Z.eqb_spec c SLASH) as [-> | Hne].
      * exists (SLASH :: p); repeat split; auto; exists p; reflexivity.
      * exists (SLASH :: c :: p); repeat split; auto; exists (c :: p); reflexivity.
    + exists []; repeat split; auto.
      rewrite app_nil_r; reflexivity.
  - intros [-> | ->]; reflexivity.
  - intros; reflexivity.
Qed.

(** X17. What [test_database] reports. The entries [database_url] and
    [database_name] say only whether the two environment variables are set:
    what the handle would put there (its name) is overwritten. At most ten
    collection names are listed, those the handle returns first, and none
    without a handle or when listing raises. [connection_status] is
    "Connected" exactly when there is a handle. *)
Theorem test_database_report :
  forall (handle : option database) (url nm : option str),
    let response := test_database handle url nm in
    lookup response (py "database_url")
      = Some (VStr (if configured url then CHECK_MARK ++ py " Set"
                    else CROSS_MARK ++ py " Not Set"))
    /\ lookup response (py "database_name")
       = Some (VStr (if configured nm then CHECK_MARK ++ py " Set"
                     else CROSS_MARK ++ py " Not Set"))
    /\ (exists cols,
          lookup response (py "collections") = Some (VList (map VStr cols))
          /\ (length cols <= 10)%nat
          /\ cols = match handle with
                    | Some d => match list_collection_names d with
                                | inr all => firstn 10 all
                                | inl _ => []
                                end
                    | None => []
                    end)
    /\ (lookup response (py "connection_status") = Some (VStr (py "Connected"))
        <-> handle <> None).
Proof.
  intros handle url nm; cbv zeta.
  destruct handle as [[n [e | all]]|]; unfold test_database;
    cbn [name list_collection_names]; rewrite !lookup_dict_set.
  - repeat split; try reflexivity; try discriminate.
    exists []; repeat split; simpl; lia.
  - repeat split; try reflexivity; try discriminate.
    exists (firstn 10 all); repeat split; apply firstn_le_length.
  - repeat split; try reflexivity; try discriminate.
    + exists []; repeat split; simpl; lia.
    + intros H; congruence.
Qed.

End EndpointProperties.

(** ** The further properties at sample requests *)

(** X1 at two spellings of an entry. *)
Lemma normalize_by_words_witness :
  normalize ascii_only (py "  1   Cup  RICE ") = normalize ascii_only (py "1 cup rice").
Proof.
  refine (proj2 (proj2 (normalize_by_words ascii_only ascii_lower_at_space
                          ascii_lower_nows ascii_lower_nonempty
                          (py "  1   Cup  RICE ") (py "1 cup rice"))) _).
  by_computation.
Defined.

(** X2 at a list with blank entries and runs of whitespace. *)
Lemma norm_ingredients_idempotent_witness :
  norm_ingredients ascii_only
    (norm_ingredients ascii_only [py "  1   Cup  RICE "; py "   "; py "2 Eggs"])
  = norm_ingredients ascii_only [py "  1   Cup  RICE "; py "   "; py "2 Eggs"].
Proof.
  exact (proj1 (norm_ingredients_idempotent ascii_only ascii_lower_at_space
                  ascii_lower_nows ascii_lower_nonempty ascii_lower_idempotent
                  [py "  1   Cup  RICE "; py "   "; py "2 Eggs"])).
Defined.

(** X3 at the list of the scenario with two blank entries in the middle. *)
Lemma blank_entries_ignored_witness :
  make_hash ascii_only ([py "1 cup rice"] ++ [py "   "; []] ++ [py "2 eggs"])
  = make_hash ascii_only ([py "1 cup rice"] ++ [py "2 eggs"]).
Proof.
  refine (proj1 (proj2 (blank_entries_ignored ascii_only [py "1 cup rice"]
                          [py "   "; []] [py "2 eggs"] _))).
  intros s [<- | [<- | []]]; reflexivity.
Defined.

(** X4 at two lists hashed from the same text. *)
Lemma hashed_text_injective_witness :
  norm_ingredients ascii_only [py " Rice "; py "2 eggs"]
  = norm_ingredients ascii_only [py "rice"; py "   "; py "2   EGGS"].
Proof.
  refine (hashed_text_injective ascii_only ascii_lower_at_space ascii_lower_nows
            ascii_lower_nonempty [py " Rice "; py "2 eggs"]
            [py "rice"; py "   "; py "2   EGGS"] _).
  by_computation.
Defined.

(** X5 at "rice" and "eggs": one entry holding both lines, two entries. *)
Lemma root_newline_collision_witness :
  ingredients_hash
    (Build_response (py "miss")
       (SHA256.hexdigest (py "rice" ++ LF ++ py "eggs")) nutrients)
  = ingredients_hash
      (Build_response (py "miss")
         (SHA256.hexdigest (py "rice" ++ LF ++ py "eggs")) [])
  /\ fst (analyze_nutrition ascii_only cfg0 (at_time t0 (Responded ok_response))
            [py "rice" ++ LF ++ py "eggs"] empty_store)
     = Return (Build_response (py "miss")
                 (SHA256.hexdigest (py "rice" ++ LF ++ py "eggs")) nutrients).
Proof.
  split; [|by_computation].
  refine (root_newline_collision ascii_only ascii_lower_at_space
            (py "rice") (py "eggs") cfg0 cfg0
            (at_time t0 (Responded ok_response))
            (at_time t0 (Responded (Response 200 [] (Some (VDict [])))))
            empty_store _ no_store _ _ _ _ _ _ _ _ _).
  - split; reflexivity.
  - discriminate.
  - split; reflexivity.
  - discriminate.
  - by_computation.
  - by_computation.
Defined.

(** X7 at the scenario, the write 999 microseconds after [t0]: a lookup
    at the stored expiry, [t0] plus the TTL, returns the payload; a lookup
    one microsecond later returns [None]. *)
Lemma write_then_fetch_witness :
  fst (fetch_from_cache (at_time (t0 + 3600000000) (Responded ok_response)) key_rice
         (snd (write_cache cfg0 (at_time (t0 + 999) (Responded ok_response)) key_rice
                 (VDict nutrients) empty_store)))
  = Return (VDict nutrients)
  /\
  fst (fetch_from_cache (at_time (t0 + 3600000001) (Responded ok_response)) key_rice
         (snd (write_cache cfg0 (at_time (t0 + 999) (Responded ok_response)) key_rice
                 (VDict nutrients) empty_store)))
  = Return VNone.
Proof.
  split.
  - refine (proj2 (proj1 (write_then_fetch cfg0
                            (at_time (t0 + 999) (Responded ok_response))
                            (at_time (t0 + 3600000000) (Responded ok_response))
                            key_rice (VDict nutrients) empty_store []
                            eq_refl eq_refl eq_refl) _) eq_refl).
    by_computation.
  - refine (proj2 (write_then_fetch cfg0
                     (at_time (t0 + 999) (Responded ok_response))
                     (at_time (t0 + 3600000001) (Responded ok_response))
                     key_rice (VDict nutrients) empty_store []
                     eq_refl eq_refl eq_refl) _).
    by_computation.
Defined.

(** X8 at the scenario: a write for another key. *)
Lemma write_other_key_witness :
  fst (fetch_from_cache (at_time (t0 + 5000000) (Responded ok_response)) key_rice
         (snd (write_cache cfg0 (at_time (t0 + 1) (Responded ok_response))
                 (py "another key") (VDict [])
                 (World (Some [cached_entry t0]) []))))
  = fst (fetch_from_cache (at_time (t0 + 5000000) (Responded ok_response)) key_rice
           (World (Some [cached_entry t0]) [])).
Proof.
  refine (write_other_key cfg0 (at_time (t0 + 1) (Responded ok_response))
            (at_time (t0 + 5000000) (Responded ok_response))
            (py "another key") key_rice (VDict [])
            (World (Some [cached_entry t0]) []) _).
  by_computation.
Defined.

(** X9 at the empty store and at an expired entry. *)
Lemma fetch_misses_witness :
  fst (fetch_from_cache (at_time t0 (Responded ok_response)) key_rice empty_store)
  = Return VNone
  /\
  fst (fetch_from_cache (at_time (t0 + 3600000001) (Responded ok_response))
         key_rice (World (Some [cached_entry t0]) []))
  = Return VNone.
Proof.
  split.
  - refine (proj2 (fetch_misses (at_time t0 (Responded ok_response)) key_rice
                     empty_store [] eq_refl eq_refl) (or_introl eq_refl)).
  - refine (proj2 (fetch_misses (at_time (t0 + 3600000001) (Responded ok_response))
                     key_rice (World (Some [cached_entry t0]) []) [cached_entry t0]
                     eq_refl eq_refl)
                  (or_intror (ex_intro _ (cached_entry t0) (conj eq_refl (or_introl _))))).
    exists (t0 + timedelta_seconds 3600); split; by_computation.
Defined.

(** X10 at the first request of the scenario: its write follows an
    answer of the provider. *)
Lemma backend_request_order_witness :
  exists r v,
    edamam (at_time t0 (Responded ok_response)) = Responded r
    /\ status_code r < 400 /\ json r = Some v.
Proof.
  pose proof (backend_request_order ascii_only plain_repr cfg0
                (at_time t0 (Responded ok_response)) rice empty_store) as H.
  rewrite make_hash_rice in H.
  refine (proj1 (proj2 H) _).
  vm_compute; right; right; left; reflexivity.
Defined.

(** X11 at the first request of the scenario, root variant. *)
Lemma root_request_order_witness :
  exists r v,
    edamam (at_time t0 (Responded ok_response)) = Responded r
    /\ status_code r < 400 /\ json r = Some v.
Proof.
  assert (E : sha256_hex (join LF (root_normalized ascii_only rice)) = Return key_rice)
    by by_computation.
  pose proof (root_request_order ascii_only cfg0
                (at_time t0 (Responded ok_response)) rice empty_store) as H.
  rewrite E in H.
  refine (proj1 (proj2 H) _).
  vm_compute; right; right; left; reflexivity.
Defined.

(** X12 at the scenario with a provider that cannot be reached. *)
Lemma provider_unreachable_witness :
  fst (analyze ascii_only plain_repr cfg0 (unreachable t0) rice empty_store)
  = Raise (TransportError (py "timed out"))
  /\
  fst (analyze_nutrition ascii_only cfg0 (unreachable t0) rice empty_store)
  = Raise (HTTPException 502
             (VStr (py "Error contacting nutrition service: timed out"))).
Proof.
  split.
  - refine (proj1 (proj1 (provider_unreachable ascii_only plain_repr cfg0
                            (unreachable t0) rice empty_store (py "timed out")
                            eq_refl) _)).
    by_computation.
  - refine (proj1 (proj2 (provider_unreachable ascii_only plain_repr cfg0
                            (unreachable t0) rice empty_store (py "timed out")
                            eq_refl) _)).
    by_computation.
Defined.

(** X13 at the second request of the scenario. *)
Lemma hit_only_reads_witness :
  World (Some [cached_entry t0]) [Find_one key_rice]
  = log (Find_one key_rice) (World (Some [cached_entry t0]) [])
  /\
  World (Some [root_entry rice key_rice (VDict nutrients) t0]) [Find_one key_rice]
  = log (Find_one key_rice)
      (World (Some [root_entry rice key_rice (VDict nutrients) t0]) []).
Proof.
  split.
  - refine (proj1 (hit_only_reads ascii_only plain_repr cfg0
                     (at_time (t0 + 5000000) (Responded ok_response)) rice
                     (World (Some [cached_entry t0]) []) _
                     (Build_response (py "hit") key_rice nutrients) eq_refl) _).
    by_computation.
  - refine (proj2 (hit_only_reads ascii_only plain_repr cfg0
                     (at_time (t0 + 5000000) (Responded ok_response)) rice
                     (World (Some [root_entry rice key_rice (VDict nutrients) t0]) []) _
                     (Build_response (py "hit") key_rice nutrients) eq_refl) _).
    by_computation.
Defined.

(** X14 at an entry written by the backend variant and read by the root
    variant five seconds later. *)
Lemma root_hit_without_result_witness :
  analyze_nutrition ascii_only cfg0
    (at_time (t0 + 5000000) (Responded ok_response)) rice
    (World (Some [cached_entry t0]) [])
  = (Return (Build_response (py "hit") key_rice []),
     log (Find_one key_rice) (World (Some [cached_entry t0]) [])).
Proof.
  refine (root_hit_without_result ascii_only cfg0
            (at_time (t0 + 5000000) (Responded ok_response)) rice
            (World (Some [cached_entry t0]) []) [cached_entry t0]
            (cached_entry t0) key_rice eq_refl _ _ eq_refl eq_refl _ eq_refl);
    by_computation.
Defined.

(** X15 at a request answered 404. *)
Lemma validate_api_report_witness :
  error (snd (validate_api ascii_only (fun d => d / 1000) sample_request 0 250000
                (Answered not_found)))
  = Some (firstn 300 (text_of not_found))
  /\ (length (firstn 300 (text_of not_found)) <= 300)%nat.
Proof.
  refine (proj2 (proj2 (proj1 (proj2 (proj2
            (validate_api_report ascii_only (fun d => d / 1000) sample_request
               0 250000 (Answered not_found)))) not_found eq_refl)) _).
  by_computation.
Defined.

(** X16 at a base with two trailing slashes and a path without a leading
    one. *)
Lemma validate_api_request_witness :
  fst (validate_api ascii_only (fun d => d / 1000) sample_request 0 250000
         (Answered not_found))
  = (py "GET", py "https://api.example.com/health").
Proof.
  assert (H := proj1 (proj2 (validate_api_request ascii_only (fun d => d / 1000)
                               sample_request 0 250000 (Answered not_found)))
                 (or_introl eq_refl)).
  apply injective_projections; [exact H | reflexivity].
Defined.

(** X17 at a handle that lists one collection, with only the URL
    variable set. *)
Lemma test_database_report_witness :
  lookup (test_database (Some sample_database) (Some (py "mongodb://db")) None)
    (py "connection_status")
  = Some (VStr (py "Connected")).
Proof.
  refine (proj2 (proj2 (proj2 (proj2
            (test_database_report (Some sample_database)
               (Some (py "mongodb://db")) None)))) _).
  discriminate.
Defined.
